(** * Order and cart controllers of the storefront backend

    A shallow embedding of [controllers/orderController.js] and
    [controllers/cartController.js].  The three Mongoose collections the
    handlers touch (products, carts, orders) form an explicit store that
    every handler takes and returns; a handler's HTTP reply is a value of
    type [Response].

    JavaScript numbers that hold money are IEEE-754 binary64 values and are
    modelled by Rocq's primitive floats, which are the same binary64 values
    with the same rounding.  Stock levels and stored quantities are
    integers and are modelled in [Z].  What a request body carries is
    modelled as the validators let it through: a quantity is an integer
    number or a string of digits, a product id is a hexadecimal string in
    either case.

    Not modelled: the schema validation Mongoose runs on [save] and
    [create] beyond the cast of a quantity to a number, timestamps, and
    the read-only handlers. *)

From Stdlib Require Import ZArith Ascii String PrimFloat SpecFloat FloatOps DecimalString.
From stdpp Require Import gmap strings list fin_maps.

Local Open Scope Z_scope.

(** ** Data model *)

(** A Mongo ObjectId, as its hexadecimal string. *)
Abbreviation ObjectId := string (only parsing).

(** [req.user], supplied by the authentication middleware. *)
Record User := mkUser {
  user_id : ObjectId;
  isAdmin : bool
}.

(** The fields of [productSchema] (models/Product.js) that the handlers
    read or write. *)
Record Product := mkProduct {
  product_name : string;
  product_price : float;
  product_stock : Z;
  product_images : list string;
  product_isActive : bool
}.

(** A stored cart line: [{ product, quantity, price }]. *)
Record CartItem := mkCartItem {
  item_product : ObjectId;
  item_quantity : Z;
  item_price : float
}.

(** A cart line after [.populate('items.product', ...)]: the reference is
    replaced by the product document, or by [null] when no product has
    that id.  [pop_ref] keeps the id, which is [item.product._id] whenever
    the document is there. *)
Record PopulatedItem := mkPopulatedItem {
  pop_ref : ObjectId;
  pop_product : option Product;
  pop_quantity : Z;
  pop_price : float
}.

(** Modelled from the spec: the Order schema (models/Order.js) is not
    among the sources.  The spec gives paymentStatus the values
    Pending/Paid/Refunded and orderStatus the values
    Processing/Shipped/Delivered/Cancelled, and a new order starts as
    Pending and Processing. *)
Inductive PaymentStatus := Pending | Paid | Refunded.
Inductive OrderStatus := Processing | Shipped | Delivered | Cancelled.

Global Instance PaymentStatus_eq_dec : EqDecision PaymentStatus.
Proof. solve_decision. Defined.
Global Instance OrderStatus_eq_dec : EqDecision OrderStatus.
Proof. solve_decision. Defined.

(** An order line: the snapshot pushed onto [orderItems]. *)
Record OrderItem := mkOrderItem {
  oi_product : ObjectId;
  oi_name : string;
  oi_image : string;
  oi_price : float;
  oi_quantity : Z
}.

Record Order := mkOrder {
  order_user : ObjectId;
  order_items : list OrderItem;
  order_shippingAddress : string;
  order_paymentMethod : string;
  order_itemsPrice : float;
  order_shippingPrice : float;
  order_taxPrice : float;
  order_totalAmount : float;
  order_paymentStatus : PaymentStatus;
  order_orderStatus : OrderStatus;
  order_trackingNumber : option string;
  order_notes : option string;
  order_paidAt : option Z;
  order_deliveredAt : option Z
}.

(** The database.  Products are keyed by their id and carts by the id of
    the owning user ([Cart.findOne({ user })]).  Orders are never deleted,
    so the collection is a list and an order's id is its position. *)
Record Store := mkStore {
  products : gmap string Product;
  carts : gmap string (list CartItem);
  orders : list Order
}.

(** [req.body.quantity] as [validateCartItem] lets it through: [isInt]
    accepts an integer number and also a string holding an optional sign
    and decimal digits, and no sanitizer turns the string into a number. *)
Inductive Quantity :=
| Num (z : Z)
| Str (t : string).

(** ** Replies *)

(** The text of the [message] field, one constructor per literal or
    template string of the two controllers. *)
Inductive Message :=
| CartIsEmpty
| NoLongerAvailable (name : string)
| InsufficientStock (name : string) (available requested : Z)
| OrderCreated
| OrderNotFound
| NotAuthorizedToUpdate
| NotAuthorizedToCancel
| OrderAlreadyPaid
| PaymentUpdated
| StatusUpdated
| OrderCannotBeCancelled
| OrderCancelled
| ProductNotFound
| ProductNotAvailable
| OnlyInStock (available : Z)
| CannotAddMore (quantity : Quantity) (more : Z)
| ItemAdded.

(** [Json status message data] is [res.status(status).json({ success,
    message, data })], with [success] true exactly for the 2xx replies;
    [Next] is [next(error)], reached when a storage call rejects. *)
Inductive Response (A : Type) :=
| Json (status : nat) (message : option Message) (data : option A)
| Next.
Arguments Json {A} status message data.
Arguments Next {A}.

Definition success {A} (r : Response A) : bool :=
  match r with
  | Json status _ _ => bool_decide (200 ≤ status < 300)%nat
  | Next => false
  end.

Definition fail {A} (status : nat) (m : Message) : Response A :=
  Json status (Some m) None.

(** ** Numbers *)

(** The JavaScript number holding an integer: the binary64 value nearest
    to it (ties to even), which is the integer itself up to 2^53. *)
Definition number_of_Z (z : Z) : float :=
  SF2Prim (binary_normalize 53 1024 z 0 false).

(** The literal [0.1], that is the binary64 value nearest to one tenth. *)
Definition tenth : float := 0x1.999999999999ap-4%float.

(** [String(z)] for an integer [z]: its decimal digits. *)
Definition show_int (z : Z) : string := NilZero.string_of_int (Z.to_int z).

Definition digit_of (c : ascii) : option Z :=
  let n := Z.of_N (N_of_ascii c) in
  if (48 <=? n) && (n <=? 57) then Some (n - 48) else None.

Fixpoint read_digits (t : string) (acc : Z) : option Z :=
  match t with
  | EmptyString => Some acc
  | String c t' =>
    match digit_of c with
    | Some d => read_digits t' (10 * acc + d)
    | None => None
    end
  end.

(** [Number(t)] on the strings that reach the handler: an optional sign
    and decimal digits read as that integer, the empty string as 0, and
    anything else (digits with a sign in their middle, say) is NaN, here
    [None]. *)
Definition read_int (t : string) : option Z :=
  match t with
  | EmptyString => Some 0
  | String "+" EmptyString => None
  | String "-" EmptyString => None
  | String "+" t' => read_digits t' 0
  | String "-" t' => Z.opp <$> read_digits t' 0
  | _ => read_digits t 0
  end.

(** The number a quantity stands for where JavaScript or Mongoose turns
    it into one: in a comparison with a number, and when it is cast to
    the schema's [Number]. *)
Definition as_number (q : Quantity) : option Z :=
  match q with
  | Num z => Some z
  | Str t => read_int t
  end.

(** [a < b] on numbers; a comparison with NaN is false. *)
Definition js_lt (a b : option Z) : bool :=
  match a, b with
  | Some x, Some y => x <? y
  | _, _ => false
  end.

(** [n + q] for a number [n]: addition when [q] is a number, and the
    concatenation of [String(n)] and [q] when [q] is a string. *)
Definition js_plus (n : Z) (q : Quantity) : Quantity :=
  match q with
  | Num z => Num (n + z)
  | Str t => Str (show_int n ++ t)
  end.

(** The text of an ObjectId that a hexadecimal string is cast to:
    [toString()] prints it in lower case. *)
Definition lower_hex_digit (c : ascii) : ascii :=
  match c with
  | "A" => "a" | "B" => "b" | "C" => "c" | "D" => "d" | "E" => "e" | "F" => "f"
  | _ => c
  end%char.

Fixpoint lower_hex (t : string) : string :=
  match t with
  | EmptyString => EmptyString
  | String c t' => String (lower_hex_digit c) (lower_hex t')
  end.

(** ** Storage primitives *)

Definition populate (ps : gmap string Product) (item : CartItem) : PopulatedItem :=
  {| pop_ref := item_product item;
     pop_product := ps !! item_product item;
     pop_quantity := item_quantity item;
     pop_price := item_price item |}.

(** [Cart.findOne({ user }).populate('items.product', ...)]. *)
Definition findCart (uid : ObjectId) (s : Store) : option (list PopulatedItem) :=
  map (populate (products s)) <$> carts s !! uid.

Definition add_stock (d : Z) (p : Product) : Product :=
  {| product_name := product_name p;
     product_price := product_price p;
     product_stock := product_stock p + d;
     product_images := product_images p;
     product_isActive := product_isActive p |}.

(** [Product.findByIdAndUpdate(id, { $inc: { stock: d } })]: an update
    operator applied by the database, without schema validators; no
    document with that id means no change. *)
Definition incStock (id : ObjectId) (d : Z) (s : Store) : Store :=
  {| products := alter (add_stock d) id (products s);
     carts := carts s;
     orders := orders s |}.

(** [Order.create(doc)]. *)
Definition insertOrder (o : Order) (s : Store) : Store :=
  {| products := products s; carts := carts s; orders := orders s ++ [o] |}.

(** [order.save()] on the order found at position [id]. *)
Definition saveOrder (id : nat) (o : Order) (s : Store) : Store :=
  {| products := products s; carts := carts s; orders := <[id := o]> (orders s) |}.

(** [cart.save()] for the cart of user [uid]. *)
Definition saveCart (uid : ObjectId) (items : list CartItem) (s : Store) : Store :=
  {| products := products s; carts := <[uid := items]> (carts s); orders := orders s |}.

(** One awaited write.  [fault = Some 0] makes it reject; otherwise it
    goes through and the fault, if any, is one write nearer. *)
Definition write (fault : option nat) (w : Store → Store) (s : Store)
  : option (Store * option nat) :=
  match fault with
  | Some O => None
  | Some (S k) => Some (w s, Some k)
  | None => Some (w s, None)
  end.

(** Modelled from the spec: [clearCart] is a method of the Cart model
    (models/Cart.js), which is not among the sources.  The spec: "Clear
    the cart (remove all lines; cart row itself persists for reuse)". *)
Definition clearCart (uid : ObjectId) (s : Store) : Store := saveCart uid [] s.

(** A handler issues its storage writes one [await] after another.
    [run_writes fault ws s] runs the writes [ws] in order; [fault = Some k]
    makes the write at position [k] reject, which ends the run with the
    store as the earlier writes left it.  The boolean tells whether every
    write went through. *)
Fixpoint run_writes (fault : option nat) (ws : list (Store → Store)) (s : Store)
  : bool * Store :=
  match ws with
  | [] => (true, s)
  | w :: ws' =>
    match fault with
    | Some O => (false, s)
    | Some (S k) => run_writes (Some k) ws' (w s)
    | None => run_writes None ws' (w s)
    end
  end.

(** ** orderController.createOrder *)

Definition display_name (name : string) : string :=
  if bool_decide (name = "") then "Unknown" else name.

Definition first_image (images : list string) : string :=
  match images with
  | [] => ""
  | i :: _ => i
  end.

(** The loop over [cart.items] (lines 27-51): the first line that fails a
    check returns its 400 message; otherwise the snapshot lines and the
    running total are accumulated. *)
Fixpoint check_items (items : list PopulatedItem) (orderItems : list OrderItem)
    (totalAmount : float) : Message + list OrderItem * float :=
  match items with
  | [] => inr (orderItems, totalAmount)
  | item :: rest =>
    match pop_product item with
    | None => inl (NoLongerAvailable "Unknown")
    | Some p =>
      if negb (product_isActive p) then
        inl (NoLongerAvailable (display_name (product_name p)))
      else if product_stock p <? pop_quantity item then
        inl (InsufficientStock (product_name p) (product_stock p) (pop_quantity item))
      else
        check_items rest
          (orderItems ++ [ {| oi_product := pop_ref item;
                              oi_name := product_name p;
                              oi_image := first_image (product_images p);
                              oi_price := product_price p;
                              oi_quantity := pop_quantity item |} ])
          (totalAmount + product_price p * number_of_Z (pop_quantity item))%float
    end
  end.

Definition shippingPrice_of (totalAmount : float) : float :=
  if (100 <? totalAmount)%float then 0%float else 10%float.

Definition taxPrice_of (totalAmount : float) : float :=
  (totalAmount * tenth)%float.

Definition new_order (uid : ObjectId) (shippingAddress paymentMethod : string)
    (orderItems : list OrderItem) (totalAmount : float) : Order :=
  let shippingPrice := shippingPrice_of totalAmount in
  let taxPrice := taxPrice_of totalAmount in
  let finalTotal := (totalAmount + shippingPrice + taxPrice)%float in
  {| order_user := uid;
     order_items := orderItems;
     order_shippingAddress := shippingAddress;
     order_paymentMethod := paymentMethod;
     order_itemsPrice := totalAmount;
     order_shippingPrice := shippingPrice;
     order_taxPrice := taxPrice;
     order_totalAmount := finalTotal;
     order_paymentStatus := Pending;
     order_orderStatus := Processing;
     order_trackingNumber := None;
     order_notes := None;
     order_paidAt := None;
     order_deliveredAt := None |}.

(** The stock updates of lines 71-76, one write per cart line. *)
Definition stock_writes (items : list PopulatedItem) : list (Store → Store) :=
  map (λ item, incStock (pop_ref item) (- pop_quantity item)) items.

(** The writes of lines 59-79 in program order. *)
Definition commit_writes (uid : ObjectId) (order : Order)
    (items : list PopulatedItem) : list (Store → Store) :=
  insertOrder order :: stock_writes items ++ [clearCart uid].

(** The handler from line 16 on, given the cart that line 13 loaded.  The
    cart is a snapshot: the handler never reads it again.  [fault] names
    the storage write that rejects, if any; the rejection is caught on
    line 86 and handed to [next]. *)
Definition createOrder_with (fault : option nat) (user : User)
    (shippingAddress paymentMethod : string)
    (cart : option (list PopulatedItem)) (s : Store) : Response Order * Store :=
  match cart with
  | None => (fail 400 CartIsEmpty, s)
  | Some [] => (fail 400 CartIsEmpty, s)
  | Some items =>
    match check_items items [] 0%float with
    | inl m => (fail 400 m, s)
    | inr (orderItems, totalAmount) =>
      let order :=
        new_order (user_id user) shippingAddress paymentMethod orderItems totalAmount in
      match run_writes fault (commit_writes (user_id user) order items) s with
      | (true, s') => (Json 201 (Some OrderCreated) (Some order), s')
      | (false, s') => (Next, s')
      end
    end
  end.

Definition createOrder (fault : option nat) (user : User)
    (shippingAddress paymentMethod : string) (s : Store) : Response Order * Store :=
  createOrder_with fault user shippingAddress paymentMethod
    (findCart (user_id user) s) s.

(** ** orderController.updateOrderToPaid *)

Definition mark_paid (now : Z) (o : Order) : Order :=
  {| order_user := order_user o;
     order_items := order_items o;
     order_shippingAddress := order_shippingAddress o;
     order_paymentMethod := order_paymentMethod o;
     order_itemsPrice := order_itemsPrice o;
     order_shippingPrice := order_shippingPrice o;
     order_taxPrice := order_taxPrice o;
     order_totalAmount := order_totalAmount o;
     order_paymentStatus := Paid;
     order_orderStatus := order_orderStatus o;
     order_trackingNumber := order_trackingNumber o;
     order_notes := order_notes o;
     order_paidAt := Some now;
     order_deliveredAt := order_deliveredAt o |}.

(** [now] is the value [Date.now()] returns during the call. *)
Definition updateOrderToPaid (now : Z) (user : User) (id : nat) (s : Store)
  : Response Order * Store :=
  match orders s !! id with
  | None => (fail 404 OrderNotFound, s)
  | Some order =>
    if bool_decide (order_user order ≠ user_id user) && negb (isAdmin user) then
      (fail 403 NotAuthorizedToUpdate, s)
    else if bool_decide (order_paymentStatus order = Paid) then
      (fail 400 OrderAlreadyPaid, s)
    else
      let order' := mark_paid now order in
      (Json 200 (Some PaymentUpdated) (Some order'), saveOrder id order' s)
  end.

(** ** orderController.updateOrderStatus *)

(** An optional body field that passes [if (field)]: present and not the
    empty string. *)
Definition truthy (field : option string) : bool :=
  match field with
  | Some v => negb (bool_decide (v = ""))
  | None => false
  end.

Definition set_status (now : Z) (orderStatus : OrderStatus)
    (trackingNumber notes : option string) (o : Order) : Order :=
  {| order_user := order_user o;
     order_items := order_items o;
     order_shippingAddress := order_shippingAddress o;
     order_paymentMethod := order_paymentMethod o;
     order_itemsPrice := order_itemsPrice o;
     order_shippingPrice := order_shippingPrice o;
     order_taxPrice := order_taxPrice o;
     order_totalAmount := order_totalAmount o;
     order_paymentStatus := order_paymentStatus o;
     order_orderStatus := orderStatus;
     order_trackingNumber :=
       if truthy trackingNumber then trackingNumber else order_trackingNumber o;
     order_notes := if truthy notes then notes else order_notes o;
     order_paidAt := order_paidAt o;
     order_deliveredAt :=
       if bool_decide (orderStatus = Delivered) then Some now else order_deliveredAt o |}.

Definition updateOrderStatus (now : Z) (id : nat) (orderStatus : OrderStatus)
    (trackingNumber notes : option string) (s : Store) : Response Order * Store :=
  match orders s !! id with
  | None => (fail 404 OrderNotFound, s)
  | Some order =>
    let order' := set_status now orderStatus trackingNumber notes order in
    (Json 200 (Some StatusUpdated) (Some order'), saveOrder id order' s)
  end.

(** ** orderController.cancelOrder *)

Definition terminal (st : OrderStatus) : bool :=
  match st with
  | Delivered | Cancelled => true
  | _ => false
  end.

Definition mark_cancelled (o : Order) : Order :=
  {| order_user := order_user o;
     order_items := order_items o;
     order_shippingAddress := order_shippingAddress o;
     order_paymentMethod := order_paymentMethod o;
     order_itemsPrice := order_itemsPrice o;
     order_shippingPrice := order_shippingPrice o;
     order_taxPrice := order_taxPrice o;
     order_totalAmount := order_totalAmount o;
     order_paymentStatus := Refunded;
     order_orderStatus := Cancelled;
     order_trackingNumber := order_trackingNumber o;
     order_notes := order_notes o;
     order_paidAt := order_paidAt o;
     order_deliveredAt := order_deliveredAt o |}.

(** The loop of lines 369-374. *)
Definition restore_stock (items : list OrderItem) (s : Store) : Store :=
  foldl (λ s item, incStock (oi_product item) (oi_quantity item) s) s items.

Definition cancelOrder (user : User) (id : nat) (s : Store) : Response Order * Store :=
  match orders s !! id with
  | None => (fail 404 OrderNotFound, s)
  | Some order =>
    if bool_decide (order_user order ≠ user_id user) then
      (fail 403 NotAuthorizedToCancel, s)
    else if terminal (order_orderStatus order) then
      (fail 400 OrderCannotBeCancelled, s)
    else
      let order' := mark_cancelled order in
      (Json 200 (Some OrderCancelled) (Some order'),
       saveOrder id order' (restore_stock (order_items order) s))
  end.

(** ** cartController.addToCart *)

(** Line 76, [item.product.toString() === productId]: the stored id,
    printed in lower case, against the string of the request. *)
Definition has_product (productId : string) (item : CartItem) : bool :=
  bool_decide (item_product item = productId).

(** [existingItem.quantity = newQuantity]: [find] hands out the first
    matching line of the array itself, so the assignment changes that line
    in place. *)
Fixpoint set_first_quantity (productId : string) (newQuantity : Z)
    (items : list CartItem) : list CartItem :=
  match items with
  | [] => []
  | item :: rest =>
    if has_product productId item then
      {| item_product := item_product item;
         item_quantity := newQuantity;
         item_price := item_price item |} :: rest
    else item :: set_first_quantity productId newQuantity rest
  end.

(** Lines 92-104: the lines the handler holds are cast to the schema and
    saved.  A quantity that is not a number fails the cast, and [save]
    rejects; so does a write that fails. *)
Definition save_lines (fault : option nat) (uid : ObjectId)
    (lines : option (list CartItem)) (s : Store) : Response (list CartItem) * Store :=
  match lines with
  | None => (Next, s)
  | Some items' =>
    match write fault (saveCart uid items') s with
    | Some (s', _) => (Json 200 (Some ItemAdded) (Some items'), s')
    | None => (Next, s)
    end
  end.

(** [productId] and [quantity] are the two fields of the request body as
    they come.  [Product.findById] and the pushed line cast [productId]
    to an ObjectId, line 76 compares it as the string it is; a string
    that is not 24 hexadecimal digits does not get past [isMongoId].
    [fault] names the storage write that rejects, if any: [Cart.create]
    when the user has no cart yet, then [cart.save]. *)
Definition addToCart (fault : option nat) (user : User) (productId : string)
    (quantity : Quantity) (s : Store) : Response (list CartItem) * Store :=
  match products s !! lower_hex productId with
  | None => (fail 404 ProductNotFound, s)
  | Some product =>
    if negb (product_isActive product) then (fail 400 ProductNotAvailable, s)
    else if js_lt (Some (product_stock product)) (as_number quantity) then
      (fail 400 (OnlyInStock (product_stock product)), s)
    else
      (* find or create the cart *)
      let found :=
        match carts s !! user_id user with
        | Some items => Some (items, (s, fault))
        | None =>
          match write fault (saveCart (user_id user) []) s with
          | Some (s1, fault1) => Some ([], (s1, fault1))
          | None => None
          end
        end in
      match found with
      | None => (Next, s)
      | Some (items, (s1, fault1)) =>
        match List.find (has_product productId) items with
        | Some existingItem =>
          let newQuantity := js_plus (item_quantity existingItem) quantity in
          if js_lt (Some (product_stock product)) (as_number newQuantity) then
            (fail 400 (CannotAddMore quantity
                         (product_stock product - item_quantity existingItem)), s1)
          else
            save_lines fault1 (user_id user)
              ((λ n, set_first_quantity productId n items) <$> as_number newQuantity) s1
        | None =>
          save_lines fault1 (user_id user)
            ((λ n, items ++ [ {| item_product := lower_hex productId;
                                 item_quantity := n;
                                 item_price := product_price product |} ])
               <$> as_number quantity) s1
        end
      end
  end.

(** ** cartController.validateCart *)

(** An entry of [validationErrors]. *)
Inductive ValidationError :=
| NoLongerExists
| NoLongerActive (productId : ObjectId) (productName : string)
| StockShort (productId : ObjectId) (productName : string)
    (requestedQuantity availableQuantity : Z).

(** The body of the reply: the cart as the handler holds it in memory,
    the error list and the [isValid] flag. *)
Record Validation := mkValidation {
  val_cart : list PopulatedItem;
  val_errors : list ValidationError;
  val_isValid : bool
}.

(** What the loop of lines 264-298 leaves behind. [lr_array] is
    [cart.items] after the loop: the array is the one that was loaded, but
    the lines that reached the assignments of lines 292 and 296 were
    changed in place.  [lr_updated] is [updatedItems], which holds those
    same changed lines and nothing else. *)
Record LoopResult := mkLoopResult {
  lr_errors : list ValidationError;
  lr_updated : list PopulatedItem;
  lr_array : list PopulatedItem
}.

Definition refresh (p : Product) (item : PopulatedItem) : PopulatedItem :=
  {| pop_ref := pop_ref item;
     pop_product := pop_product item;
     pop_quantity :=
       if product_stock p <? pop_quantity item then product_stock p
       else pop_quantity item;
     pop_price := product_price p |}.

Fixpoint validate_loop (items : list PopulatedItem) : LoopResult :=
  match items with
  | [] => mkLoopResult [] [] []
  | item :: rest =>
    let r := validate_loop rest in
    match pop_product item with
    | None =>
      mkLoopResult (NoLongerExists :: lr_errors r) (lr_updated r) (item :: lr_array r)
    | Some p =>
      if negb (product_isActive p) then
        mkLoopResult (NoLongerActive (pop_ref item) (product_name p) :: lr_errors r)
          (lr_updated r) (item :: lr_array r)
      else
        let item' := refresh p item in
        mkLoopResult
          (if product_stock p <? pop_quantity item then
             StockShort (pop_ref item) (product_name p)
               (pop_quantity item) (product_stock p) :: lr_errors r
           else lr_errors r)
          (item' :: lr_updated r) (item' :: lr_array r)
    end
  end.

(** What [cart.save()] writes for a populated line: the reference, the
    quantity and the price. *)
Definition depopulate (item : PopulatedItem) : CartItem :=
  {| item_product := pop_ref item;
     item_quantity := pop_quantity item;
     item_price := pop_price item |}.

Definition validateCart (user : User) (s : Store) : Response Validation * Store :=
  match findCart (user_id user) s with
  | None => (fail 400 CartIsEmpty, s)
  | Some [] => (fail 400 CartIsEmpty, s)
  | Some items =>
    let r := validate_loop items in
    let changed :=
      negb (bool_decide (length (lr_updated r) = length items))
      || bool_decide (0 < length (lr_errors r))%nat in
    let cart_items := if changed then lr_updated r else lr_array r in
    let s' :=
      if changed then saveCart (user_id user) (map depopulate (lr_updated r)) s
      else s in
    (Json 200 None
       (Some {| val_cart := cart_items;
                val_errors := lr_errors r;
                val_isValid := bool_decide (length (lr_errors r) = 0%nat) |}),
     s')
  end.

(** ** Requests *)

(** Modelled from the spec: the [adminOnly] middleware
    (middlewares/auth.js) is not among the sources.  The spec makes the
    status route "admin only" and maps a role mismatch to 403. *)
Definition adminOnly {A} (user : User) (handler : Store → Response A * Store)
    (s : Store) : Response A * Store :=
  if isAdmin user then handler s else (Json 403 None None, s).

(** The requests of routes/orders.js and of the cart routes that reach the
    handlers above. *)
Inductive Request :=
| PostOrder (fault : option nat) (user : User) (shippingAddress paymentMethod : string)
| PutPay (now : Z) (user : User) (id : nat)
| PutCancel (user : User) (id : nat)
| PutStatus (now : Z) (user : User) (id : nat) (orderStatus : OrderStatus)
    (trackingNumber notes : option string)
| PostCart (fault : option nat) (user : User) (productId : string) (quantity : Quantity)
| PostCartValidate (user : User).

(** The store a request leaves behind. *)
Definition handle (s : Store) (r : Request) : Store :=
  match r with
  | PostOrder fault user shippingAddress paymentMethod =>
    (createOrder fault user shippingAddress paymentMethod s).2
  | PutPay now user id => (updateOrderToPaid now user id s).2
  | PutCancel user id => (cancelOrder user id s).2
  | PutStatus now user id orderStatus trackingNumber notes =>
    (adminOnly user (updateOrderStatus now id orderStatus trackingNumber notes) s).2
  | PostCart fault user productId quantity =>
    (addToCart fault user productId quantity s).2
  | PostCartValidate user => (validateCart user s).2
  end.

(** Requests served one after another. *)
Definition serve (rs : list Request) (s : Store) : Store := foldl handle s rs.

(** ** Vocabulary of the properties *)

(** A populated line passes the checks of lines 28-40. *)
Definition line_ok (item : PopulatedItem) : bool :=
  match pop_product item with
  | Some p => product_isActive p && (pop_quantity item <=? product_stock p)
  | None => false
  end.

(** The total of a cart at catalog prices: the lines are added up from
    zero in cart order, each as current unit price times quantity. *)
Definition catalog_total (ps : gmap string Product) (items : list CartItem) : float :=
  foldl (λ total item,
           match ps !! item_product item with
           | Some p => (total + product_price p * number_of_Z (item_quantity item))%float
           | None => total
           end) 0%float items.

(** The stock of a product, when it is in the catalog. *)
Definition stock_of (id : ObjectId) (s : Store) : option Z :=
  product_stock <$> products s !! id.

(** The quantity a list of (product, quantity) pairs asks of product [id]. *)
Definition demand (id : ObjectId) (lines : list (string * Z)) : Z :=
  foldr (λ l acc, if bool_decide (l.1 = id) then l.2 + acc else acc) 0 lines.

Definition cart_lines (items : list PopulatedItem) : list (string * Z) :=
  map (λ item, (pop_ref item, pop_quantity item)) items.

Definition order_lines (items : list OrderItem) : list (string * Z) :=
  map (λ item, (oi_product item, oi_quantity item)) items.

(** At most one line per product. *)
Definition one_line_per_product (items : list CartItem) : Prop :=
  NoDup (map item_product items).

(** A batch of [$inc] updates, one per (product, amount) pair. *)
Definition shift_stock (lines : list (string * Z)) (s : Store) : Store :=
  foldl (λ s l, incStock l.1 l.2 s) s lines.

Definition negate (lines : list (string * Z)) : list (string * Z) :=
  map (λ l, (l.1, - l.2)) lines.

Definition is_status_update (r : Request) : bool :=
  match r with
  | PutStatus _ _ _ _ _ _ => true
  | _ => false
  end.

(** The request, when it adds to a cart, names the product by the
    lower-case form of its id, the one [toString()] prints. *)
Definition names_stored_id (r : Request) : bool :=
  match r with
  | PostCart _ _ productId _ => bool_decide (lower_hex productId = productId)
  | _ => true
  end.

(** The request is a cancellation of order [id]. *)
Definition is_cancel_of (id : nat) (r : Request) : bool :=
  match r with
  | PutCancel _ i => bool_decide (i = id)
  | _ => false
  end.

(** The lines of a user's cart; a user without a cart document has none. *)
Definition cart_of (uid : ObjectId) (s : Store) : list CartItem :=
  default [] (carts s !! uid).

Definition with_quantity (q : Z) (item : CartItem) : CartItem :=
  {| item_product := item_product item; item_quantity := q; item_price := item_price item |}.

(** ** The reconciliation of validateCart, in the words of the spec *)

(** A line survives when its product exists and is active; a surviving
    line is clamped to the available stock and takes the catalog price;
    every dropped or clamped line is reported once. *)
Definition survives (item : PopulatedItem) : bool :=
  match pop_product item with
  | Some p => product_isActive p
  | None => false
  end.

Definition corrected (item : PopulatedItem) : PopulatedItem :=
  match pop_product item with
  | Some p =>
    {| pop_ref := pop_ref item;
       pop_product := pop_product item;
       pop_quantity := Z.min (pop_quantity item) (product_stock p);
       pop_price := product_price p |}
  | None => item
  end.

Definition line_errors (item : PopulatedItem) : list ValidationError :=
  match pop_product item with
  | None => [NoLongerExists]
  | Some p =>
    if product_isActive p then
      if product_stock p <? pop_quantity item then
        [StockShort (pop_ref item) (product_name p) (pop_quantity item) (product_stock p)]
      else []
    else [NoLongerActive (pop_ref item) (product_name p)]
  end.

(** ** A sample shop *)

Definition alice : User := mkUser "u-alice" false.
Definition bob : User := mkUser "u-bob" false.
Definition root : User := mkUser "u-root" true.

Definition widget (stock : Z) : Product :=
  mkProduct "Widget" 20%float stock ["widget.png"] true.

(** One product, priced 20, and Alice's cart holding [quantity] of it. *)
Definition shop (stock quantity : Z) : Store :=
  {| products := {[ "p-widget" := widget stock ]};
     carts := {[ "u-alice" := [mkCartItem "p-widget" quantity 20%float] ]};
     orders := [] |}.

(** The order Alice's checkout of three widgets creates: 60 for the
    items, 10 for shipping, 6 of tax, 76 in all. *)
Definition widget_order : Order :=
  new_order "u-alice" "12 Elm St" "PayPal"
    [mkOrderItem "p-widget" "Widget" "widget.png" 20%float 3] 60%float.

(** That order, not yet paid; two widgets left. *)
Definition unpaid_order_store : Store :=
  {| products := {[ "p-widget" := widget 2 ]};
     carts := {[ "u-alice" := [] ]};
     orders := [widget_order] |}.

Definition delivered_order : Order :=
  set_status 1700000000 Delivered None None widget_order.

(** That order, already delivered. *)
Definition after_delivery : Store :=
  {| products := {[ "p-widget" := widget 2 ]};
     carts := {[ "u-alice" := [] ]};
     orders := [delivered_order] |}.

(** One widget left, and it is in Alice's cart and in Bob's. *)
Definition last_widget : Store :=
  {| products := {[ "p-widget" := widget 1 ]};
     carts := {[ "u-alice" := [mkCartItem "p-widget" 1 20%float];
                 "u-bob" := [mkCartItem "p-widget" 1 20%float] ]};
     orders := [] |}.

(** Alice's cart captured the widget at 15; the catalog now says 20. *)
Definition repriced : Store :=
  {| products := {[ "p-widget" := widget 5 ]};
     carts := {[ "u-alice" := [mkCartItem "p-widget" 3 15%float] ]};
     orders := [] |}.

(** Ten widgets in the catalog and no cart yet. *)
Definition ten_widgets : Store :=
  {| products := {[ "p-widget" := widget 10 ]}; carts := ∅; orders := [] |}.

(** Five widgets and four gadgets; Alice's cart holds three widgets,
    Bob's one gadget. *)
Definition two_shoppers : Store :=
  {| products := {[ "p-widget" := widget 5;
                    "p-gadget" := mkProduct "Gadget" 35%float 4 ["gadget.png"] true ]};
     carts := {[ "u-alice" := [mkCartItem "p-widget" 3 20%float];
                 "u-bob" := [mkCartItem "p-gadget" 1 35%float] ]};
     orders := [] |}.

(** The widget is in Alice's cart and has since been withdrawn. *)
Definition withdrawn : Store :=
  {| products := {[ "p-widget" := mkProduct "Widget" 20%float 5 ["widget.png"] false ]};
     carts := {[ "u-alice" := [mkCartItem "p-widget" 1 20%float] ]};
     orders := [] |}.

(** Ten widgets under the id Mongo gave the product, and no cart yet. *)
Definition widget_id : string := "64b7f0a1c2d3e4f5a6b7c8d9".

Definition hex_shop : Store :=
  {| products := {[ widget_id := widget 10 ]}; carts := ∅; orders := [] |}.

(** * The other handlers *)

(** ** cartController.getCart *)

(** The filter of lines 18-20: [item.product && item.product.isActive]
    is the test [survives].  The cart is created when the user has none;
    it is saved only when the filter dropped a line. *)
Definition getCart (user : User) (s : Store) : Response (list PopulatedItem) * Store :=
  let '(items, s1) :=
    match findCart (user_id user) s with
    | Some items => (items, s)
    | None => ([], saveCart (user_id user) [] s)
    end in
  let activeItems := List.filter survives items in
  if bool_decide (length activeItems ≠ length items) then
    (Json 200 None (Some activeItems),
     saveCart (user_id user) (map depopulate activeItems) s1)
  else (Json 200 None (Some items), s1).

(** getCart with its storage calls able to reject.  [fault] names the
    write that does: [Cart.create] when the user has no cart, then
    [cart.save] when the filter dropped a line.  The rejection is caught
    on line 31 and handed to [next]; what was written before it stays. *)
Definition getCart_with (fault : option nat) (user : User) (s : Store)
  : Response (list PopulatedItem) * Store :=
  let found :=
    match findCart (user_id user) s with
    | Some items => Some (items, (s, fault))
    | None =>
      match write fault (saveCart (user_id user) []) s with
      | Some (s1, fault1) => Some ([], (s1, fault1))
      | None => None
      end
    end in
  match found with
  | None => (Next, s)
  | Some (items, (s1, fault1)) =>
    let activeItems := List.filter survives items in
    if bool_decide (length activeItems ≠ length items) then
      match write fault1 (saveCart (user_id user) (map depopulate activeItems)) s1 with
      | Some (s2, _) => (Json 200 None (Some activeItems), s2)
      | None => (Next, s1)
      end
    else (Json 200 None (Some items), s1)
  end.

(** ** Replies of the handlers below *)

(** The texts these handlers send: those of [Message], and their own. *)
Inductive Notice :=
| Said (m : Message)
| NotAuthorizedToAccess
| CartNotFound
| CartCleared
| ProductDeleted
| AlreadyReviewed
| ReviewAdded.

(** [Answer status notice data] is [res.status(status).json(...)];
    [Forward] is [next(error)]. *)
Inductive Reply (A : Type) :=
| Answer (status : nat) (notice : option Notice) (data : option A)
| Forward.
Arguments Answer {A} status notice data.
Arguments Forward {A}.

Definition answered_ok {A} (r : Reply A) : bool :=
  match r with
  | Answer status _ _ => bool_decide (200 ≤ status < 300)%nat
  | Forward => false
  end.

(** ** cartController.clearCart *)

(** The handler of DELETE /api/cart.  The name [clearCart] is taken by the
    cart method it calls. *)
Definition clearCart_handler (user : User) (s : Store) : Reply (list CartItem) * Store :=
  match carts s !! user_id user with
  | None => (Answer 404 (Some CartNotFound) None, s)
  | Some _ => (Answer 200 (Some CartCleared) (Some []), clearCart (user_id user) s)
  end.

(** ** productController.deleteProduct *)

(** [Product.findByIdAndDelete(id)]. *)
Definition deleteProduct (id : ObjectId) (s : Store) : Reply unit * Store :=
  match products s !! id with
  | None => (Answer 404 (Some (Said ProductNotFound)) None, s)
  | Some _ =>
    (Answer 200 (Some ProductDeleted) None,
     {| products := delete id (products s); carts := carts s; orders := orders s |})
  end.

(** ** orderController.getOrder *)

(** [account id] tells whether a user document with that id exists:
    [.populate('user', ...)] leaves [order.user] null when it does not, and
    reading [order.user._id] on line 138 then throws. *)
Definition getOrder (account : ObjectId → bool) (user : User) (id : nat) (s : Store)
  : Reply Order :=
  match orders s !! id with
  | None => Answer 404 (Some (Said OrderNotFound)) None
  | Some order =>
    if negb (account (order_user order)) then Forward
    else if bool_decide (order_user order ≠ user_id user) && negb (isAdmin user) then
      Answer 403 (Some NotAuthorizedToAccess) None
    else Answer 200 None (Some order)
  end.

(** ** orderController.getOrderStats *)

(** [{ $group: { _id: key, count: { $sum: 1 } } }]: one bucket per key
    value that occurs, with the number of orders that have it.  MongoDB
    fixes no order for the buckets; they are listed in the order of
    [keys], which enumerates the key type. *)
Definition group_count {K} `{EqDecision K} (keys : list K) (key : Order → K)
    (os : list Order) : list (K * nat) :=
  omap (λ k, match length (List.filter (λ o, bool_decide (key o = k)) os) with
             | O => None
             | n => Some (k, n)
             end) keys.

(** [x || 0] on a number: zero and NaN are falsy. *)
Definition or_zero (x : float) : float :=
  if (x =? 0)%float || PrimFloat.is_nan x then 0%float else x.

(** The reply of GET /api/orders/admin/stats, without [monthlyRevenue],
    which groups by the creation date that is not modelled.  The revenue
    is summed in collection order. *)
Record Stats := mkStats {
  totalOrders : nat;
  totalRevenue : float;
  ordersByStatus : list (OrderStatus * nat);
  ordersByPaymentStatus : list (PaymentStatus * nat)
}.

Definition getOrderStats (s : Store) : Stats :=
  let paid := List.filter (λ o, bool_decide (order_paymentStatus o = Paid)) (orders s) in
  {| totalOrders := length (orders s);
     totalRevenue :=
       match paid with
       | [] => 0%float
       | _ => or_zero (foldl (λ t o, (t + order_totalAmount o)%float) 0%float paid)
       end;
     ordersByStatus :=
       group_count [Processing; Shipped; Delivered; Cancelled] order_orderStatus (orders s);
     ordersByPaymentStatus :=
       group_count [Pending; Paid; Refunded] order_paymentStatus (orders s) |}.

(** ** orderController.getMyOrders *)

Record Paged := mkPaged {
  paged_count : nat;
  paged_total : nat;
  paged_page : positive;
  paged_pages : nat;
  paged_orders : list Order
}.

(** [page] and [limit] are the query parameters as [validatePagination]
    lets them through: absent, or a positive integer, so that
    [parseInt(...) || d] is the integer, or [d] when absent.  The orders
    collection is kept in creation order, so [sort({ createdAt: -1 })] is
    the reverse.  [Math.ceil(total / limit)] is taken on integers. *)
Definition getMyOrders (page limit : option positive) (user : User) (s : Store) : Paged :=
  let page := default 1%positive page in
  let limit := default 10%positive limit in
  let skip := ((Pos.to_nat page - 1) * Pos.to_nat limit)%nat in
  let mine := List.filter (λ o, bool_decide (order_user o = user_id user)) (orders s) in
  let found := take (Pos.to_nat limit) (drop skip (reverse mine)) in
  {| paged_count := length found;
     paged_total := length mine;
     paged_page := page;
     paged_pages := ((length mine + Pos.to_nat limit - 1) / Pos.to_nat limit)%nat;
     paged_orders := found |}.

(** ** models/Product.js: reviews and rating *)

Record Review := mkReview {
  review_user : ObjectId;
  review_name : string;
  review_rating : float;
  review_comment : string
}.

(** The fields of a product document that reviews touch. *)
Record Rated := mkRated {
  reviews : list Review;
  rating : float;
  numReviews : nat
}.

Definition calculateRating (p : Rated) : Rated :=
  match reviews p with
  | [] => {| reviews := reviews p; rating := 0%float; numReviews := 0 |}
  | _ =>
    let totalRating :=
      foldl (λ acc review, (acc + review_rating review)%float) 0%float (reviews p) in
    {| reviews := reviews p;
       rating := (totalRating / number_of_Z (Z.of_nat (length (reviews p))))%float;
       numReviews := length (reviews p) |}
  end.

(** [product.save()]: the pre-save hook recomputes the rating. *)
Definition saveRated (id : ObjectId) (p : Rated) (catalog : gmap string Rated)
  : gmap string Rated :=
  <[id := calculateRating p]> catalog.

(** ** productController.createProductReview *)

Definition reviewed_by (uid : ObjectId) (review : Review) : bool :=
  bool_decide (review_user review = uid).

(** [username] is [req.user.username]; [rating] is the integer the
    validator let through, turned into a number by [Number(rating)]. *)
Definition createProductReview (user : User) (username : string) (id : ObjectId)
    (rating : Z) (comment : string) (catalog : gmap string Rated)
  : Reply unit * gmap string Rated :=
  match catalog !! id with
  | None => (Answer 404 (Some (Said ProductNotFound)) None, catalog)
  | Some product =>
    match List.find (reviewed_by (user_id user)) (reviews product) with
    | Some alreadyReviewed => (Answer 400 (Some AlreadyReviewed) None, catalog)
    | None =>
      let review :=
        {| review_user := user_id user;
           review_name := username;
           review_rating := number_of_Z rating;
           review_comment := comment |} in
      let reviews' := reviews product ++ [review] in
      let product' :=
        {| reviews := reviews';
           rating :=
             (foldl (λ acc item, (review_rating item + acc)%float) 0%float reviews'
              / number_of_Z (Z.of_nat (length reviews')))%float;
           numReviews := length reviews' |} in
      (Answer 201 (Some ReviewAdded) None, saveRated id product' catalog)
    end
  end.

(** A review request: who, on which product, with what. *)
Record ReviewRequest := mkReviewRequest {
  rr_user : User;
  rr_username : string;
  rr_product : ObjectId;
  rr_rating : Z;
  rr_comment : string
}.

Definition review (catalog : gmap string Rated) (r : ReviewRequest) : gmap string Rated :=
  (createProductReview (rr_user r) (rr_username r) (rr_product r) (rr_rating r)
     (rr_comment r) catalog).2.

(** What holds of the review fields of every saved product. *)
Definition rated_sound (p : Rated) : Prop :=
  numReviews p = length (reviews p)
  ∧ NoDup (map review_user (reviews p))
  ∧ p = calculateRating p.

(** ** Vocabulary of the further properties *)

(** A populated line carries the document its reference names. *)
Definition populated_from (ps : gmap string Product) (item : PopulatedItem) : Prop :=
  pop_product item = ps !! pop_ref item.

(** The quantity of product [id] held by orders that are not Cancelled. *)
Definition held (id : ObjectId) (os : list Order) : Z :=
  foldr (λ o acc,
           if bool_decide (order_orderStatus o = Cancelled) then acc
           else demand id (order_lines (order_items o)) + acc) 0 os.

(** Every request but a checkout with a failing write and a status
    update. *)
Definition plain (r : Request) : bool :=
  match r with
  | PostOrder (Some _) _ _ _ => false
  | PutStatus _ _ _ _ _ _ => false
  | _ => true
  end.

(** What no request changes in an order. *)
Definition same_sale (o o' : Order) : Prop :=
  order_user o' = order_user o
  ∧ order_items o' = order_items o
  ∧ order_shippingAddress o' = order_shippingAddress o
  ∧ order_paymentMethod o' = order_paymentMethod o
  ∧ order_itemsPrice o' = order_itemsPrice o
  ∧ order_shippingPrice o' = order_shippingPrice o
  ∧ order_taxPrice o' = order_taxPrice o
  ∧ order_totalAmount o' = order_totalAmount o.

(** The stamps and notes an order has are still there. *)
Definition stamps_kept (o o' : Order) : Prop :=
  (is_Some (order_paidAt o) → is_Some (order_paidAt o'))
  ∧ (is_Some (order_deliveredAt o) → is_Some (order_deliveredAt o'))
  ∧ (truthy (order_trackingNumber o) = true → truthy (order_trackingNumber o') = true)
  ∧ (truthy (order_notes o) = true → truthy (order_notes o') = true).

(** What holds of every order the handlers create or save. *)
Definition order_sound (o : Order) : Prop :=
  order_totalAmount o
  = (order_itemsPrice o + order_shippingPrice o + order_taxPrice o)%float
  ∧ order_shippingPrice o = shippingPrice_of (order_itemsPrice o)
  ∧ order_taxPrice o = taxPrice_of (order_itemsPrice o)
  ∧ (order_paymentStatus o = Pending → order_paidAt o = None)
  ∧ (order_paymentStatus o = Paid → is_Some (order_paidAt o))
  ∧ (order_orderStatus o = Delivered → is_Some (order_deliveredAt o)).

(** The total of an order's own lines, added up from zero in order. *)
Definition lines_total (items : list OrderItem) : float :=
  foldl (λ total item, (total + oi_price item * number_of_Z (oi_quantity item))%float)
    0%float items.

(** An order line is the snapshot of a product: its name, first image
    and price. *)
Definition snapshot_of (ps : gmap string Product) (item : OrderItem) : Prop :=
  ∃ p, ps !! oi_product item = Some p
       ∧ product_isActive p = true
       ∧ oi_name item = product_name p
       ∧ oi_image item = first_image (product_images p)
       ∧ oi_price item = product_price p
       ∧ oi_quantity item ≤ product_stock p.

(** * Properties *)

(** ** Stock arithmetic *)

Lemma add_stock_add a b p : add_stock b (add_stock a p) = add_stock (a + b) p.
Proof. unfold add_stock; simpl. f_equal. lia. Qed.

Lemma add_stock_0 p : add_stock 0 p = p.
Proof. destruct p; unfold add_stock; simpl. f_equal. lia. Qed.

Lemma shift_stock_carts lines s : carts (shift_stock lines s) = carts s.
Proof.
  revert s. induction lines as [|l lines IH]; intros s; [done|].
  unfold shift_stock in *. simpl. by rewrite IH.
Qed.

Lemma shift_stock_orders lines s : orders (shift_stock lines s) = orders s.
Proof.
  revert s. induction lines as [|l lines IH]; intros s; [done|].
  unfold shift_stock in *. simpl. by rewrite IH.
Qed.

Lemma shift_stock_lookup lines s id :
  products (shift_stock lines s) !! id
  = add_stock (demand id lines) <$> products s !! id.
Proof.
  revert s. induction lines as [|[k d] lines IH]; intros s.
  - simpl. destruct (products s !! id) as [p|]; simpl; [|done].
    by rewrite add_stock_0.
  - change (shift_stock ((k, d) :: lines) s)
      with (shift_stock lines (incStock k d s)).
    rewrite IH. unfold incStock at 1. cbn [products demand foldr fst snd].
    rewrite lookup_alter. fold (demand id lines).
    destruct (decide (k = id)) as [->|Hne].
    + rewrite bool_decide_eq_true_2 by done.
      destruct (products s !! id) as [p|]; simpl; [|done].
      by rewrite add_stock_add.
    + by rewrite bool_decide_eq_false_2.
Qed.

Lemma demand_negate id lines : demand id (negate lines) = - demand id lines.
Proof.
  induction lines as [|l lines IH]; simpl; [done|].
  case_bool_decide; lia.
Qed.

(** With one line per product, a product's demand is its line's
    quantity. *)
Lemma demand_unique id q lines :
  NoDup (map fst lines) → (id, q) ∈ lines → demand id lines = q.
Proof.
  induction lines as [|[k d] lines IH]; simpl; intros Hnd Hin.
  - by apply elem_of_nil in Hin.
  - apply NoDup_cons in Hnd as [Hk Hnd].
    apply elem_of_cons in Hin as [Heq|Hin].
    + injection Heq as -> ->. rewrite bool_decide_eq_true_2 by done.
      assert (demand k lines = 0) as ->; [|lia].
      clear IH Hnd. induction lines as [|[k' d'] lines IH]; simpl; [done|].
      apply not_elem_of_cons in Hk as [Hne Hk].
      rewrite bool_decide_eq_false_2 by (simpl in Hne; congruence). by apply IH.
    + rewrite bool_decide_eq_false_2.
      * by apply IH.
      * simpl. intros ->. apply Hk. apply list_elem_of_fmap. by exists (id, q).
Qed.

Lemma stock_writes_shift items s :
  foldl (λ s (w : Store → Store), w s) s (stock_writes items)
  = shift_stock (negate (cart_lines items)) s.
Proof.
  revert s. induction items as [|item items IH]; intros s; [done|]. apply IH.
Qed.

Lemma restore_stock_shift items s :
  restore_stock items s = shift_stock (order_lines items) s.
Proof.
  revert s. induction items as [|item items IH]; intros s; [done|]. apply IH.
Qed.

(** ** Running the writes *)

Lemma run_writes_None ws s :
  run_writes None ws s = (true, foldl (λ s (w : Store → Store), w s) s ws).
Proof. revert s. induction ws as [|w ws IH]; intros s; simpl; [done|]. apply IH. Qed.

Lemma run_writes_fault k ws s :
  (k < length ws)%nat →
  run_writes (Some k) ws s
  = (false, foldl (λ s (w : Store → Store), w s) s (take k ws)).
Proof.
  revert k s. induction ws as [|w ws IH]; intros k s Hk; simpl in *; [lia|].
  destruct k as [|k]; [done|]. simpl. apply IH. lia.
Qed.

Lemma run_writes_done fault ws s s' :
  run_writes fault ws s = (true, s') →
  s' = foldl (λ s (w : Store → Store), w s) s ws.
Proof.
  revert fault s. induction ws as [|w ws IH]; intros fault s; simpl.
  - by intros [= <-].
  - destruct fault as [[|k]|]; [done| |]; apply IH.
Qed.

(** ** The validation loop *)

Lemma check_items_prefix pre rest acc t :
  Forall (λ item, line_ok item = true) pre →
  ∃ acc' t', check_items (pre ++ rest) acc t = check_items rest acc' t'.
Proof.
  intros Hpre. revert acc t.
  induction Hpre as [|item pre Hok _ IH]; intros acc t; simpl; [by eauto|].
  unfold line_ok in Hok. destruct (pop_product item) as [p|]; [|done].
  apply andb_true_iff in Hok as [Hact Hq]. rewrite Hact. simpl.
  apply Z.leb_le in Hq.
  destruct (Z.ltb_spec (product_stock p) (pop_quantity item)); [lia|]. apply IH.
Qed.

Lemma check_items_passes items acc t :
  Forall (λ item, line_ok item = true) items →
  ∃ orderItems total, check_items items acc t = inr (orderItems, total).
Proof.
  intros H. destruct (check_items_prefix items [] acc t H) as (acc' & t' & Heq).
  rewrite app_nil_r in Heq. rewrite Heq. simpl. eauto.
Qed.

Lemma check_items_inr items acc t orderItems total :
  check_items items acc t = inr (orderItems, total) →
  Forall (λ item, line_ok item = true) items
  ∧ order_lines orderItems = order_lines acc ++ cart_lines items.
Proof.
  revert acc t. induction items as [|item items IH]; intros acc t; simpl.
  - intros [= <- <-]. by rewrite app_nil_r.
  - destruct (pop_product item) as [p|] eqn:Hp; [|done].
    destruct (product_isActive p) eqn:Hact; simpl; [|done].
    destruct (Z.ltb_spec (product_stock p) (pop_quantity item)) as [|Hq]; [done|].
    intros H. apply IH in H as [Hall Hlines]. split.
    + constructor; [|done]. unfold line_ok. rewrite Hp, Hact. simpl.
      by apply Z.leb_le.
    + rewrite Hlines. unfold order_lines. rewrite map_app. simpl.
      by rewrite <- app_assoc.
Qed.

Lemma check_items_total ps items acc t orderItems total :
  check_items (map (populate ps) items) acc t = inr (orderItems, total) →
  total = foldl (λ total item,
                   match ps !! item_product item with
                   | Some p =>
                     (total + product_price p * number_of_Z (item_quantity item))%float
                   | None => total
                   end) t items.
Proof.
  revert acc t. induction items as [|item items IH]; intros acc t; simpl.
  - by intros [= <- <-].
  - destruct (ps !! item_product item) as [p|]; [|done].
    destruct (negb (product_isActive p)); [done|].
    destruct (product_stock p <? item_quantity item); [done|]. apply IH.
Qed.

Lemma stock_of_shift lines s id :
  stock_of id (shift_stock lines s) = (λ z, z + demand id lines) <$> stock_of id s.
Proof.
  unfold stock_of. rewrite shift_stock_lookup.
  by destruct (products s !! id).
Qed.

Lemma stock_writes_take k items :
  take k (stock_writes items) = stock_writes (take k items).
Proof. unfold stock_writes. by rewrite <- fmap_take. Qed.

Lemma length_stock_writes items : length (stock_writes items) = length items.
Proof. unfold stock_writes. by rewrite length_map. Qed.

(** ** Numbers *)

(** Small integers are themselves; beyond 2^53 the nearest double is
    taken, and nothing wraps around. *)
Example number_of_Z_values :
  number_of_Z 3 = 3%float
  ∧ number_of_Z (-7) = (-7)%float
  ∧ number_of_Z (2 ^ 53 + 1) = 0x1p53%float
  ∧ number_of_Z (2 ^ 63) = 0x1p63%float
  ∧ number_of_Z (2 ^ 64 + 3) = 0x1p64%float.
Proof. vm_compute. repeat split. Qed.

(** Reading and printing integers, and the two readings of [+]. *)
Example quantity_values :
  read_int "3" = Some 3
  ∧ read_int "007" = Some 7
  ∧ read_int "+12" = Some 12
  ∧ read_int "2+3" = None
  ∧ show_int 42 = "42"
  ∧ js_plus 2 (Num 3) = Num 5
  ∧ js_plus 2 (Str "3") = Str "23"
  ∧ lower_hex "64B7F0A1C2D3E4F5A6B7C8D9" = "64b7f0a1c2d3e4f5a6b7c8d9".
Proof. vm_compute. repeat split. Qed.

(** ** createOrder *)

Lemma createOrder_with_nonempty fault user shippingAddress paymentMethod items s :
  items ≠ [] →
  createOrder_with fault user shippingAddress paymentMethod (Some items) s
  = match check_items items [] 0%float with
    | inl m => (fail 400 m, s)
    | inr (orderItems, totalAmount) =>
      let order :=
        new_order (user_id user) shippingAddress paymentMethod orderItems totalAmount in
      match run_writes fault (commit_writes (user_id user) order items) s with
      | (true, s') => (Json 201 (Some OrderCreated) (Some order), s')
      | (false, s') => (Next, s')
      end
    end.
Proof. by destruct items. Qed.

(** The store after a checkout whose writes all went through. *)
Lemma createOrder_commits user shippingAddress paymentMethod items s :
  findCart (user_id user) s = Some items → items ≠ [] →
  Forall (λ item, line_ok item = true) items →
  ∃ orderItems total,
    check_items items [] 0%float = inr (orderItems, total)
    ∧ let order :=
        new_order (user_id user) shippingAddress paymentMethod orderItems total in
      createOrder None user shippingAddress paymentMethod s
      = (Json 201 (Some OrderCreated) (Some order),
         clearCart (user_id user)
           (shift_stock (negate (cart_lines items)) (insertOrder order s))).
Proof.
  intros Hcart Hne Hok.
  destruct (check_items_passes items [] 0%float Hok) as (orderItems & total & Hchk).
  exists orderItems, total. split; [done|]. simpl.
  unfold createOrder. rewrite Hcart, createOrder_with_nonempty, Hchk by done.
  simpl. rewrite run_writes_None. unfold commit_writes. simpl.
  by rewrite foldl_app, stock_writes_shift.
Qed.

(** A successful reply can only come from a cart that passed every check
    and a run in which every write went through. *)
Lemma createOrder_201 fault user shippingAddress paymentMethod s m order s' :
  createOrder fault user shippingAddress paymentMethod s = (Json 201 m (Some order), s') →
  ∃ items orderItems total,
    carts s !! user_id user = Some items
    ∧ check_items (map (populate (products s)) items) [] 0%float
      = inr (orderItems, total)
    ∧ order = new_order (user_id user) shippingAddress paymentMethod orderItems total
    ∧ s' = clearCart (user_id user)
             (shift_stock (negate (cart_lines (map (populate (products s)) items)))
                (insertOrder order s)).
Proof.
  unfold createOrder, findCart. destruct (carts s !! user_id user) as [items|]; [|done].
  change (map (populate (products s)) <$> Some items)
    with (Some (map (populate (products s)) items)).
  destruct (map (populate (products s)) items) as [|i l] eqn:Hmap; [done|].
  rewrite createOrder_with_nonempty by done.
  destruct (check_items (i :: l) [] 0%float) as [msg|[orderItems total]] eqn:Hchk; [done|].
  cbv zeta. set (order0 := new_order _ _ _ _ _).
  destruct (run_writes fault _ s) as [[] s1] eqn:Hrun; [|done].
  intros [= <- <- <-]. exists items, orderItems, total.
  rewrite Hmap. repeat split; try done.
  apply run_writes_done in Hrun as ->.
  unfold commit_writes. simpl. by rewrite foldl_app, stock_writes_shift.
Qed.

(** C3. createOrder rejects an empty (or absent) cart with 400 "Cart is
    empty".  Otherwise the first cart line that fails a check decides the
    reply: a line whose product is missing or inactive gives 400 "Product
    ... is no longer available", a line whose quantity exceeds the current
    stock gives 400 "Insufficient stock for ..." with the available and
    the requested quantity.  In each case the handler returns before any
    write: the store (orders, stock, cart) is the one it was given,
    whatever the storage layer would have done. *)
Theorem createOrder_rejects fault user shippingAddress paymentMethod s :
  (findCart (user_id user) s = None ∨ findCart (user_id user) s = Some [] →
   createOrder fault user shippingAddress paymentMethod s = (fail 400 CartIsEmpty, s))
  ∧ ∀ pre item post,
      findCart (user_id user) s = Some (pre ++ item :: post) →
      Forall (λ i, line_ok i = true) pre →
      (pop_product item = None →
       createOrder fault user shippingAddress paymentMethod s
       = (fail 400 (NoLongerAvailable "Unknown"), s))
      ∧ (∀ p, pop_product item = Some p → product_isActive p = false →
         createOrder fault user shippingAddress paymentMethod s
         = (fail 400 (NoLongerAvailable (display_name (product_name p))), s))
      ∧ (∀ p, pop_product item = Some p → product_isActive p = true →
         product_stock p < pop_quantity item →
         createOrder fault user shippingAddress paymentMethod s
         = (fail 400 (InsufficientStock (product_name p) (product_stock p)
                        (pop_quantity item)), s)).
Proof.
  split.
  - unfold createOrder. by intros [-> | ->].
  - intros pre item post Hcart Hpre.
    assert (pre ++ item :: post ≠ []) as Hne by (by destruct pre).
    destruct (check_items_prefix pre (item :: post) [] 0%float Hpre)
      as (acc & t & Hskip).
    unfold createOrder. rewrite Hcart, createOrder_with_nonempty, Hskip by done.
    clear. simpl. repeat split.
    + by intros ->.
    + by intros p -> ->.
    + intros p -> -> Hlt. simpl.
      by destruct (Z.ltb_spec (product_stock p) (pop_quantity item)); [|lia].
Qed.

(** The scenario of the spec: stock 2, quantity 3. *)
Lemma createOrder_rejects_witness :
  createOrder None alice "12 Elm St" "PayPal" (shop 2 3)
  = (fail 400 (InsufficientStock "Widget" 2 3), shop 2 3).
Proof.
  pose proof (createOrder_rejects None alice "12 Elm St" "PayPal" (shop 2 3)) as [_ H].
  specialize (H [] (mkPopulatedItem "p-widget" (Some (widget 2)) 3 20%float) []
                eq_refl (Forall_nil_2 _)) as (_ & _ & H).
  apply (H (widget 2) eq_refl eq_refl). simpl. lia.
Defined.

(** A line whose product is gone, a line whose product was deactivated,
    a user without a cart; and the first failing line is the one that
    answers. *)
Example createOrder_missing_product :
  let s := {| products := ∅;
              carts := {[ "u-alice" := [mkCartItem "p-widget" 1 20%float] ]};
              orders := [] |} in
  createOrder None alice "12 Elm St" "PayPal" s
  = (fail 400 (NoLongerAvailable "Unknown"), s).
Proof. vm_compute. reflexivity. Qed.

Example createOrder_inactive_product :
  let s := {| products :=
                {[ "p-widget" := mkProduct "Widget" 20%float 5 ["widget.png"] false ]};
              carts := {[ "u-alice" := [mkCartItem "p-widget" 1 20%float] ]};
              orders := [] |} in
  createOrder None alice "12 Elm St" "PayPal" s
  = (fail 400 (NoLongerAvailable "Widget"), s).
Proof. vm_compute. reflexivity. Qed.

Example createOrder_no_cart :
  createOrder None bob "7 Oak Ave" "PayPal" (shop 5 3) = (fail 400 CartIsEmpty, shop 5 3).
Proof. vm_compute. reflexivity. Qed.

Example createOrder_first_failure_answers :
  let s := {| products := {[ "p-widget" := widget 2 ]};
              carts := {[ "u-alice" := [mkCartItem "p-widget" 1 20%float;
                                         mkCartItem "p-widget" 3 20%float;
                                         mkCartItem "p-gone" 1 5%float] ]};
              orders := [] |} in
  createOrder None alice "12 Elm St" "PayPal" s
  = (fail 400 (InsufficientStock "Widget" 2 3), s).
Proof. vm_compute. reflexivity. Qed.

(** C4. In every successful createOrder the order's itemsPrice is the
    total of the user's cart at the catalog's current prices,
    shippingPrice is 0 when itemsPrice > 100 and 10 otherwise (10 at
    exactly 100), taxPrice is itemsPrice * 0.1 (the product with the
    double nearest to one tenth, [0x1.999999999999ap-4]), totalAmount is
    itemsPrice + shippingPrice + taxPrice, and the order with these
    amounts is the one appended to the orders collection. *)
Theorem createOrder_prices fault user shippingAddress paymentMethod s m order s' :
  createOrder fault user shippingAddress paymentMethod s = (Json 201 m (Some order), s') →
  ∃ items,
    carts s !! user_id user = Some items
    ∧ order_itemsPrice order = catalog_total (products s) items
    ∧ order_shippingPrice order
      = (if (100 <? order_itemsPrice order)%float then 0%float else 10%float)
    ∧ (order_itemsPrice order = 100%float → order_shippingPrice order = 10%float)
    ∧ order_taxPrice order = (order_itemsPrice order * 0x1.999999999999ap-4)%float
    ∧ order_totalAmount order
      = (order_itemsPrice order + order_shippingPrice order + order_taxPrice order)%float
    ∧ orders s' = orders s ++ [order].
Proof.
  intros H. apply createOrder_201 in H as (items & orderItems & total & Hc & Hchk & -> & ->).
  exists items. split; [done|].
  apply check_items_total in Hchk as ->. fold (catalog_total (products s) items).
  repeat split; try done.
  - simpl. unfold shippingPrice_of. by intros ->.
  - unfold clearCart, saveCart. simpl. by rewrite shift_stock_orders.
Qed.

(** The scenario of the spec: three widgets at 20 from a stock of five
    come to 60 for the items, 10 for shipping, 6 of tax and 76 in all. *)
Lemma createOrder_prices_witness :
  ∃ order,
    (createOrder None alice "12 Elm St" "PayPal" (shop 5 3)).1
    = Json 201 (Some OrderCreated) (Some order)
    ∧ order_itemsPrice order = 60%float
    ∧ order_shippingPrice order = 10%float
    ∧ order_taxPrice order = 6%float
    ∧ order_totalAmount order = 76%float
    ∧ orders (createOrder None alice "12 Elm St" "PayPal" (shop 5 3)).2 = [order].
Proof.
  exists widget_order.
  destruct (createOrder_prices None alice "12 Elm St" "PayPal" (shop 5 3)
              (Some OrderCreated) widget_order
              (createOrder None alice "12 Elm St" "PayPal" (shop 5 3)).2)
    as (items & Hcart & Hitems & Hship & _ & Htax & Htotal & Horders).
  { vm_compute. reflexivity. }
  assert (items = [mkCartItem "p-widget" 3 20%float]) as ->.
  { vm_compute in Hcart. congruence. }
  assert (order_itemsPrice widget_order = 60%float) as H60.
  { rewrite Hitems. vm_compute. reflexivity. }
  assert (order_shippingPrice widget_order = 10%float) as H10.
  { rewrite Hship, H60. vm_compute. reflexivity. }
  assert (order_taxPrice widget_order = 6%float) as H6.
  { rewrite Htax, H60. vm_compute. reflexivity. }
  split; [vm_compute; reflexivity|].
  split; [exact H60|]. split; [exact H10|]. split; [exact H6|].
  split; [|exact Horders].
  rewrite Htotal, H60, H10, H6. vm_compute. reflexivity.
Defined.

Example widget_order_amounts :
  order_itemsPrice widget_order = 60%float
  ∧ order_shippingPrice widget_order = 10%float
  ∧ order_taxPrice widget_order = 6%float
  ∧ order_totalAmount widget_order = 76%float
  ∧ stock_of "p-widget" (createOrder None alice "12 Elm St" "PayPal" (shop 5 3)).2
    = Some 2
  ∧ carts (createOrder None alice "12 Elm St" "PayPal" (shop 5 3)).2 !! "u-alice"
    = Some [].
Proof. vm_compute. repeat split. Qed.

(** The catalog price is charged, not the price captured in the cart. *)
Example stale_cart_price :
  let s := {| products := {[ "p-widget" := widget 5 ]};
              carts := {[ "u-alice" := [mkCartItem "p-widget" 3 15%float] ]};
              orders := [] |} in
  (createOrder None alice "12 Elm St" "PayPal" s).1
  = Json 201 (Some OrderCreated) (Some widget_order).
Proof. vm_compute. reflexivity. Qed.

(** C1, as the code has it.  A createOrder call whose cart passes every
    check issues its writes one after another, with no transaction around
    them.  When every write goes through, the order is appended, every
    product's stock is lowered by the quantity the cart asks of it, and the
    cart is emptied.  When the first write (creating the order) fails, the
    store is unchanged.  When a later write fails, after [k] stock updates,
    the order stays in the collection, those [k] updates stay applied and
    the cart keeps its lines. *)
Theorem createOrder_commit_steps user shippingAddress paymentMethod s items :
  findCart (user_id user) s = Some items → items ≠ [] →
  Forall (λ item, line_ok item = true) items →
  ∃ order,
    (∃ s', createOrder None user shippingAddress paymentMethod s
           = (Json 201 (Some OrderCreated) (Some order), s')
       ∧ orders s' = orders s ++ [order]
       ∧ (∀ id, stock_of id s'
                = (λ z, z - demand id (cart_lines items)) <$> stock_of id s)
       ∧ carts s' = <[user_id user := []]> (carts s))
    ∧ createOrder (Some 0%nat) user shippingAddress paymentMethod s = (Next, s)
    ∧ ∀ k, (k ≤ length items)%nat →
        ∃ s', createOrder (Some (S k)) user shippingAddress paymentMethod s = (Next, s')
          ∧ orders s' = orders s ++ [order]
          ∧ (∀ id, stock_of id s'
                   = (λ z, z - demand id (cart_lines (take k items))) <$> stock_of id s)
          ∧ carts s' = carts s.
Proof.
  intros Hcart Hne Hok.
  destruct (createOrder_commits user shippingAddress paymentMethod items s Hcart Hne Hok)
    as (orderItems & total & Hchk & Hrun).
  simpl in Hrun. set (order := new_order _ _ _ _ _) in *.
  exists order. split; [|split].
  - eexists. split; [exact Hrun|]. repeat split.
    + unfold clearCart, saveCart. simpl. by rewrite shift_stock_orders.
    + intros id. unfold clearCart, saveCart, stock_of at 1. simpl.
      fold (stock_of id (shift_stock (negate (cart_lines items)) (insertOrder order s))).
      rewrite stock_of_shift, demand_negate. unfold stock_of. simpl.
      destruct (products s !! id); simpl; [f_equal; lia|done].
    + unfold clearCart, saveCart. simpl. by rewrite shift_stock_carts.
  - unfold createOrder. by rewrite Hcart, createOrder_with_nonempty, Hchk.
  - intros k Hk. unfold createOrder.
    rewrite Hcart, createOrder_with_nonempty, Hchk by done.
    cbv zeta. fold order. unfold commit_writes.
    change (run_writes (Some (S k)) (insertOrder order :: ?ws) s)
      with (run_writes (Some k) ws (insertOrder order s)).
    rewrite run_writes_fault
      by (rewrite length_app, length_stock_writes; simpl; lia).
    rewrite take_app_le by (rewrite length_stock_writes; lia).
    rewrite stock_writes_take, stock_writes_shift.
    eexists. split; [reflexivity|]. repeat split.
    + by rewrite shift_stock_orders.
    + intros id. rewrite stock_of_shift, demand_negate. unfold stock_of. simpl.
      destruct (products s !! id); simpl; [f_equal; lia|done].
    + by rewrite shift_stock_carts.
Qed.

Lemma createOrder_commit_steps_witness :
  ∃ order,
    (∃ s', createOrder None alice "12 Elm St" "PayPal" (shop 5 3)
           = (Json 201 (Some OrderCreated) (Some order), s')
       ∧ orders s' = orders (shop 5 3) ++ [order]
       ∧ (∀ id, stock_of id s'
                = (λ z, z - demand id (cart_lines
                     [mkPopulatedItem "p-widget" (Some (widget 5)) 3 20%float]))
                  <$> stock_of id (shop 5 3))
       ∧ carts s' = <["u-alice" := []]> (carts (shop 5 3)))
    ∧ createOrder (Some 0%nat) alice "12 Elm St" "PayPal" (shop 5 3)
      = (Next, shop 5 3)
    ∧ ∀ k, (k ≤ 1)%nat →
        ∃ s', createOrder (Some (S k)) alice "12 Elm St" "PayPal" (shop 5 3) = (Next, s')
          ∧ orders s' = orders (shop 5 3) ++ [order]
          ∧ (∀ id, stock_of id s'
                   = (λ z, z - demand id (cart_lines (take k
                        [mkPopulatedItem "p-widget" (Some (widget 5)) 3 20%float])))
                     <$> stock_of id (shop 5 3))
          ∧ carts s' = carts (shop 5 3).
Proof.
  apply (createOrder_commit_steps alice "12 Elm St" "PayPal" (shop 5 3)
           [mkPopulatedItem "p-widget" (Some (widget 5)) 3 20%float]).
  - reflexivity.
  - discriminate.
  - repeat constructor.
Defined.

(** C1, as stated, fails.  The stock update after [Order.create] rejects:
    the call ends in the error handler, yet the store has changed: the
    order is in the collection, the stock is still 5 and the cart still
    has its line. *)
Lemma createOrder_partial_commit :
  let s := shop 5 3 in
  let r := createOrder (Some 1%nat) alice "12 Elm St" "PayPal" s in
  r.1 = Next
  ∧ r.2 ≠ s
  ∧ orders r.2 = [widget_order]
  ∧ stock_of "p-widget" r.2 = Some 5
  ∧ carts r.2 !! "u-alice" = Some [mkCartItem "p-widget" 3 20%float].
Proof.
  cbv zeta. repeat split; try (vm_compute; reflexivity).
  intros H. apply (f_equal orders) in H. vm_compute in H. discriminate.
Qed.

(** ** Stock under checkout *)

(** Served on its own, a checkout of a cart with one line per product
    lowers the stock of each product on the cart by the line's quantity,
    and the checks of the loop keep the result at or above zero. *)
Lemma createOrder_stock_alone fault user shippingAddress paymentMethod s m order s'
    items id q :
  createOrder fault user shippingAddress paymentMethod s = (Json 201 m (Some order), s') →
  carts s !! user_id user = Some items → one_line_per_product items →
  (∃ price, mkCartItem id q price ∈ items) →
  ∃ before, stock_of id s = Some before
            ∧ stock_of id s' = Some (before - q) ∧ 0 ≤ before - q.
Proof.
  intros H Hc Hnd [price Hin].
  apply createOrder_201 in H as (items' & orderItems & total & Hc' & Hchk & -> & ->).
  rewrite Hc in Hc'. injection Hc' as <-.
  apply check_items_inr in Hchk as [Hok _].
  rewrite Forall_forall in Hok.
  specialize (Hok (populate (products s) (mkCartItem id q price))).
  unfold line_ok in Hok. simpl in Hok.
  destruct (products s !! id) as [p|] eqn:Hp.
  2:{ exfalso. assert (false = true); [|done]. apply Hok.
      apply list_elem_of_fmap. by eexists. }
  assert (q ≤ product_stock p) as Hq.
  { apply Z.leb_le. eapply proj2, andb_true_iff, Hok.
    apply list_elem_of_fmap. by eexists. }
  exists (product_stock p). unfold stock_of at 1. rewrite Hp. split; [done|].
  unfold clearCart, saveCart, stock_of. simpl.
  rewrite shift_stock_lookup. simpl. rewrite Hp. simpl.
  rewrite demand_negate.
  rewrite (demand_unique id q).
  - split; [f_equal|]; lia.
  - unfold cart_lines. rewrite <- list_fmap_compose.
    rewrite <- list_fmap_compose. exact Hnd.
  - unfold cart_lines. rewrite <- list_fmap_compose.
    apply list_elem_of_fmap. by exists (mkCartItem id q price).
Qed.

(** C5.  The code does not keep stock at or above zero.  Two checkouts
    overlap: both handlers have loaded their cart (line 13) before either
    writes.  Each sees stock 1 for its line of 1, both reply 201, and the
    two unconditional [$inc] updates leave the stock at -1.  Had Bob's
    request been served after Alice's, it would have been rejected. *)
Theorem checkout_race_oversells :
  let cartA := findCart "u-alice" last_widget in
  let cartB := findCart "u-bob" last_widget in
  let rA := createOrder_with None alice "12 Elm St" "PayPal" cartA last_widget in
  let rB := createOrder_with None bob "7 Oak Ave" "PayPal" cartB rA.2 in
  success rA.1 = true
  ∧ success rB.1 = true
  ∧ stock_of "p-widget" rA.2 = Some 0
  ∧ stock_of "p-widget" rB.2 = Some (-1)
  ∧ (createOrder None bob "7 Oak Ave" "PayPal" rA.2).1
    = fail 400 (InsufficientStock "Widget" 0 1).
Proof. vm_compute. repeat split. Qed.

(** The same happens within one call when a cart holds two lines for one
    product: each line is checked against the stock that was loaded. *)
Example duplicate_lines_oversell :
  let s := {| products := {[ "p-widget" := widget 3 ]};
              carts := {[ "u-alice" := [mkCartItem "p-widget" 2 20%float;
                                         mkCartItem "p-widget" 2 20%float] ]};
              orders := [] |} in
  let r := createOrder None alice "12 Elm St" "PayPal" s in
  success r.1 = true ∧ stock_of "p-widget" r.2 = Some (-1).
Proof. vm_compute. repeat split. Qed.

(** ** cancelOrder *)

Lemma restore_stock_orders items s : orders (restore_stock items s) = orders s.
Proof. rewrite restore_stock_shift. apply shift_stock_orders. Qed.

Lemma restore_stock_carts items s : carts (restore_stock items s) = carts s.
Proof. rewrite restore_stock_shift. apply shift_stock_carts. Qed.

(** C6.  cancelOrder on an existing order: a caller who is not the owner
    gets 403, admin or not; the owner gets 400 when the order is Delivered
    or Cancelled; in both cases the store is unchanged.  Otherwise the
    stock of every product is raised by the quantity the order's lines
    hold of it, and the order is saved as Cancelled and Refunded. *)
Theorem cancelOrder_outcomes user id s order :
  orders s !! id = Some order →
  (order_user order ≠ user_id user →
   cancelOrder user id s = (fail 403 NotAuthorizedToCancel, s))
  ∧ (order_user order = user_id user →
     order_orderStatus order = Delivered ∨ order_orderStatus order = Cancelled →
     cancelOrder user id s = (fail 400 OrderCannotBeCancelled, s))
  ∧ (order_user order = user_id user →
     order_orderStatus order ≠ Delivered → order_orderStatus order ≠ Cancelled →
     ∃ order' s',
       cancelOrder user id s = (Json 200 (Some OrderCancelled) (Some order'), s')
       ∧ orders s' = <[id := order']> (orders s)
       ∧ order_orderStatus order' = Cancelled
       ∧ order_paymentStatus order' = Refunded
       ∧ order_items order' = order_items order
       ∧ order_user order' = order_user order
       ∧ carts s' = carts s
       ∧ ∀ pid, stock_of pid s'
                = (λ z, z + demand pid (order_lines (order_items order)))
                  <$> stock_of pid s).
Proof.
  intros Hlook. unfold cancelOrder. rewrite Hlook. repeat split.
  - intros Hne. by rewrite bool_decide_eq_true_2.
  - intros Heq Hst. rewrite bool_decide_eq_false_2 by (intros ?; congruence).
    by destruct Hst as [-> | ->].
  - intros Heq Hd Hc. rewrite bool_decide_eq_false_2 by (intros ?; congruence).
    assert (terminal (order_orderStatus order) = false) as ->
      by (by destruct (order_orderStatus order)).
    eexists _, _. split; [reflexivity|]. simpl.
    rewrite restore_stock_orders, restore_stock_carts. repeat split.
    intros pid. unfold stock_of at 1. simpl.
    fold (stock_of pid (restore_stock (order_items order) s)).
    by rewrite restore_stock_shift, stock_of_shift.
Qed.

(** The scenario of the spec: a Delivered order cannot be cancelled. *)
Lemma cancelOrder_outcomes_witness :
  cancelOrder alice 0 after_delivery = (fail 400 OrderCannotBeCancelled, after_delivery).
Proof.
  pose proof (cancelOrder_outcomes alice 0 after_delivery delivered_order eq_refl)
    as (_ & H & _).
  apply H; [reflexivity | left; reflexivity].
Defined.

Example cancelOrder_by_admin :
  cancelOrder root 0 after_delivery = (fail 403 NotAuthorizedToCancel, after_delivery).
Proof. vm_compute. reflexivity. Qed.

(** C7.  cancelOrder undoes the stock effect of createOrder, product by
    product.  Take a successful checkout and any later store that still
    holds the order with its lines.  Whenever cancelOrder on that order
    goes through, every product whose stock is still what the checkout
    left (no sale or restock of that product in between, whatever happened
    to other products) has the stock it had before the checkout: the
    restore adds exactly the quantities the checkout took.  And the
    cancellation does go through for the owner as long as the order is
    neither Delivered nor Cancelled. *)
Theorem cancelOrder_undoes_createOrder fault user shippingAddress paymentMethod
    s m order s1 s2 order2 :
  createOrder fault user shippingAddress paymentMethod s = (Json 201 m (Some order), s1) →
  orders s2 !! length (orders s) = Some order2 →
  order_user order2 = order_user order →
  order_items order2 = order_items order →
  (∀ caller reply s3,
     cancelOrder caller (length (orders s)) s2 = (reply, s3) →
     success reply = true →
     ∀ pid,
       stock_of pid s2 = stock_of pid s1 →
       stock_of pid s3 = stock_of pid s
       ∧ stock_of pid s3
         = (λ z, z + demand pid (order_lines (order_items order))) <$> stock_of pid s1)
  ∧ (terminal (order_orderStatus order2) = false →
     success (cancelOrder user (length (orders s)) s2).1 = true).
Proof.
  intros Hcreate Hlook Huser Hitems.
  apply createOrder_201 in Hcreate
    as (items & orderItems & total & Hc & Hchk & -> & ->).
  apply check_items_inr in Hchk as [_ Hlines]. simpl in Hlines.
  split.
  - intros caller reply s3. unfold cancelOrder. rewrite Hlook.
    case_bool_decide; [by intros [= <- <-]|].
    destruct (terminal (order_orderStatus order2)); [by intros [= <- <-]|].
    intros [= <- <-] _ pid Hsame.
    assert (stock_of pid (saveOrder (length (orders s)) (mark_cancelled order2)
                            (restore_stock (order_items order2) s2))
            = (λ z, z + demand pid (order_lines orderItems)) <$> stock_of pid s2)
      as Hrestored.
    { unfold stock_of at 1. simpl.
      fold (stock_of pid (restore_stock (order_items order2) s2)).
      by rewrite restore_stock_shift, stock_of_shift, Hitems. }
    split; [|by rewrite Hrestored, Hsame].
    rewrite Hrestored, Hsame. unfold stock_of, clearCart, saveCart. simpl.
    rewrite shift_stock_lookup, Hlines, demand_negate. simpl.
    destruct (products s !! pid) as [p|]; simpl; [|done].
    f_equal. lia.
  - intros Hterm. unfold cancelOrder. rewrite Hlook, Hterm.
    by rewrite bool_decide_eq_false_2 by (rewrite Huser; simpl; by intros ?).
Qed.

(** Alice buys three of five widgets, Bob then buys a gadget, then Alice
    cancels: the widgets are five again although the catalog has moved
    on, and the gadget Bob bought stays sold. *)
Lemma cancelOrder_undoes_createOrder_witness :
  let s1 := (createOrder None alice "12 Elm St" "PayPal" two_shoppers).2 in
  let s2 := (createOrder None bob "7 Oak Ave" "PayPal" s1).2 in
  let s3 := (cancelOrder alice 0 s2).2 in
  stock_of "p-widget" two_shoppers = Some 5
  ∧ stock_of "p-widget" s1 = Some 2
  ∧ products s2 ≠ products s1
  ∧ success (cancelOrder alice 0 s2).1 = true
  ∧ stock_of "p-widget" s3 = Some 5
  ∧ stock_of "p-gadget" s3 = Some 3.
Proof.
  intros s1 s2 s3.
  destruct (cancelOrder_undoes_createOrder None alice "12 Elm St" "PayPal" two_shoppers
              (Some OrderCreated) widget_order s1 s2 widget_order)
    as [Hback Hgoes]; try (vm_compute; reflexivity).
  specialize (Hgoes eq_refl).
  destruct (Hback alice (cancelOrder alice 0 s2).1 s3 (surjective_pairing _) Hgoes
              "p-widget") as [Hstock _]; [vm_compute; reflexivity|].
  split; [vm_compute; reflexivity|]. split; [vm_compute; reflexivity|].
  split.
  { intros Heq. assert (stock_of "p-gadget" s2 = stock_of "p-gadget" s1) as Hg
      by (unfold stock_of; by rewrite Heq).
    vm_compute in Hg. discriminate Hg. }
  split; [exact Hgoes|]. split; [|vm_compute; reflexivity].
  rewrite Hstock. vm_compute. reflexivity.
Defined.

(** ** What a request does to one order *)

Lemma run_writes_orders fault ws s :
  Forall (λ w : Store → Store, ∀ s, ∃ l, orders (w s) = orders s ++ l) ws →
  ∃ l, orders (run_writes fault ws s).2 = orders s ++ l.
Proof.
  intros Hws. revert fault s.
  induction Hws as [|w ws Hw _ IH]; intros fault s; simpl.
  - exists []. by rewrite app_nil_r.
  - assert (∃ l, orders (run_writes (match fault with Some (S k) => Some k | _ => None end)
                           ws (w s)).2 = orders s ++ l) as Hstep.
    { destruct (IH (match fault with Some (S k) => Some k | _ => None end) (w s))
        as [l2 Hl2].
      destruct (Hw s) as [l1 Hl1]. exists (l1 ++ l2).
      by rewrite Hl2, Hl1, app_assoc. }
    destruct fault as [[|k]|]; [|done..].
    exists []. by rewrite app_nil_r.
Qed.

Lemma createOrder_keeps_orders fault user shippingAddress paymentMethod s :
  ∃ l, orders (createOrder fault user shippingAddress paymentMethod s).2 = orders s ++ l.
Proof.
  assert (∃ l, orders s = orders s ++ l) as Hsame
    by (exists []; by rewrite app_nil_r).
  unfold createOrder. destruct (findCart (user_id user) s) as [[|i items]|]; try done.
  rewrite createOrder_with_nonempty by done.
  destruct (check_items (i :: items) [] 0%float) as [msg|[orderItems total]]; [done|].
  cbv zeta. set (order := new_order _ _ _ _ _).
  destruct (run_writes_orders fault (commit_writes (user_id user) order (i :: items)) s)
    as [l Hl].
  - unfold commit_writes. constructor; [by eexists|].
    apply Forall_app. split.
    + unfold stock_writes. apply Forall_fmap, Forall_true. intros item s0.
      exists []. by rewrite app_nil_r.
    + constructor; [|done]. intros s0. exists []. by rewrite app_nil_r.
  - exists l. by destruct (run_writes _ _ _) as [[] s'].
Qed.

Lemma save_lines_orders fault uid lines s :
  orders (save_lines fault uid lines s).2 = orders s.
Proof. by destruct lines as [items|], fault as [[|k]|]. Qed.

Lemma addToCart_orders fault user productId quantity s :
  orders (addToCart fault user productId quantity s).2 = orders s.
Proof.
  unfold addToCart. destruct (products s !! lower_hex productId) as [p|]; [|done].
  destruct (negb (product_isActive p)); [done|].
  destruct (js_lt _ (as_number quantity)); [done|].
  destruct (carts s !! user_id user) as [items|]; simpl.
  - destruct (List.find _ items) as [e|]; [|apply save_lines_orders].
    match goal with |- context [if ?b then _ else _] => destruct b end; [done|].
    apply save_lines_orders.
  - destruct fault as [[|k]|]; simpl; [done| |]; by rewrite save_lines_orders.
Qed.

Lemma validateCart_orders user s : orders (validateCart user s).2 = orders s.
Proof.
  unfold validateCart. destruct (findCart (user_id user) s) as [[|i items]|]; try done.
  cbv zeta. by destruct (_ || _).
Qed.

(** After any request, an order is still in the collection, and it is
    unchanged unless the request was a payment, a cancellation or a status
    update that went through for this very order. *)
Lemma handle_order r s id o :
  orders s !! id = Some o →
  ∃ o', orders (handle s r) !! id = Some o'
    ∧ (o' = o
       ∨ (∃ now u, r = PutPay now u id
                   ∧ order_paymentStatus o ≠ Paid ∧ o' = mark_paid now o)
       ∨ (∃ u, r = PutCancel u id
               ∧ terminal (order_orderStatus o) = false ∧ o' = mark_cancelled o)
       ∨ (∃ now u st tn n, r = PutStatus now u id st tn n
                           ∧ o' = set_status now st tn n o)).
Proof.
  intros Hlook. pose proof (lookup_lt_Some _ _ _ Hlook) as Hlt.
  destruct r as [fault u a pm | now u i | u i | now u i st tn n | f u pid q | u]; simpl.
  - destruct (createOrder_keeps_orders fault u a pm s) as [l ->].
    exists o. split; [|by left]. by apply lookup_app_l_Some.
  - unfold updateOrderToPaid. destruct (orders s !! i) as [oi|] eqn:Hi; [|by eauto].
    destruct (_ && _); [by eauto|]. case_bool_decide as Hpaid; [by eauto|]. simpl.
    destruct (decide (i = id)) as [->|Hne].
    + rewrite Hlook in Hi. injection Hi as <-.
      rewrite list_lookup_insert_eq by done. eexists. split; [done|].
      right; left. by eauto.
    + rewrite list_lookup_insert_ne by done. by eauto.
  - unfold cancelOrder. destruct (orders s !! i) as [oi|] eqn:Hi; [|by eauto].
    case_bool_decide; [by eauto|].
    destruct (terminal (order_orderStatus oi)) eqn:Hterm; [by eauto|]. simpl.
    rewrite restore_stock_orders.
    destruct (decide (i = id)) as [->|Hne].
    + rewrite Hlook in Hi. injection Hi as <-.
      rewrite list_lookup_insert_eq by done. eexists. split; [done|].
      right; right; left. by eauto.
    + rewrite list_lookup_insert_ne by done. by eauto.
  - unfold adminOnly. destruct (isAdmin u); [|by eauto].
    unfold updateOrderStatus. destruct (orders s !! i) as [oi|] eqn:Hi; [|by eauto].
    simpl. destruct (decide (i = id)) as [->|Hne].
    + rewrite Hlook in Hi. injection Hi as <-.
      rewrite list_lookup_insert_eq by done. eexists. split; [done|].
      right; right; right. by eauto 10.
    + rewrite list_lookup_insert_ne by done. by eauto.
  - rewrite addToCart_orders. by eauto.
  - rewrite validateCart_orders. by eauto.
Qed.

(** ** Order status *)

(** C2, as the code has it.  Requests other than the admin status update
    (cancelOrder among them) never change the orderStatus of an order that
    is Delivered or Cancelled, however many are served.  The status update
    itself has no guard: it stores the requested orderStatus whatever the
    current one is. *)
Theorem terminal_status_kept rs s id order :
  orders s !! id = Some order →
  (terminal (order_orderStatus order) = true →
   Forall (λ r, is_status_update r = false) rs →
   ∃ order', orders (serve rs s) !! id = Some order'
             ∧ order_orderStatus order' = order_orderStatus order)
  ∧ ∀ now orderStatus trackingNumber notes,
      ∃ order' s',
        updateOrderStatus now id orderStatus trackingNumber notes s
        = (Json 200 (Some StatusUpdated) (Some order'), s')
        ∧ orders s' !! id = Some order'
        ∧ order_orderStatus order' = orderStatus.
Proof.
  intros Hlook. split.
  - intros Hterm Hrs. revert s order Hlook Hterm.
    induction Hrs as [|r rs Hr _ IH]; intros s order Hlook Hterm; simpl.
    + by eauto.
    + destruct (handle_order r s id order Hlook)
        as (o' & Hlook' & [-> | [H | [H | H]]]).
      * by apply IH.
      * destruct H as (now & u & -> & _ & ->).
        destruct (IH _ _ Hlook' Hterm) as (o2 & ? & ?). by eauto.
      * destruct H as (u & _ & Hnt & _). congruence.
      * destruct H as (now & u & st & tn & n & -> & _). done.
  - intros now orderStatus trackingNumber notes. unfold updateOrderStatus.
    rewrite Hlook. eexists _, _. split; [reflexivity|]. simpl. split; [|done].
    apply list_lookup_insert_eq. by eapply lookup_lt_Some.
Qed.

Lemma terminal_status_kept_witness :
  ∃ order', orders (serve [PutCancel alice 0%nat; PutCancel root 0%nat;
                             PutPay 1700000100 alice 0%nat] after_delivery) !! 0%nat
            = Some order'
            ∧ order_orderStatus order' = order_orderStatus delivered_order.
Proof.
  apply (terminal_status_kept
           [PutCancel alice 0%nat; PutCancel root 0%nat; PutPay 1700000100 alice 0%nat]
           after_delivery 0 delivered_order eq_refl).
  - reflexivity.
  - repeat constructor.
Defined.

(** C2, as stated, fails: an admin's status update moves a Delivered order
    back to Processing. *)
Lemma delivered_order_reopened :
  order_orderStatus <$> orders after_delivery !! 0%nat = Some Delivered
  ∧ order_orderStatus
      <$> orders (serve [PutStatus 1700000200 root 0%nat Processing None None]
                    after_delivery) !! 0%nat
    = Some Processing.
Proof. vm_compute. split; reflexivity. Qed.

(** ** Payment *)

Lemma updateOrderToPaid_on_paid now user id s order :
  orders s !! id = Some order → order_paymentStatus order = Paid →
  success (updateOrderToPaid now user id s).1 = false
  ∧ (updateOrderToPaid now user id s).2 = s
  ∧ (order_user order = user_id user ∨ isAdmin user = true →
     updateOrderToPaid now user id s = (fail 400 OrderAlreadyPaid, s)).
Proof.
  intros Hlook Hpaid. unfold updateOrderToPaid. rewrite Hlook.
  rewrite (bool_decide_eq_true_2 _ Hpaid).
  destruct (bool_decide (order_user order ≠ user_id user) && negb (isAdmin user))
    eqn:Hauth.
  - split; [done|]. split; [done|]. intros Hu. exfalso.
    apply andb_true_iff in Hauth as [Hne Hadm].
    apply bool_decide_eq_true_1 in Hne. apply negb_true_iff in Hadm.
    destruct Hu; congruence.
  - by repeat split.
Qed.

(** A Paid order stays Paid, with its owner, while no request cancels it. *)
Lemma serve_keeps_paid rs s id order :
  Forall (λ r, is_cancel_of id r = false) rs →
  orders s !! id = Some order → order_paymentStatus order = Paid →
  ∃ order', orders (serve rs s) !! id = Some order'
            ∧ order_paymentStatus order' = Paid
            ∧ order_user order' = order_user order.
Proof.
  intros Hrs. revert s order.
  induction Hrs as [|r rs Hr _ IH]; intros s order Hlook Hpaid; simpl; [by eauto|].
  destruct (handle_order r s id order Hlook) as (o' & Hlook' & [-> | [H | [H | H]]]).
  - by apply IH.
  - destruct H as (now & u & _ & Hnp & _). done.
  - destruct H as (u & -> & _). simpl in Hr. by rewrite bool_decide_eq_true_2 in Hr.
  - destruct H as (now & u & st & tn & n & _ & ->).
    destruct (IH _ _ Hlook' Hpaid) as (o2 & ? & ? & ?). by eauto.
Qed.

(** C10, as the code has it.  updateOrderToPaid by the owner or an admin
    succeeds on every order that is not Paid: the order is saved as Paid
    with paidAt set to the time of the call.  From then on, while no
    cancelOrder for the order has been served, the order stays Paid and
    every updateOrderToPaid call is rejected with the store unchanged
    (400 "Order is already paid" for an authorised caller).  The only
    request that takes the order away from Paid is a cancelOrder for it,
    which leaves it Refunded; that order is then not Paid, so
    updateOrderToPaid succeeds on it again. *)
Theorem updateOrderToPaid_until_refund now user id s order :
  orders s !! id = Some order →
  order_user order = user_id user ∨ isAdmin user = true →
  order_paymentStatus order ≠ Paid →
  ∃ order' s',
    updateOrderToPaid now user id s = (Json 200 (Some PaymentUpdated) (Some order'), s')
    ∧ orders s' !! id = Some order'
    ∧ order_paymentStatus order' = Paid
    ∧ order_paidAt order' = Some now
    ∧ (∀ rs, Forall (λ r, is_cancel_of id r = false) rs →
         (∃ o2, orders (serve rs s') !! id = Some o2 ∧ order_paymentStatus o2 = Paid)
         ∧ ∀ now2 user2,
             success (updateOrderToPaid now2 user2 id (serve rs s')).1 = false
             ∧ (updateOrderToPaid now2 user2 id (serve rs s')).2 = serve rs s'
             ∧ (order_user order = user_id user2 ∨ isAdmin user2 = true →
                updateOrderToPaid now2 user2 id (serve rs s')
                = (fail 400 OrderAlreadyPaid, serve rs s')))
    ∧ (∀ r, ∃ o2,
         orders (handle s' r) !! id = Some o2
         ∧ (order_paymentStatus o2 = Paid
            ∨ (∃ u, r = PutCancel u id) ∧ order_paymentStatus o2 = Refunded)).
Proof.
  intros Hlook Hu Hpay. unfold updateOrderToPaid at 1. rewrite Hlook.
  assert (bool_decide (order_user order ≠ user_id user) && negb (isAdmin user) = false)
    as ->.
  { destruct Hu as [Ho | Ha].
    - rewrite bool_decide_eq_false_2; [done|]. by intros ?.
    - rewrite Ha. apply andb_false_r. }
  rewrite bool_decide_eq_false_2 by done.
  eexists _, _. split; [reflexivity|].
  set (s' := saveOrder id (mark_paid now order) s).
  assert (orders s' !! id = Some (mark_paid now order)) as Hsaved
    by (apply list_lookup_insert_eq; by eapply lookup_lt_Some).
  split; [done|]. split; [done|]. split; [done|]. split.
  - intros rs Hrs.
    destruct (serve_keeps_paid rs s' id _ Hrs Hsaved eq_refl) as (o2 & Hl2 & Hp2 & Hu2).
    split; [by eauto|]. intros now2 user2.
    destruct (updateOrderToPaid_on_paid now2 user2 id (serve rs s') o2 Hl2 Hp2)
      as (Hf & Hs & Ha).
    split; [done|]. split; [done|]. intros Hauth. apply Ha. by rewrite Hu2.
  - intros r.
    destruct (handle_order r s' id _ Hsaved) as (o' & Hlook' & [-> | [H | [H | H]]]).
    + by eauto.
    + destruct H as (n & u & _ & Hnp & _). done.
    + destruct H as (u & -> & _ & ->). by eauto 10.
    + destruct H as (n & u & st & tn & nt & _ & ->). by eauto.
Qed.

Lemma updateOrderToPaid_until_refund_witness :
  ∃ order' s',
    updateOrderToPaid 1700000300 alice 0 unpaid_order_store
    = (Json 200 (Some PaymentUpdated) (Some order'), s')
    ∧ order_paymentStatus order' = Paid
    ∧ order_paidAt order' = Some 1700000300
    ∧ updateOrderToPaid 1700000400 alice 0 s' = (fail 400 OrderAlreadyPaid, s').
Proof.
  destruct (updateOrderToPaid_until_refund 1700000300 alice 0 unpaid_order_store
              widget_order eq_refl (or_introl eq_refl))
    as (order' & s' & Hpay & _ & Hpaid & Hat & Hlater & _); [discriminate|].
  exists order', s'. split; [exact Hpay|]. split; [exact Hpaid|]. split; [exact Hat|].
  destruct (Hlater [] (Forall_nil_2 _)) as [_ Hcalls].
  apply (Hcalls 1700000400 alice). left. reflexivity.
Defined.

(** C10, as stated, fails: Alice pays her order, cancels it, and pays it
    again.  Both payments succeed, and the order ends up Cancelled and
    Paid. *)
Lemma order_paid_twice :
  let r1 := updateOrderToPaid 1700000300 alice 0 unpaid_order_store in
  let r2 := cancelOrder alice 0 r1.2 in
  let r3 := updateOrderToPaid 1700000500 alice 0 r2.2 in
  success r1.1 = true
  ∧ success r2.1 = true
  ∧ success r3.1 = true
  ∧ order_paymentStatus <$> orders r2.2 !! 0%nat = Some Refunded
  ∧ order_paymentStatus <$> orders r3.2 !! 0%nat = Some Paid
  ∧ order_orderStatus <$> orders r3.2 !! 0%nat = Some Cancelled
  ∧ order_paidAt <$> orders r3.2 !! 0%nat = Some (Some 1700000500).
Proof. vm_compute. repeat split. Qed.

(** ** validateCart *)

Lemma refresh_corrected p item :
  pop_product item = Some p → refresh p item = corrected item.
Proof.
  intros Hp. unfold refresh, corrected. rewrite Hp. f_equal.
  destruct (Z.ltb_spec (product_stock p) (pop_quantity item)); lia.
Qed.

Lemma validate_loop_errors items :
  lr_errors (validate_loop items) = flat_map line_errors items.
Proof.
  induction items as [|item items IH]; simpl; [done|]. unfold line_errors.
  destruct (pop_product item) as [p|]; simpl; [|by rewrite IH].
  destruct (product_isActive p); simpl; [|by rewrite IH].
  destruct (product_stock p <? pop_quantity item); simpl; by rewrite IH.
Qed.

Lemma validate_loop_updated items :
  lr_updated (validate_loop items) = map corrected (List.filter survives items).
Proof.
  induction items as [|item items IH]; simpl; [done|]. unfold survives at 1.
  destruct (pop_product item) as [p|] eqn:Hp; simpl; [|done].
  destruct (product_isActive p); simpl; [|done].
  by rewrite IH, refresh_corrected.
Qed.

Lemma validate_loop_clean items :
  Forall (λ item, line_ok item = true) items →
  lr_errors (validate_loop items) = []
  ∧ lr_array (validate_loop items) = lr_updated (validate_loop items)
  ∧ length (lr_updated (validate_loop items)) = length items.
Proof.
  induction 1 as [|item items Hok _ (IH1 & IH2 & IH3)]; simpl; [done|].
  unfold line_ok in Hok. destruct (pop_product item) as [p|]; [|done].
  apply andb_true_iff in Hok as [-> Hq]. apply Z.leb_le in Hq. simpl.
  destruct (Z.ltb_spec (product_stock p) (pop_quantity item)); [lia|].
  by rewrite IH1, IH2, IH3.
Qed.

Lemma validate_loop_dirty items :
  ¬ Forall (λ item, line_ok item = true) items →
  lr_errors (validate_loop items) ≠ [].
Proof.
  induction items as [|item items IH]; simpl; intros Hnot.
  - by destruct Hnot.
  - unfold line_ok in Hnot. destruct (pop_product item) as [p|] eqn:Hp; [|done].
    destruct (product_isActive p) eqn:Hact; simpl; [|done].
    destruct (Z.ltb_spec (product_stock p) (pop_quantity item)) as [|Hq]; [done|].
    simpl. apply IH. intros Hall. apply Hnot. constructor; [|done].
    rewrite Hp, Hact. simpl. by apply Z.leb_le.
Qed.

(** C8, as the code has it.  validateCart answers 400 "Cart is empty" for
    an empty or absent cart.  For any other cart it replies 200 with the
    corrected cart (lines whose product is missing or inactive dropped,
    quantities clamped to the stock, prices set to the catalog price) and
    one error per dropped or clamped line.  The corrected cart is saved if
    and only if the error list is not empty, that is when a line was
    dropped or clamped; when every line passes, nothing is written, refreshed
    prices included. *)
Theorem validateCart_reconciles user s :
  (findCart (user_id user) s = None ∨ findCart (user_id user) s = Some [] →
   validateCart user s = (fail 400 CartIsEmpty, s))
  ∧ ∀ items,
      findCart (user_id user) s = Some items → items ≠ [] →
      ∃ v s',
        validateCart user s = (Json 200 None (Some v), s')
        ∧ val_cart v = map corrected (List.filter survives items)
        ∧ val_errors v = flat_map line_errors items
        ∧ (val_isValid v = true ↔ val_errors v = [])
        ∧ (Forall (λ item, line_ok item = true) items → val_errors v = [] ∧ s' = s)
        ∧ (¬ Forall (λ item, line_ok item = true) items →
           val_errors v ≠ []
           ∧ s' = saveCart (user_id user) (map depopulate (val_cart v)) s).
Proof.
  split.
  - unfold validateCart. by intros [-> | ->].
  - intros items Hcart Hne. unfold validateCart. rewrite Hcart.
    destruct items as [|i items]; [done|]. cbv zeta.
    set (r := validate_loop (i :: items)).
    destruct (decide (Forall (λ item, line_ok item = true) (i :: items))) as [Hok|Hbad].
    + destruct (validate_loop_clean _ Hok) as (He & Ha & Hl). fold r in He, Ha, Hl.
      rewrite He, Hl. simpl length.
      rewrite bool_decide_eq_true_2 by done.
      rewrite (bool_decide_eq_false_2 (0 < 0)%nat) by lia. simpl.
      eexists _, _. split; [reflexivity|]. cbn [val_cart val_errors val_isValid].
      split; [|split; [|split; [|split]]].
      * rewrite Ha. apply validate_loop_updated.
      * transitivity (lr_errors r); [by rewrite He|]. apply validate_loop_errors.
      * done.
      * done.
      * intros Hn. by destruct Hn.
    + pose proof (validate_loop_dirty _ Hbad) as He. fold r in He.
      assert (negb (bool_decide (length (lr_updated r) = length (i :: items)))
              || bool_decide (0 < length (lr_errors r))%nat = true) as ->.
      { apply orb_true_iff. right. apply bool_decide_eq_true_2.
        destruct (lr_errors r); [done|simpl; lia]. }
      eexists _, _. split; [reflexivity|]. cbn [val_cart val_errors val_isValid].
      split; [|split; [|split; [|split]]].
      * apply validate_loop_updated.
      * apply validate_loop_errors.
      * split.
        -- intros Hv. apply bool_decide_eq_true_1 in Hv. by destruct (lr_errors r).
        -- intros Hnil. by rewrite Hnil in He.
      * intros Hall. by destruct Hbad.
      * done.
Qed.

(** The scenario of a line of 3 with 2 in stock: clamped, reported and
    saved. *)
Lemma validateCart_reconciles_witness :
  ∃ v s',
    validateCart alice (shop 2 3) = (Json 200 None (Some v), s')
    ∧ val_cart v
      = map corrected
          (List.filter survives [mkPopulatedItem "p-widget" (Some (widget 2)) 3 20%float])
    ∧ val_errors v
      = flat_map line_errors [mkPopulatedItem "p-widget" (Some (widget 2)) 3 20%float]
    ∧ (val_isValid v = true ↔ val_errors v = [])
    ∧ (Forall (λ item, line_ok item = true)
         [mkPopulatedItem "p-widget" (Some (widget 2)) 3 20%float] →
       val_errors v = [] ∧ s' = shop 2 3)
    ∧ (¬ Forall (λ item, line_ok item = true)
           [mkPopulatedItem "p-widget" (Some (widget 2)) 3 20%float] →
       val_errors v ≠ []
       ∧ s' = saveCart "u-alice" (map depopulate (val_cart v)) (shop 2 3)).
Proof.
  apply (proj2 (validateCart_reconciles alice (shop 2 3))
           [mkPopulatedItem "p-widget" (Some (widget 2)) 3 20%float]).
  - reflexivity.
  - discriminate.
Defined.

Example validateCart_clamps :
  (validateCart alice (shop 2 3)).1
  = Json 200 None
      (Some {| val_cart := [mkPopulatedItem "p-widget" (Some (widget 2)) 2 20%float];
               val_errors := [StockShort "p-widget" "Widget" 3 2];
               val_isValid := false |})
  ∧ carts (validateCart alice (shop 2 3)).2 !! "u-alice"
    = Some [mkCartItem "p-widget" 2 20%float].
Proof. vm_compute. split; reflexivity. Qed.

(** C8, as stated, fails.  The only correction is the refreshed price: the
    reply carries the line at 20, the cart in the store still has it at 15
    and the store is untouched.  And a cart without lines gets no
    corrected cart and no error list, but a 400. *)
Lemma validateCart_price_not_saved :
  let r := validateCart alice repriced in
  r.1 = Json 200 None
          (Some {| val_cart := [mkPopulatedItem "p-widget" (Some (widget 5)) 3 20%float];
                   val_errors := [];
                   val_isValid := true |})
  ∧ carts r.2 !! "u-alice" = Some [mkCartItem "p-widget" 3 15%float]
  ∧ r.2 = repriced
  ∧ validateCart alice after_delivery = (fail 400 CartIsEmpty, after_delivery).
Proof. vm_compute. repeat split. Qed.

(** ** addToCart *)

Section CartLines.
Variable productId : ObjectId.

Lemma find_line_None items :
  List.find (has_product productId) items = None →
  (productId ∉ map item_product items)
  ∧ List.filter (has_product productId) items = [].
Proof.
  induction items as [|item items IH]; simpl.
  { intros _. split; [apply not_elem_of_nil|done]. }
  unfold has_product at 1 3. case_bool_decide as Hp; [done|].
  intros H. destruct (IH H) as [Hnot Hfil]. split; [|done].
  apply not_elem_of_cons. split; [congruence|done].
Qed.

Lemma find_line_push items l :
  item_product l = productId →
  List.find (has_product productId) items = None →
  List.find (has_product productId) (items ++ [l]) = Some l.
Proof.
  intros Hl. induction items as [|item items IH]; simpl.
  - intros _. unfold has_product. by rewrite bool_decide_eq_true_2.
  - destruct (has_product productId item); [done|]. apply IH.
Qed.

Lemma set_first_quantity_push q items l :
  item_product l = productId →
  List.find (has_product productId) items = None →
  set_first_quantity productId q (items ++ [l]) = items ++ [with_quantity q l].
Proof.
  intros Hl. induction items as [|item items IH]; simpl.
  - intros _. unfold has_product. by rewrite bool_decide_eq_true_2.
  - destruct (has_product productId item); [done|]. intros H. by rewrite IH.
Qed.

Lemma find_line_set q items e :
  List.find (has_product productId) items = Some e →
  List.find (has_product productId) (set_first_quantity productId q items)
  = Some (with_quantity q e).
Proof.
  induction items as [|item items IH]; simpl; [done|].
  destruct (has_product productId item) eqn:Hp; simpl.
  - intros [= <-]. unfold has_product in *. simpl. by rewrite Hp.
  - rewrite Hp. apply IH.
Qed.

Lemma set_first_quantity_twice q1 q2 items :
  set_first_quantity productId q2 (set_first_quantity productId q1 items)
  = set_first_quantity productId q2 items.
Proof.
  induction items as [|item items IH]; simpl; [done|].
  destruct (has_product productId item) eqn:Hp; simpl.
  - unfold has_product in *. simpl. by rewrite Hp.
  - by rewrite Hp, IH.
Qed.

Lemma set_first_quantity_products q items :
  map item_product (set_first_quantity productId q items) = map item_product items.
Proof.
  induction items as [|item items IH]; simpl; [done|].
  destruct (has_product productId item); simpl; [done|]. by rewrite IH.
Qed.

Lemma filter_no_line items :
  productId ∉ map item_product items →
  List.filter (has_product productId) items = [].
Proof.
  induction items as [|item items IH]; simpl; [done|].
  intros [Hne Hnot]%not_elem_of_cons. unfold has_product at 1.
  rewrite bool_decide_eq_false_2 by congruence. by apply IH.
Qed.

(** With one line per product, the line [find] returns is the only one
    for its product. *)
Lemma filter_set_first q items e :
  one_line_per_product items →
  List.find (has_product productId) items = Some e →
  List.filter (has_product productId) (set_first_quantity productId q items)
  = [with_quantity q e].
Proof.
  unfold one_line_per_product.
  induction items as [|item items IH]; simpl; [done|].
  intros [Hnot Hnd]%NoDup_cons.
  destruct (has_product productId item) eqn:Hp; simpl.
  - intros [= <-]. unfold has_product in *. simpl. rewrite Hp.
    apply bool_decide_eq_true_1 in Hp. rewrite Hp in Hnot.
    by rewrite filter_no_line.
  - rewrite Hp. by apply IH.
Qed.
End CartLines.

Lemma addToCart_push user productId quantity n s p :
  products s !! lower_hex productId = Some p → product_isActive p = true →
  as_number quantity = Some n → n ≤ product_stock p →
  List.find (has_product productId) (cart_of (user_id user) s) = None →
  let items' := cart_of (user_id user) s
                ++ [mkCartItem (lower_hex productId) n (product_price p)] in
  ∃ s', addToCart None user productId quantity s
        = (Json 200 (Some ItemAdded) (Some items'), s')
        ∧ products s' = products s
        ∧ carts s' = <[user_id user := items']> (carts s).
Proof.
  intros Hp Hact Hn Hq Hfind. unfold addToCart, cart_of in *. rewrite Hp, Hact, Hn. simpl.
  destruct (Z.ltb_spec (product_stock p) n); [lia|].
  destruct (carts s !! user_id user) as [items|]; simpl in *.
  - rewrite Hfind. simpl. by eexists.
  - eexists. split; [done|]. simpl. split; [done|]. apply insert_insert_eq.
Qed.

Lemma addToCart_bump user productId quantity m s p e :
  products s !! lower_hex productId = Some p → product_isActive p = true →
  js_lt (Some (product_stock p)) (as_number quantity) = false →
  List.find (has_product productId) (cart_of (user_id user) s) = Some e →
  as_number (js_plus (item_quantity e) quantity) = Some m → m ≤ product_stock p →
  let items' := set_first_quantity productId m (cart_of (user_id user) s) in
  ∃ s', addToCart None user productId quantity s
        = (Json 200 (Some ItemAdded) (Some items'), s')
        ∧ products s' = products s
        ∧ carts s' = <[user_id user := items']> (carts s).
Proof.
  intros Hp Hact Hq Hfind Hm Hsum. unfold addToCart, cart_of in *.
  rewrite Hp, Hact, Hq. simpl.
  destruct (carts s !! user_id user) as [items|]; simpl in *; [|done].
  rewrite Hfind, Hm. simpl.
  destruct (Z.ltb_spec (product_stock p) m); [lia|].
  by eexists.
Qed.

Lemma cart_of_saved uid items s s' :
  carts s' = <[uid := items]> (carts s) → cart_of uid s' = items.
Proof. intros H. unfold cart_of. by rewrite H, lookup_insert_eq. Qed.

(** Every way an addToCart can end.  Either it answers without success,
    and then the store is the one it was given, or that store with the
    empty cart [Cart.create] made for a user who had none; or it answers
    200, and then the user's cart is the old one with a line pushed or
    with its first matching line set, to a quantity within the stock. *)
Lemma addToCart_cases fault user productId quantity s :
  let uid := user_id user in
  let r := addToCart fault user productId quantity s in
  (success r.1 = false
   ∧ (r.2 = s ∨ (r.1 = Next ∧ carts s !! uid = None ∧ r.2 = saveCart uid [] s)))
  ∨ (∃ p items',
       products s !! lower_hex productId = Some p ∧ product_isActive p = true
       ∧ r.1 = Json 200 (Some ItemAdded) (Some items')
       ∧ products r.2 = products s ∧ orders r.2 = orders s
       ∧ carts r.2 = <[uid := items']> (carts s)
       ∧ ((∃ n, List.find (has_product productId) (cart_of uid s) = None
                ∧ n ≤ product_stock p
                ∧ items' = cart_of uid s
                           ++ [mkCartItem (lower_hex productId) n (product_price p)])
          ∨ (∃ e m, List.find (has_product productId) (cart_of uid s) = Some e
                    ∧ m ≤ product_stock p
                    ∧ items' = set_first_quantity productId m (cart_of uid s)))).
Proof.
  cbv zeta. unfold addToCart, cart_of.
  destruct (products s !! lower_hex productId) as [p|] eqn:Hp; [|left; by auto].
  destruct (product_isActive p) eqn:Hact; simpl; [|left; by auto].
  destruct (as_number quantity) as [n|] eqn:Hn; simpl.
  - destruct (Z.ltb_spec (product_stock p) n) as [Hlt|Hle]; [left; by auto|].
    destruct (carts s !! user_id user) as [items|] eqn:Hc; simpl.
    + destruct (List.find (has_product productId) items) as [e|] eqn:Hfind.
      * destruct (as_number (js_plus (item_quantity e) quantity)) as [m|] eqn:Hm; simpl;
          [|left; by auto].
        destruct (Z.ltb_spec (product_stock p) m) as [Hlt2|Hle2]; [left; by auto|].
        destruct fault as [[|k]|]; simpl; [left; by auto| |];
          (right; exists p; eexists; repeat (split; [done|]); right; by eauto).
      * destruct fault as [[|k]|]; simpl; [left; by auto| |];
          (right; exists p; eexists; repeat (split; [done|]); left; by eauto).
    + destruct fault as [[|[|k]]|]; simpl; [left; by auto|left; by auto 6| |];
        (right; exists p; eexists; repeat (split; [done|]);
         split; [simpl; by rewrite insert_insert_eq|]; left; by eauto).
  - destruct (carts s !! user_id user) as [items|] eqn:Hc; simpl.
    + destruct (List.find (has_product productId) items) as [e|] eqn:Hfind;
        [|left; by auto].
      destruct (as_number (js_plus (item_quantity e) quantity)) as [m|] eqn:Hm; simpl;
        [|left; by auto].
      destruct (Z.ltb_spec (product_stock p) m) as [Hlt2|Hle2]; [left; by auto|].
      destruct fault as [[|k]|]; simpl; [left; by auto| |];
        (right; exists p; eexists; repeat (split; [done|]); right; by eauto).
    + destruct fault as [[|k]|]; simpl; [left; by auto|left; by auto 6|left; by auto 6].
Qed.

(** What addToCart does when the quantities are numbers and the id is
    given in its stored, lower-case form.  (1) A cart with at most one
    line per product still has at most one line per product after the
    call, whatever the quantity and whatever write fails.  (2) Two adds
    of a product that was not in the cart leave one line for it, appended
    to the cart, with the sum of the two quantities.  (3) When the cart
    already has a line for the product, both quantities are added to that
    line, which stays the only one.  (4) An add whose merged quantity
    would exceed the current stock is rejected with 400 and changes
    nothing. *)
Lemma addToCart_merges_numbers user productId s p :
  lower_hex productId = productId →
  products s !! productId = Some p → product_isActive p = true →
  let uid := user_id user in
  let items := cart_of uid s in
  (∀ fault quantity, one_line_per_product items →
     one_line_per_product (cart_of uid (addToCart fault user productId quantity s).2))
  ∧ (∀ q1 q2, 0 < q1 → 0 < q2 → q1 + q2 ≤ product_stock p →
       List.find (has_product productId) items = None →
       let line := mkCartItem productId (q1 + q2) (product_price p) in
       ∃ r1 s1 s2,
         addToCart None user productId (Num q1) s = (r1, s1) ∧ success r1 = true
         ∧ addToCart None user productId (Num q2) s1
           = (Json 200 (Some ItemAdded) (Some (items ++ [line])), s2)
         ∧ carts s2 !! uid = Some (items ++ [line])
         ∧ List.filter (has_product productId) (items ++ [line]) = [line])
  ∧ (∀ q1 q2 e, 0 < q1 → 0 < q2 → one_line_per_product items →
       List.find (has_product productId) items = Some e →
       item_quantity e + q1 + q2 ≤ product_stock p → 0 ≤ item_quantity e →
       let items2 := set_first_quantity productId (item_quantity e + q1 + q2) items in
       ∃ r1 s1 s2,
         addToCart None user productId (Num q1) s = (r1, s1) ∧ success r1 = true
         ∧ addToCart None user productId (Num q2) s1
           = (Json 200 (Some ItemAdded) (Some items2), s2)
         ∧ carts s2 !! uid = Some items2
         ∧ List.filter (has_product productId) items2
           = [with_quantity (item_quantity e + q1 + q2) e])
  ∧ (∀ quantity e,
       List.find (has_product productId) items = Some e →
       quantity ≤ product_stock p →
       product_stock p < item_quantity e + quantity →
       addToCart None user productId (Num quantity) s
       = (fail 400 (CannotAddMore (Num quantity) (product_stock p - item_quantity e)), s)).
Proof.
  intros Hid Hp Hact. cbv zeta.
  assert (products s !! lower_hex productId = Some p) as Hp' by (by rewrite Hid).
  assert (∀ q : Z, q ≤ product_stock p →
            js_lt (Some (product_stock p)) (as_number (Num q)) = false) as Hfits
    by (intros q Hq; simpl; by apply Z.ltb_ge).
  split; [|split; [|split]].
  - intros fault quantity Hnd.
    destruct (addToCart_cases fault user productId quantity s)
      as [[_ [-> | (_ & Hc & ->)]]
         |(p' & items' & _ & _ & _ & _ & _ & Hc & Hshape)].
    + done.
    + unfold cart_of. simpl. rewrite lookup_insert_eq. apply NoDup_nil_2.
    + rewrite (cart_of_saved _ _ _ _ Hc). unfold one_line_per_product.
      destruct Hshape as [(n & Hfind & _ & ->)|(e & m & _ & _ & ->)].
      * rewrite map_app, Hid. simpl. apply NoDup_app. split; [done|]. split.
        -- intros x Hx [->|[]%elem_of_nil]%elem_of_cons.
           by apply (find_line_None productId (cart_of (user_id user) s)).
        -- apply NoDup_singleton.
      * by rewrite set_first_quantity_products.
  - intros q1 q2 Hq1 Hq2 Hsum Hfind.
    destruct (addToCart_push user productId (Num q1) q1 s p Hp' Hact eq_refl
                ltac:(lia) Hfind)
      as (s1 & Hadd1 & Hps1 & Hc1).
    rewrite Hid in Hadd1, Hc1.
    pose proof (cart_of_saved _ _ _ _ Hc1) as Hcart1.
    assert (List.find (has_product productId) (cart_of (user_id user) s1)
            = Some (mkCartItem productId q1 (product_price p))) as Hfind1
      by (rewrite Hcart1; by apply find_line_push).
    destruct (addToCart_bump user productId (Num q2) (q1 + q2) s1 p _
                ltac:(by rewrite Hps1) Hact ltac:(apply Hfits; lia) Hfind1
                eq_refl ltac:(lia))
      as (s2 & Hadd2 & Hps2 & Hc2).
    simpl in Hadd2. rewrite Hcart1 in Hadd2, Hc2.
    rewrite set_first_quantity_push in Hadd2, Hc2 by done.
    eexists _, s1, s2. split; [exact Hadd1|]. split; [done|]. split; [exact Hadd2|].
    split; [by rewrite Hc2, lookup_insert_eq|].
    rewrite List.filter_app. simpl.
    rewrite (proj2 (find_line_None productId _ Hfind)).
    unfold has_product. simpl. by rewrite bool_decide_eq_true_2.
  - intros q1 q2 e Hq1 Hq2 Hnd Hfind Hsum He.
    destruct (addToCart_bump user productId (Num q1) (item_quantity e + q1) s p e
                Hp' Hact ltac:(apply Hfits; lia) Hfind eq_refl ltac:(lia))
      as (s1 & Hadd1 & Hps1 & Hc1).
    pose proof (cart_of_saved _ _ _ _ Hc1) as Hcart1.
    assert (List.find (has_product productId) (cart_of (user_id user) s1)
            = Some (with_quantity (item_quantity e + q1) e)) as Hfind1
      by (rewrite Hcart1; by apply find_line_set).
    destruct (addToCart_bump user productId (Num q2) (item_quantity e + q1 + q2) s1 p _
                ltac:(by rewrite Hps1) Hact ltac:(apply Hfits; lia) Hfind1
                eq_refl ltac:(lia))
      as (s2 & Hadd2 & Hps2 & Hc2).
    simpl in Hadd2. rewrite Hcart1 in Hadd2, Hc2.
    rewrite set_first_quantity_twice in Hadd2, Hc2.
    eexists _, s1, s2. split; [exact Hadd1|]. split; [done|]. split; [exact Hadd2|].
    split; [by rewrite Hc2, lookup_insert_eq|].
    by apply filter_set_first.
  - intros quantity e Hfind Hle Hlt. unfold addToCart. rewrite Hp', Hact. simpl.
    destruct (Z.ltb_spec (product_stock p) quantity); [lia|].
    unfold cart_of in Hfind.
    destruct (carts s !! user_id user) as [its|]; simpl in *; [|done].
    rewrite Hfind.
    by destruct (Z.ltb_spec (product_stock p) (item_quantity e + quantity)); [|lia].
Qed.

(** With numbers: 2, then 3, with 10 in stock, is one line of 5. *)
Example addToCart_twice :
  carts (addToCart None alice "p-widget" (Num 3)
           (addToCart None alice "p-widget" (Num 2) ten_widgets).2).2
    !! "u-alice"
  = Some [mkCartItem "p-widget" 5 20%float].
Proof. vm_compute. reflexivity. Qed.

(** C9.  addToCart does not always merge.  The validator lets a quantity
    through as the string the client sent, and line 80 then concatenates:
    in the scenario of the spec, with "2" and then "3" and 10 in stock,
    the second call computes "23", finds it above the stock and answers
    400 "Cannot add 3 more items. Only 8 more available"; the line stays
    at 2.  With 30 in stock the same two calls leave one line of 23.  And
    line 76 compares the stored id, printed in lower case, with the string
    of the request: the same product named in upper case is not found in
    the cart, and a second line for it is pushed.  With numbers and the
    id in lower case the two adds give the one line of 5. *)
Theorem addToCart_fails_to_merge :
  let s1 := (addToCart None alice widget_id (Str "2") hex_shop).2 in
  let plenty := {| products := {[ widget_id := widget 30 ]}; carts := ∅; orders := [] |} in
  let t1 := (addToCart None alice widget_id (Num 2) hex_shop).2 in
  cart_of "u-alice" s1 = [mkCartItem widget_id 2 20%float]
  ∧ js_plus 2 (Str "3") = Str "23"
  ∧ addToCart None alice widget_id (Str "3") s1
    = (fail 400 (CannotAddMore (Str "3") 8), s1)
  ∧ cart_of "u-alice"
      (addToCart None alice widget_id (Str "3")
         (addToCart None alice widget_id (Str "2") plenty).2).2
    = [mkCartItem widget_id 23 20%float]
  ∧ cart_of "u-alice" t1 = [mkCartItem widget_id 2 20%float]
  ∧ success (addToCart None alice "64B7F0A1C2D3E4F5A6B7C8D9" (Num 3) t1).1 = true
  ∧ cart_of "u-alice" (addToCart None alice "64B7F0A1C2D3E4F5A6B7C8D9" (Num 3) t1).2
    = [mkCartItem widget_id 2 20%float; mkCartItem widget_id 3 20%float]
  ∧ cart_of "u-alice" (addToCart None alice widget_id (Num 3) t1).2
    = [mkCartItem widget_id 5 20%float].
Proof. vm_compute. repeat split. Qed.

(** * Further properties *)

(** ** Populated lines *)

Lemma populate_depopulate ps item :
  populated_from ps item → populate ps (depopulate item) = item.
Proof.
  unfold populated_from, populate, depopulate. intros H. destruct item; simpl in *.
  by rewrite H.
Qed.

Lemma populate_populated ps items :
  Forall (populated_from ps) (map (populate ps) items).
Proof. apply Forall_fmap, Forall_true. by intros item. Qed.

Lemma findCart_populated uid s items :
  findCart uid s = Some items → Forall (populated_from (products s)) items.
Proof.
  unfold findCart. destruct (carts s !! uid) as [raw|]; [|done].
  intros [= <-]. apply populate_populated.
Qed.

Lemma findCart_saved uid items s :
  Forall (populated_from (products s)) items →
  findCart uid (saveCart uid (map depopulate items) s) = Some items.
Proof.
  intros Hall. unfold findCart, saveCart. simpl. rewrite lookup_insert_eq. simpl.
  f_equal. induction Hall as [|item items Hitem _ IH]; simpl; [done|].
  by rewrite populate_depopulate, IH.
Qed.

Lemma filter_populated ps f items :
  Forall (populated_from ps) items → Forall (populated_from ps) (List.filter f items).
Proof.
  induction 1 as [|item items Hitem _ IH]; simpl; [done|].
  destruct (f item); [by constructor|done].
Qed.

Lemma filter_all {A} (f : A → bool) (l : list A) :
  Forall (λ x, f x = true) l → List.filter f l = l.
Proof. induction 1 as [|x l Hx _ IH]; simpl; [done|]. by rewrite Hx, IH. Qed.

Lemma filter_holds {A} (f : A → bool) (l : list A) :
  Forall (λ x, f x = true) (List.filter f l).
Proof.
  induction l as [|x l IH]; simpl; [done|].
  destruct (f x) eqn:Hx; [by constructor|done].
Qed.

Lemma filter_length_le {A} (f : A → bool) (l : list A) :
  (length (List.filter f l) ≤ length l)%nat.
Proof. induction l as [|x l IH]; simpl; [done|]. destruct (f x); simpl; lia. Qed.

Lemma filter_same_length {A} (f : A → bool) (l : list A) :
  length (List.filter f l) = length l → List.filter f l = l.
Proof.
  induction l as [|x l IH]; simpl; [done|].
  destruct (f x); simpl.
  - intros [= H]. by rewrite IH.
  - pose proof (filter_length_le f l). lia.
Qed.

(** ** getCart *)

(** What getCart returns is what it leaves in the store. *)
Lemma getCart_result user s :
  ∃ items,
    (getCart user s).1 = Json 200 None (Some items)
    ∧ items = List.filter survives (default [] (findCart (user_id user) s))
    ∧ Forall (λ item, survives item = true) items
    ∧ findCart (user_id user) (getCart user s).2 = Some items.
Proof.
  unfold getCart. destruct (findCart (user_id user) s) as [items|] eqn:Hcart; simpl.
  - pose proof (findCart_populated _ _ _ Hcart) as Hpop.
    case_bool_decide as Hlen.
    + eexists. split; [done|]. split; [done|]. split; [apply filter_holds|].
      by apply findCart_saved, filter_populated.
    + assert (List.filter survives items = items) as Hsame.
      { apply filter_same_length. by destruct (decide (length (List.filter survives items)
                                                      = length items)). }
      exists items. rewrite Hsame. split; [done|]. split; [done|].
      split; [rewrite <- Hsame; apply filter_holds|done].
  - exists []. split; [done|]. split; [done|]. split; [done|].
    unfold findCart, saveCart. simpl. by rewrite lookup_insert_eq.
Qed.

(** X1.  getCart always answers 200.  The cart it returns is the user's
    cart without the lines whose product is gone or inactive, the other
    lines as they were and in their order; it is also the cart the store
    holds afterwards.  Catalog, orders and other users' carts are
    untouched. *)
Theorem getCart_keeps_active user s :
  ∃ items,
    (getCart user s).1 = Json 200 None (Some items)
    ∧ items = List.filter survives (default [] (findCart (user_id user) s))
    ∧ Forall (λ item, survives item = true) items
    ∧ findCart (user_id user) (getCart user s).2 = Some items
    ∧ products (getCart user s).2 = products s
    ∧ orders (getCart user s).2 = orders s
    ∧ ∀ uid, uid ≠ user_id user → carts (getCart user s).2 !! uid = carts s !! uid.
Proof.
  destruct (getCart_result user s) as (items & Hr & Hf & Hact & Hcart).
  exists items. do 4 (split; [done|]). clear.
  unfold getCart. destruct (findCart (user_id user) s) as [items|]; simpl.
  - case_bool_decide; simpl; [|done].
    split; [done|]. split; [done|]. intros uid Hne. by rewrite lookup_insert_ne.
  - split; [done|]. split; [done|]. intros uid Hne. by rewrite lookup_insert_ne.
Qed.

(** X2.  getCart is idempotent: the second of two calls in a row gives the
    reply of the first and leaves the store as the first left it. *)
Theorem getCart_twice user s :
  getCart user (getCart user s).2 = getCart user s.
Proof.
  destruct (getCart_result user s) as (items & Hr & _ & Hact & Hcart).
  destruct (getCart user s) as [r s'] eqn:Hfirst. simpl in *. subst r.
  unfold getCart. rewrite Hcart. cbv zeta.
  rewrite (filter_all _ _ Hact). by rewrite bool_decide_eq_false_2 by (by intros ?).
Qed.

Lemma check_items_active items acc t name :
  Forall (λ item, survives item = true) items →
  check_items items acc t ≠ inl (NoLongerAvailable name).
Proof.
  intros Hact. revert acc t.
  induction Hact as [|item items Hitem _ IH]; intros acc t; simpl; [done|].
  unfold survives in Hitem. destruct (pop_product item) as [p|]; [|done].
  rewrite Hitem. simpl. destruct (product_stock p <? pop_quantity item); [done|].
  apply IH.
Qed.

(** With no failing write, [getCart_with] is [getCart]; and whenever it
    answers 200, every write it made went through. *)
Lemma getCart_with_None user s : getCart_with None user s = getCart user s.
Proof.
  unfold getCart_with, getCart.
  by destruct (findCart (user_id user) s) as [items|].
Qed.

Lemma getCart_with_200 fault user s status m data :
  (getCart_with fault user s).1 = Json status m data →
  getCart_with fault user s = getCart user s.
Proof.
  unfold getCart_with, getCart.
  destruct (findCart (user_id user) s) as [items|]; simpl.
  - case_bool_decide; [|done]. by destruct fault as [[|k]|].
  - by destruct fault as [[|[|k]]|].
Qed.

(** X3.  A checkout that follows a getCart that answered 200 is never
    refused for a missing or inactive product: whichever storage call of
    getCart was due to fail, and whichever write of the checkout fails,
    the reply of the checkout is not "Product ... is no longer
    available". *)
Theorem getCart_then_createOrder fault0 fault user shippingAddress paymentMethod s
    status m data name :
  (getCart_with fault0 user s).1 = Json status m data →
  (createOrder fault user shippingAddress paymentMethod (getCart_with fault0 user s).2).1
  ≠ fail 400 (NoLongerAvailable name).
Proof.
  intros Hok. rewrite (getCart_with_200 _ _ _ _ _ _ Hok).
  destruct (getCart_result user s) as (items & _ & _ & Hact & Hcart).
  unfold createOrder. rewrite Hcart.
  destruct items as [|i items]; [done|].
  rewrite createOrder_with_nonempty by done.
  pose proof (check_items_active (i :: items) [] 0%float name Hact) as Hne.
  destruct (check_items (i :: items) [] 0%float) as [msg|[orderItems total]].
  - simpl. unfold fail. intros [= ->]. done.
  - cbv zeta. by destruct (run_writes _ _ _) as [[] ?].
Qed.

(** The widget was withdrawn after Alice put it in her cart: getCart drops
    the line, and the checkout then finds the cart empty. *)
Lemma getCart_then_createOrder_witness :
  (createOrder None alice "12 Elm St" "PayPal" (getCart_with None alice withdrawn).2).1
  ≠ fail 400 (NoLongerAvailable "Widget").
Proof.
  apply (getCart_then_createOrder None None alice "12 Elm St" "PayPal" withdrawn
           200%nat None (Some [])).
  vm_compute. reflexivity.
Defined.

(** When the save of getCart rejects, the line stays in the cart and the
    checkout is refused for it. *)
Example getCart_save_rejected :
  getCart_with (Some 0%nat) alice withdrawn = (Next, withdrawn)
  ∧ (createOrder None alice "12 Elm St" "PayPal" (getCart_with (Some 0%nat) alice withdrawn).2).1
    = fail 400 (NoLongerAvailable "Widget").
Proof. vm_compute. split; reflexivity. Qed.

(** ** validateCart, then what *)

Lemma line_ok_survives item : line_ok item = true → survives item = true.
Proof.
  unfold line_ok, survives. destruct (pop_product item) as [p|]; [|done].
  by intros [? _]%andb_true_iff.
Qed.

Lemma corrected_line_ok item : survives item = true → line_ok (corrected item) = true.
Proof.
  unfold survives, line_ok, corrected. destruct (pop_product item) as [p|] eqn:Hp; [|done].
  intros Hact. simpl. rewrite Hact. simpl. apply Z.leb_le. lia.
Qed.

Lemma corrected_populated ps item :
  populated_from ps item → populated_from ps (corrected item).
Proof.
  unfold populated_from, corrected. destruct (pop_product item) as [p|] eqn:Hp; simpl.
  - done.
  - intros <-. exact Hp.
Qed.

Lemma corrected_twice item : corrected (corrected item) = corrected item.
Proof.
  unfold corrected. destruct (pop_product item) as [p|] eqn:Hp; simpl.
  - f_equal. lia.
  - by rewrite Hp.
Qed.

Lemma corrected_lines items :
  Forall (λ item, line_ok item = true) items →
  cart_lines (map corrected items) = cart_lines items.
Proof.
  induction 1 as [|item items Hok _ IH]; simpl; [done|]. rewrite IH. f_equal.
  unfold line_ok, corrected in *. destruct (pop_product item) as [p|]; [|done].
  apply andb_true_iff in Hok as [_ Hq%Z.leb_le]. simpl. f_equal. lia.
Qed.

Lemma validateCart_clean user s items :
  findCart (user_id user) s = Some items → items ≠ [] →
  Forall (λ item, line_ok item = true) items →
  validateCart user s
  = (Json 200 None (Some {| val_cart := map corrected items;
                            val_errors := [];
                            val_isValid := true |}), s).
Proof.
  intros Hcart Hne Hok. unfold validateCart. rewrite Hcart.
  destruct items as [|i items]; [done|]. cbv zeta.
  destruct (validate_loop_clean _ Hok) as (He & Ha & Hl).
  rewrite He, Hl, Ha, validate_loop_updated. simpl length.
  rewrite bool_decide_eq_true_2 by done.
  rewrite (bool_decide_eq_false_2 (0 < 0)%nat) by lia. simpl negb. simpl orb. cbv iota.
  rewrite filter_all; [done|].
  eapply Forall_impl; [exact Hok|]. apply line_ok_survives.
Qed.

Lemma validateCart_dirty user s items :
  findCart (user_id user) s = Some items →
  ¬ Forall (λ item, line_ok item = true) items →
  ∃ errors,
    errors ≠ []
    ∧ validateCart user s
      = (Json 200 None
           (Some {| val_cart := map corrected (List.filter survives items);
                    val_errors := errors;
                    val_isValid := false |}),
         saveCart (user_id user)
           (map depopulate (map corrected (List.filter survives items))) s).
Proof.
  intros Hcart Hbad. unfold validateCart. rewrite Hcart.
  destruct items as [|i items]; [by destruct Hbad|]. cbv zeta.
  pose proof (validate_loop_dirty _ Hbad) as He.
  exists (lr_errors (validate_loop (i :: items))). split; [done|].
  assert (bool_decide (0 < length (lr_errors (validate_loop (i :: items))))%nat = true)
    as Hpos.
  { apply bool_decide_eq_true_2.
    destruct (lr_errors (validate_loop (i :: items))); [done|simpl; lia]. }
  rewrite Hpos, orb_true_r, validate_loop_updated.
  do 4 f_equal. apply bool_decide_eq_false_2.
  destruct (lr_errors (validate_loop (i :: items))); [done|]. simpl. lia.
Qed.

(** The cart validateCart leaves in the store passes every check of the
    checkout, and holds the references and quantities of the cart it
    returned. *)
Lemma validateCart_stored user s v s' :
  validateCart user s = (Json 200 None (Some v), s') →
  ∃ items',
    findCart (user_id user) s' = Some items'
    ∧ Forall (λ item, line_ok item = true) items'
    ∧ map corrected items' = val_cart v
    ∧ cart_lines items' = cart_lines (val_cart v).
Proof.
  intros Hval.
  destruct (findCart (user_id user) s) as [items|] eqn:Hcart;
    [|by unfold validateCart in Hval; rewrite Hcart in Hval].
  destruct (decide (Forall (λ item, line_ok item = true) items)) as [Hok|Hbad].
  - destruct (decide (items = [])) as [->|Hne];
      [by unfold validateCart in Hval; rewrite Hcart in Hval|].
    rewrite (validateCart_clean user s items Hcart Hne Hok) in Hval.
    injection Hval as <- <-. exists items. simpl.
    split; [done|]. split; [done|]. split; [done|].
    symmetry. by apply corrected_lines.
  - destruct (validateCart_dirty user s items Hcart Hbad) as (errors & _ & Heq).
    rewrite Heq in Hval. injection Hval as <- <-. simpl.
    set (kept := map corrected (List.filter survives items)).
    assert (Forall (λ item, line_ok item = true) kept) as Hkept.
    { apply Forall_fmap. eapply Forall_impl; [apply filter_holds|].
      intros item. apply corrected_line_ok. }
    exists kept. split; [|split; [done|split; [|done]]].
    + apply findCart_saved. apply Forall_fmap.
      eapply Forall_impl; [apply filter_populated, (findCart_populated _ _ _ Hcart)|].
      intros item. apply corrected_populated.
    + unfold kept. rewrite <- list_fmap_compose. apply list_fmap_ext.
      intros ? item _. apply corrected_twice.
Qed.

(** X4.  After a validateCart that answered 200, the same user's checkout
    goes through when no storage write fails, unless the validation left
    the cart without lines, in which case it answers "Cart is empty".  The
    order then holds exactly the products and quantities of the cart
    validateCart returned. *)
Theorem validateCart_then_createOrder user shippingAddress paymentMethod s v s' :
  validateCart user s = (Json 200 None (Some v), s') →
  (val_cart v = []
   ∧ createOrder None user shippingAddress paymentMethod s' = (fail 400 CartIsEmpty, s'))
  ∨ (val_cart v ≠ []
     ∧ ∃ order s'',
         createOrder None user shippingAddress paymentMethod s'
         = (Json 201 (Some OrderCreated) (Some order), s'')
         ∧ order_lines (order_items order) = cart_lines (val_cart v)).
Proof.
  intros Hval.
  destruct (validateCart_stored user s v s' Hval) as (items' & Hcart & Hok & Hcor & Hlines).
  destruct items' as [|i items'].
  - left. split; [by rewrite <- Hcor|]. unfold createOrder. by rewrite Hcart.
  - right. split; [by rewrite <- Hcor|].
    destruct (createOrder_commits user shippingAddress paymentMethod (i :: items') s'
                Hcart ltac:(done) Hok) as (orderItems & total & Hchk & Hrun).
    eexists _, _. split; [exact Hrun|]. simpl.
    apply check_items_inr in Hchk as [_ Hl]. by rewrite Hl, <- Hlines.
Qed.

Lemma validateCart_then_createOrder_witness :
  ∃ order s'',
    createOrder None alice "12 Elm St" "PayPal" (validateCart alice (shop 2 3)).2
    = (Json 201 (Some OrderCreated) (Some order), s'')
    ∧ order_lines (order_items order) = [("p-widget", 2)].
Proof.
  destruct (validateCart_then_createOrder alice "12 Elm St" "PayPal" (shop 2 3)
              {| val_cart := [mkPopulatedItem "p-widget" (Some (widget 2)) 2 20%float];
                 val_errors := [StockShort "p-widget" "Widget" 3 2];
                 val_isValid := false |}
              (validateCart alice (shop 2 3)).2)
    as [[Hnil _] | [_ H]]; [by vm_compute | discriminate Hnil | exact H].
Defined.

(** X5.  validateCart settles in one pass: after a call that answered 200,
    a second call finds nothing to report.  It answers "Cart is empty" if
    the first call left no line, and otherwise returns the same cart with
    no error and isValid true, and writes nothing. *)
Theorem validateCart_twice user s v s' :
  validateCart user s = (Json 200 None (Some v), s') →
  (val_cart v = [] ∧ validateCart user s' = (fail 400 CartIsEmpty, s'))
  ∨ (val_cart v ≠ []
     ∧ validateCart user s'
       = (Json 200 None (Some {| val_cart := val_cart v;
                                 val_errors := [];
                                 val_isValid := true |}), s')).
Proof.
  intros Hval.
  destruct (validateCart_stored user s v s' Hval) as (items' & Hcart & Hok & Hcor & _).
  destruct items' as [|i items'].
  - left. split; [by rewrite <- Hcor|]. unfold validateCart. by rewrite Hcart.
  - right. split; [by rewrite <- Hcor|].
    rewrite (validateCart_clean user s' (i :: items') Hcart ltac:(done) Hok).
    by rewrite Hcor.
Qed.

Lemma validateCart_twice_witness :
  validateCart alice (validateCart alice (shop 2 3)).2
  = (Json 200 None
       (Some {| val_cart := [mkPopulatedItem "p-widget" (Some (widget 2)) 2 20%float];
                val_errors := [];
                val_isValid := true |}),
     (validateCart alice (shop 2 3)).2).
Proof.
  destruct (validateCart_twice alice (shop 2 3)
              {| val_cart := [mkPopulatedItem "p-widget" (Some (widget 2)) 2 20%float];
                 val_errors := [StockShort "p-widget" "Widget" 3 2];
                 val_isValid := false |}
              (validateCart alice (shop 2 3)).2)
    as [[Hnil _] | [_ H]]; [by vm_compute | discriminate Hnil | exact H].
Defined.

(** ** addToCart, further *)

Lemma addToCart_products fault user productId quantity s :
  products (addToCart fault user productId quantity s).2 = products s.
Proof.
  destruct (addToCart_cases fault user productId quantity s)
    as [[_ [-> | (_ & _ & ->)]] | (p & items' & _ & _ & _ & Hps & _)]; done.
Qed.

(** X6.  addToCart writes to the caller's cart and to nothing else: the
    catalog, the orders and every other user's cart are as before.  When
    it refuses the request with a 404 or a 400 the whole store is as
    before.  When a storage call rejects, or the quantity cannot be cast
    to a number, the error goes to [next], and the store is as before
    except that a user who had no cart may now have the empty cart
    [Cart.create] made. *)
Theorem addToCart_touches_own_cart fault user productId quantity s :
  let r := addToCart fault user productId quantity s in
  products r.2 = products s
  ∧ orders r.2 = orders s
  ∧ (∀ uid, uid ≠ user_id user → carts r.2 !! uid = carts s !! uid)
  ∧ (∀ status m data, r.1 = Json status m data → success r.1 = false → r.2 = s)
  ∧ (r.1 = Next →
     r.2 = s ∨ (carts s !! user_id user = None ∧ r.2 = saveCart (user_id user) [] s)).
Proof.
  cbv zeta.
  split; [apply addToCart_products|]. split; [apply addToCart_orders|].
  destruct (addToCart_cases fault user productId quantity s)
    as [[Hfail [Hs | (Hnext & Hc & Hs)]] | (p & items' & _ & _ & Hr & _ & _ & Hc & _)].
  - rewrite Hs. repeat split; by auto.
  - rewrite Hs, Hnext. split; [|split; [done|by auto]].
    intros uid Hne. simpl. by rewrite lookup_insert_ne.
  - rewrite Hr, Hc. split; [|split; [done|done]].
    intros uid Hne. by rewrite lookup_insert_ne.
Qed.

(** Alice has no cart; [Cart.create] goes through and [cart.save]
    rejects: the reply is an error and the empty cart stays. *)
Example addToCart_save_rejected :
  addToCart (Some 1%nat) alice "p-widget" (Num 2) ten_widgets
  = (Next, saveCart "u-alice" [] ten_widgets)
  ∧ saveCart "u-alice" [] ten_widgets ≠ ten_widgets.
Proof.
  split; [vm_compute; reflexivity|].
  intros Heq. assert (carts (saveCart "u-alice" [] ten_widgets) !! "u-alice"
                      = carts ten_widgets !! "u-alice") as H by (by rewrite Heq).
  vm_compute in H. discriminate H.
Qed.

(** X7.  A cart line never asks for more than there is when it is written.
    When the request names the product by the lower-case form of its id,
    after an addToCart that answered 2xx the product exists and is
    active, and the first line the caller's cart has for it holds at most
    the current stock; this whether the quantity came as a number or as a
    string. *)
Theorem addToCart_within_stock fault user productId quantity s :
  lower_hex productId = productId →
  success (addToCart fault user productId quantity s).1 = true →
  ∃ p e,
    products s !! productId = Some p
    ∧ product_isActive p = true
    ∧ List.find (has_product productId)
        (cart_of (user_id user) (addToCart fault user productId quantity s).2) = Some e
    ∧ item_quantity e ≤ product_stock p.
Proof.
  intros Hid Hok.
  destruct (addToCart_cases fault user productId quantity s)
    as [[Hfail _] | (p & items' & Hp & Hact & _ & _ & _ & Hc & Hshape)];
    [by rewrite Hfail in Hok|].
  rewrite Hid in Hp. rewrite (cart_of_saved _ _ _ _ Hc).
  destruct Hshape as [(n & Hfind & Hn & ->)|(e & m & Hfind & Hm & ->)].
  - exists p, (mkCartItem (lower_hex productId) n (product_price p)).
    split; [done|]. split; [done|]. split; [by apply find_line_push|done].
  - exists p, (with_quantity m e).
    split; [done|]. split; [done|]. split; [by apply find_line_set|done].
Qed.

Lemma addToCart_within_stock_witness :
  ∃ p e,
    products hex_shop !! widget_id = Some p
    ∧ product_isActive p = true
    ∧ List.find (has_product widget_id)
        (cart_of "u-alice" (addToCart None alice widget_id (Str "4") hex_shop).2) = Some e
    ∧ item_quantity e ≤ product_stock p.
Proof.
  apply (addToCart_within_stock None alice widget_id (Str "4") hex_shop); reflexivity.
Defined.

(** ** From cart to order and back *)

(** X8.  Add, check out, cancel is a round trip.  A user whose cart has no
    lines adds a quantity, sent as the number [n] or as a string that
    reads as [n], of an active product that has that much in stock, checks
    out with no storage failure and cancels the order: the checkout
    answers 201 and takes [n] from the stock, the cancellation answers
    200, and afterwards the catalog is what it was before the add, the
    cart is empty and the order is Cancelled and Refunded. *)
Theorem add_checkout_cancel user productId quantity n shippingAddress paymentMethod s p :
  products s !! lower_hex productId = Some p → product_isActive p = true →
  as_number quantity = Some n → n ≤ product_stock p →
  cart_of (user_id user) s = [] →
  let s1 := (addToCart None user productId quantity s).2 in
  let r2 := createOrder None user shippingAddress paymentMethod s1 in
  let r3 := cancelOrder user (length (orders s)) r2.2 in
  success r2.1 = true
  ∧ stock_of (lower_hex productId) r2.2 = Some (product_stock p - n)
  ∧ success r3.1 = true
  ∧ products r3.2 = products s
  ∧ carts r3.2 !! user_id user = Some []
  ∧ ∃ order, orders r3.2 = orders s ++ [order]
             ∧ order_orderStatus order = Cancelled
             ∧ order_paymentStatus order = Refunded.
Proof.
  intros Hp Hact Hn Hq Hempty. cbv zeta.
  assert (List.find (has_product productId) (cart_of (user_id user) s) = None) as Hfind
    by (by rewrite Hempty).
  destruct (addToCart_push user productId quantity n s p Hp Hact Hn Hq Hfind)
    as (s1 & Hadd & Hps1 & Hc1).
  rewrite Hempty in Hadd, Hc1. simpl in Hadd, Hc1. rewrite Hadd. cbn [snd].
  pose proof (addToCart_orders None user productId quantity s) as Hos1.
  rewrite Hadd in Hos1. cbn [snd] in Hos1.
  clear Hadd Hfind Hn. revert Hp Hc1. generalize (lower_hex productId).
  intros pid Hp Hc1.
  set (line := mkPopulatedItem pid (Some p) n (product_price p)).
  assert (findCart (user_id user) s1 = Some [line]) as Hcart.
  { unfold findCart. rewrite Hc1, lookup_insert_eq. simpl. unfold populate. simpl.
    by rewrite Hps1, Hp. }
  assert (Forall (λ item, line_ok item = true) [line]) as Hok.
  { constructor; [|done]. unfold line_ok. simpl. rewrite Hact. simpl.
    by apply Z.leb_le. }
  destruct (createOrder_commits user shippingAddress paymentMethod [line] s1
              Hcart ltac:(done) Hok) as (orderItems & total & Hchk & Hrun).
  simpl in Hchk. rewrite Hact in Hchk. simpl in Hchk.
  destruct (Z.ltb_spec (product_stock p) n); [lia|].
  injection Hchk as <- <-.
  cbv zeta in Hrun. rewrite Hrun. cbn [fst snd].
  set (order := new_order _ _ _ _ _).
  set (s2 := clearCart _ _).
  assert (products s2 = <[pid := add_stock (- n) p]> (products s)) as Hps2.
  { unfold s2, clearCart, saveCart, shift_stock, incStock. simpl.
    rewrite Hps1. apply map_eq. intros i. rewrite lookup_alter, lookup_insert.
    destruct (decide (pid = i)) as [<-|]; [by rewrite Hp|done]. }
  assert (orders s2 = orders s ++ [order]) as Hos2
    by (unfold s2, clearCart, saveCart, shift_stock, incStock; simpl; by rewrite Hos1).
  split; [done|].
  split. { unfold stock_of. rewrite Hps2, lookup_insert_eq. simpl. f_equal; lia. }
  unfold cancelOrder. rewrite Hos2, list_lookup_middle by done.
  rewrite bool_decide_eq_false_2 by (simpl; by intros ?). simpl terminal. cbv iota.
  cbn [fst snd]. split; [done|].
  split.
  { apply map_eq. intros i. unfold saveOrder. cbn [products].
    rewrite restore_stock_shift, shift_stock_lookup, Hps2.
    change (order_lines (order_items order)) with [(pid, n)].
    cbn [demand foldr fst snd].
    destruct (decide (pid = i)) as [<-|Hne].
    - rewrite bool_decide_eq_true_2 by done. rewrite lookup_insert_eq, Hp.
      cbn [fmap option_fmap option_map]. rewrite add_stock_add.
      replace (- n + (n + 0)) with 0 by lia. by rewrite add_stock_0.
    - rewrite bool_decide_eq_false_2 by done. rewrite lookup_insert_ne by done.
      destruct (products s !! i); [|done]. cbn [fmap option_fmap option_map].
      by rewrite add_stock_0. }
  split.
  { unfold saveOrder. cbn [carts]. rewrite restore_stock_carts.
    unfold s2, clearCart, saveCart. cbn [carts]. by rewrite lookup_insert_eq. }
  exists (mark_cancelled order). split; [|done].
  unfold saveOrder. cbn [orders]. rewrite restore_stock_orders, Hos2.
  rewrite insert_app_r_alt by lia. by rewrite Nat.sub_diag.
Qed.

Lemma add_checkout_cancel_witness :
  let s1 := (addToCart None alice "p-widget" (Num 4) ten_widgets).2 in
  let r2 := createOrder None alice "12 Elm St" "PayPal" s1 in
  let r3 := cancelOrder alice (length (orders ten_widgets)) r2.2 in
  success r2.1 = true
  ∧ stock_of "p-widget" r2.2 = Some (product_stock (widget 10) - 4)
  ∧ success r3.1 = true
  ∧ products r3.2 = products ten_widgets
  ∧ carts r3.2 !! "u-alice" = Some []
  ∧ ∃ order, orders r3.2 = orders ten_widgets ++ [order]
             ∧ order_orderStatus order = Cancelled
             ∧ order_paymentStatus order = Refunded.
Proof.
  apply (add_checkout_cancel alice "p-widget" (Num 4) 4 "12 Elm St" "PayPal" ten_widgets
           (widget 10)); try reflexivity. simpl. lia.
Defined.

(** ** Orders over time *)

Lemma run_writes_same_orders fault ws s :
  Forall (λ w : Store → Store, ∀ s, orders (w s) = orders s) ws →
  orders (run_writes fault ws s).2 = orders s.
Proof.
  intros Hws. revert fault s.
  induction Hws as [|w ws Hw _ IH]; intros fault s; simpl; [done|].
  destruct fault as [[|k]|]; [done| |]; by rewrite IH, Hw.
Qed.

Lemma stock_writes_same_orders uid items :
  Forall (λ w : Store → Store, ∀ s, orders (w s) = orders s)
    (stock_writes items ++ [clearCart uid]).
Proof.
  apply Forall_app. split; [|by constructor].
  unfold stock_writes. by apply Forall_fmap, Forall_true.
Qed.

Lemma run_writes_cons fault w ws s :
  run_writes fault (w :: ws) s
  = match fault with
    | Some O => (false, s)
    | Some (S k) => run_writes (Some k) ws (w s)
    | None => run_writes None ws (w s)
    end.
Proof. done. Qed.

(** A checkout leaves the orders as they are or appends the new one. *)
Lemma createOrder_orders fault user shippingAddress paymentMethod s :
  orders (createOrder fault user shippingAddress paymentMethod s).2 = orders s
  ∨ ∃ orderItems total,
      orders (createOrder fault user shippingAddress paymentMethod s).2
      = orders s
        ++ [new_order (user_id user) shippingAddress paymentMethod orderItems total].
Proof.
  unfold createOrder. destruct (findCart (user_id user) s) as [[|i items]|];
    [by left| |by left].
  rewrite createOrder_with_nonempty by done.
  destruct (check_items (i :: items) [] 0%float) as [msg|[orderItems total]]; [by left|].
  cbv zeta. set (order := new_order _ _ _ _ _).
  assert (orders (run_writes fault (commit_writes (user_id user) order (i :: items)) s).2
          = orders s
          ∨ orders (run_writes fault (commit_writes (user_id user) order (i :: items)) s).2
            = orders s ++ [order]) as Hcases.
  { unfold commit_writes. rewrite run_writes_cons.
    destruct fault as [[|k]|]; [by left| |]; right;
      by rewrite (run_writes_same_orders _ _ _ (stock_writes_same_orders _ (i :: items))). }
  destruct (run_writes fault _ s) as [[] s'];
    (destruct Hcases as [H|H]; [by left|right; by eauto]).
Qed.

Lemma handle_orders_shape r s :
  length (orders (handle s r)) = length (orders s)
  ∨ ∃ uid shippingAddress paymentMethod orderItems total,
      orders (handle s r)
      = orders s ++ [new_order uid shippingAddress paymentMethod orderItems total].
Proof.
  destruct r as [fault u a pm | now u i | u i | now u i st tn n | f u pid q | u]; simpl.
  - destruct (createOrder_orders fault u a pm s) as [->|(oi & t & ->)];
      [by left|right; by eauto 10].
  - left. unfold updateOrderToPaid. destruct (orders s !! i); [|done].
    destruct (_ && _); [done|]. case_bool_decide; [done|]. simpl. apply length_insert.
  - left. unfold cancelOrder. destruct (orders s !! i) as [o|]; [|done].
    case_bool_decide; [done|]. destruct (terminal _); [done|]. simpl.
    by rewrite length_insert, restore_stock_orders.
  - left. unfold adminOnly. destruct (isAdmin u); [|done].
    unfold updateOrderStatus. destruct (orders s !! i); [|done]. simpl.
    apply length_insert.
  - left. by rewrite addToCart_orders.
  - left. by rewrite validateCart_orders.
Qed.

(** One request leaves an order with its sale and its stamps. *)
Lemma handle_order_kept r s id o :
  orders s !! id = Some o →
  ∃ o', orders (handle s r) !! id = Some o' ∧ same_sale o o' ∧ stamps_kept o o'.
Proof.
  intros Hlook.
  destruct (handle_order r s id o Hlook) as (o' & Hlook' & [-> | [H | [H | H]]]).
  - exists o. by repeat split.
  - destruct H as (now & u & _ & _ & ->). eexists. split; [done|].
    repeat split; try done; intros _; by eexists.
  - destruct H as (u & _ & _ & ->). eexists. split; [done|]. by repeat split.
  - destruct H as (now & u & st & tn & n & _ & ->). eexists. split; [done|].
    split; [by repeat split|]. unfold stamps_kept. simpl.
    split; [done|]. split; [|split].
    + intros Hd. by case_bool_decide.
    + intros Ht. by destruct (truthy tn) eqn:Htn.
    + intros Ht. by destruct (truthy n) eqn:Hn.
Qed.

Lemma serve_order_kept rs s id o :
  orders s !! id = Some o →
  ∃ o', orders (serve rs s) !! id = Some o' ∧ same_sale o o' ∧ stamps_kept o o'.
Proof.
  revert s o. induction rs as [|r rs IH]; intros s o Hlook; simpl.
  - exists o. by repeat split.
  - destruct (handle_order_kept r s id o Hlook) as (o1 & Hlook1 & Hsale1 & Hst1).
    destruct (IH _ _ Hlook1) as (o2 & Hlook2 & Hsale2 & Hst2).
    exists o2. split; [done|]. split.
    + unfold same_sale in *. destruct_and!. repeat split; congruence.
    + unfold stamps_kept in *. destruct_and!. repeat split; eauto.
Qed.

(** X9.  An order is never removed and never rewritten: whatever requests
    are served (failing writes and admin updates included), the order is
    still found under its id, with the same owner, lines, address, payment
    method and amounts, so totalAmount is fixed at creation. *)
Theorem order_sale_is_fixed rs s id o :
  orders s !! id = Some o →
  ∃ o', orders (serve rs s) !! id = Some o' ∧ same_sale o o'.
Proof.
  intros Hlook. destruct (serve_order_kept rs s id o Hlook) as (o' & ? & ? & _).
  by exists o'.
Qed.

Lemma order_sale_is_fixed_witness :
  ∃ o', orders (serve [PutPay 1700000300 alice 0%nat;
                       PutStatus 1700000400 root 0%nat Shipped (Some "TRK-1") None;
                       PutCancel alice 0%nat;
                       PostOrder None alice "12 Elm St" "PayPal"] unpaid_order_store)
          !! 0%nat = Some o'
        ∧ same_sale widget_order o'.
Proof. apply (order_sale_is_fixed _ unpaid_order_store 0 widget_order). reflexivity. Defined.

(** X10.  What an order has been given stays: once paidAt or deliveredAt
    is set it is never unset, and a tracking number or a note that is not
    empty is never emptied, whatever requests are served. *)
Theorem order_stamps_stay rs s id o :
  orders s !! id = Some o →
  ∃ o', orders (serve rs s) !! id = Some o' ∧ stamps_kept o o'.
Proof.
  intros Hlook. destruct (serve_order_kept rs s id o Hlook) as (o' & ? & _ & ?).
  by exists o'.
Qed.

Lemma order_stamps_stay_witness :
  ∃ o', orders (serve [PutStatus 1700000500 root 0%nat Processing (Some "") None;
                       PutCancel alice 0%nat] after_delivery) !! 0%nat = Some o'
        ∧ stamps_kept delivered_order o'.
Proof. apply (order_stamps_stay _ after_delivery 0 delivered_order). reflexivity. Defined.

Lemma new_order_sound uid shippingAddress paymentMethod orderItems total :
  order_sound (new_order uid shippingAddress paymentMethod orderItems total).
Proof. by repeat split. Qed.

Lemma handle_sound r s :
  Forall order_sound (orders s) → Forall order_sound (orders (handle s r)).
Proof.
  intros Hall.
  destruct (handle_orders_shape r s) as [Hlen|(uid & a & pm & oi & t & ->)].
  - apply Forall_lookup. intros i o' Hi.
    assert (is_Some (orders s !! i)) as [o Ho].
    { apply lookup_lt_is_Some. rewrite <- Hlen. by eapply lookup_lt_Some. }
    pose proof (proj1 (Forall_lookup _ _) Hall i o Ho) as (Ht & Hs & Hx & Hpe & Hpa & Hd).
    destruct (handle_order r s i o Ho) as (o2 & Hi2 & Hcase).
    rewrite Hi in Hi2. injection Hi2 as <-.
    destruct Hcase as [-> | [H | [H | H]]].
    + by repeat split.
    + destruct H as (now & u & _ & _ & ->).
      unfold order_sound. simpl. repeat split; try done; intros _; by eexists.
    + destruct H as (u & _ & Hnt & ->).
      unfold order_sound. simpl. by repeat split.
    + destruct H as (now & u & st & tn & n & _ & ->).
      unfold order_sound. simpl. repeat split; try done.
      intros ->. by eexists.
  - apply Forall_app. split; [done|]. constructor; [apply new_order_sound|done].
Qed.

(** X11.  Every order in the store is sound, and stays so under every
    sequence of requests: totalAmount is itemsPrice + shippingPrice +
    taxPrice with the shipping and tax of the checkout rule, a Pending
    order has no paidAt, a Paid order has one, and a Delivered order has a
    deliveredAt.  A store without orders is a starting point. *)
Theorem orders_stay_sound rs s :
  Forall order_sound (orders s) → Forall order_sound (orders (serve rs s)).
Proof.
  revert s. induction rs as [|r rs IH]; intros s Hall; simpl; [done|].
  by apply IH, handle_sound.
Qed.

Lemma orders_stay_sound_witness :
  Forall order_sound
    (orders (serve [PostOrder None alice "12 Elm St" "PayPal";
                    PutPay 1700000300 alice 0%nat;
                    PutStatus 1700000400 root 0%nat Delivered None None]
               (shop 5 3))).
Proof. apply orders_stay_sound. constructor. Defined.

Lemma serve_keeps_cancelled rs s id o :
  Forall (λ r, is_status_update r = false) rs →
  orders s !! id = Some o → order_orderStatus o = Cancelled →
  ∃ o', orders (serve rs s) !! id = Some o' ∧ order_orderStatus o' = Cancelled.
Proof.
  intros Hrs. revert s o.
  induction Hrs as [|r rs Hr _ IH]; intros s o Hlook Hc; simpl; [by eauto|].
  destruct (handle_order r s id o Hlook) as (o' & Hlook' & [-> | [H | [H | H]]]).
  - by eapply IH.
  - destruct H as (now & u & _ & _ & ->). by eapply IH.
  - destruct H as (u & _ & _ & ->). by eapply IH.
  - destruct H as (now & u & st & tn & n & -> & _). done.
Qed.

Lemma cancelOrder_refused user id s o :
  orders s !! id = Some o → terminal (order_orderStatus o) = true →
  success (cancelOrder user id s).1 = false ∧ (cancelOrder user id s).2 = s.
Proof.
  intros Hlook Hterm. unfold cancelOrder. rewrite Hlook, Hterm.
  by case_bool_decide.
Qed.

(** X12.  An order is cancelled at most once as long as no admin status
    update is served: after a cancelOrder that answered 2xx, every later
    cancelOrder for that order, by anyone, is refused and changes nothing,
    so the stock is not restored a second time. *)
Theorem cancelOrder_once user id s rs user2 :
  success (cancelOrder user id s).1 = true →
  Forall (λ r, is_status_update r = false) rs →
  let s2 := serve rs (cancelOrder user id s).2 in
  success (cancelOrder user2 id s2).1 = false ∧ (cancelOrder user2 id s2).2 = s2.
Proof.
  intros Hok Hrs.
  assert (∃ o, orders (cancelOrder user id s).2 !! id = Some o
               ∧ order_orderStatus o = Cancelled) as (o & Hlook & Hc).
  { unfold cancelOrder in *. destruct (orders s !! id) as [o|] eqn:Ho; [|done].
    case_bool_decide; [done|]. destruct (terminal (order_orderStatus o)); [done|].
    simpl. exists (mark_cancelled o). split; [|done].
    rewrite restore_stock_orders. apply list_lookup_insert_eq. by eapply lookup_lt_Some. }
  destruct (serve_keeps_cancelled rs _ id o Hrs Hlook Hc) as (o' & Hlook' & Hc').
  cbv zeta. apply (cancelOrder_refused user2 id _ o' Hlook'). by rewrite Hc'.
Qed.

Lemma cancelOrder_once_witness :
  let s2 := serve [PutPay 1700000300 alice 0%nat; PostCartValidate alice]
              (cancelOrder alice 0 unpaid_order_store).2 in
  success (cancelOrder alice 0 s2).1 = false ∧ (cancelOrder alice 0 s2).2 = s2.
Proof.
  apply (cancelOrder_once alice 0 unpaid_order_store
           [PutPay 1700000300 alice 0%nat; PostCartValidate alice] alice).
  - reflexivity.
  - repeat constructor.
Defined.

(** X13.  cancelOrder keeps no record of an earlier cancellation.  When an
    admin moves a cancelled order back to Processing, the owner's next
    cancelOrder goes through again and restores the stock a second time:
    every product ends up with twice the order's quantity on top of what
    it had before the first cancellation. *)
Theorem cancel_reopen_cancel user admin now id s o :
  orders s !! id = Some o → order_user o = user_id user →
  terminal (order_orderStatus o) = false → isAdmin admin = true →
  let s1 := (cancelOrder user id s).2 in
  let s2 := handle s1 (PutStatus now admin id Processing None None) in
  let r3 := cancelOrder user id s2 in
  success r3.1 = true
  ∧ ∀ pid, stock_of pid r3.2
           = (λ z, z + 2 * demand pid (order_lines (order_items o))) <$> stock_of pid s.
Proof.
  intros Hlook Hu Hterm Hadmin. cbv zeta.
  pose proof (lookup_lt_Some _ _ _ Hlook) as Hlt.
  assert (cancelOrder user id s
          = (Json 200 (Some OrderCancelled) (Some (mark_cancelled o)),
             saveOrder id (mark_cancelled o) (restore_stock (order_items o) s))) as ->.
  { unfold cancelOrder. rewrite Hlook, Hterm.
    by rewrite bool_decide_eq_false_2 by (rewrite Hu; by intros ?). }
  cbn [snd handle]. unfold adminOnly. rewrite Hadmin.
  set (s1 := saveOrder id (mark_cancelled o) (restore_stock (order_items o) s)).
  assert (orders s1 !! id = Some (mark_cancelled o)) as Hl1.
  { unfold s1, saveOrder. cbn [orders]. rewrite restore_stock_orders.
    by apply list_lookup_insert_eq. }
  unfold updateOrderStatus. rewrite Hl1. cbn [snd].
  set (o2 := set_status now Processing None None (mark_cancelled o)).
  set (s2 := saveOrder id o2 s1).
  assert (orders s2 !! id = Some o2) as Hl2.
  { unfold s2, saveOrder. cbn [orders]. apply list_lookup_insert_eq.
    by eapply lookup_lt_Some. }
  unfold cancelOrder. rewrite Hl2.
  rewrite bool_decide_eq_false_2 by (simpl; rewrite Hu; by intros ?).
  simpl terminal. cbv iota. cbn [fst snd]. split; [done|].
  intros pid. unfold stock_of, saveOrder. cbn [products].
  rewrite restore_stock_shift, shift_stock_lookup.
  unfold s2, s1, saveOrder. cbn [products].
  rewrite restore_stock_shift, shift_stock_lookup.
  change (order_items o2) with (order_items o).
  destruct (products s !! pid) as [p|]; [|done]. simpl. f_equal. lia.
Qed.

Lemma cancel_reopen_cancel_witness :
  let s1 := (cancelOrder alice 0 unpaid_order_store).2 in
  let s2 := handle s1 (PutStatus 1700000600 root 0%nat Processing None None) in
  let r3 := cancelOrder alice 0 s2 in
  success r3.1 = true
  ∧ ∀ pid, stock_of pid r3.2
           = (λ z, z + 2 * demand pid (order_lines (order_items widget_order)))
             <$> stock_of pid unpaid_order_store.
Proof.
  apply (cancel_reopen_cancel alice root 1700000600 0 unpaid_order_store widget_order);
    reflexivity.
Defined.

Example widgets_restored_twice :
  stock_of "p-widget" unpaid_order_store = Some 2
  ∧ stock_of "p-widget"
      (cancelOrder alice 0
         (handle (cancelOrder alice 0 unpaid_order_store).2
            (PutStatus 1700000600 root 0%nat Processing None None))).2
    = Some 8.
Proof. vm_compute. split; reflexivity. Qed.

(** ** Stock is conserved *)

Lemma held_app id l1 l2 : held id (l1 ++ l2) = held id l1 + held id l2.
Proof.
  induction l1 as [|o l1 IH]; simpl; [done|].
  case_bool_decide; lia.
Qed.

Lemma held_insert id os i o o' :
  os !! i = Some o →
  held id (<[i := o']> os) = held id os - held id [o] + held id [o'].
Proof.
  revert i. induction os as [|x os IH]; intros i Hi; [done|].
  destruct i as [|i]; simpl in *.
  - injection Hi as ->. repeat case_bool_decide; lia.
  - specialize (IH i Hi). simpl in IH. repeat case_bool_decide; lia.
Qed.

Lemma validateCart_products user s : products (validateCart user s).2 = products s.
Proof.
  unfold validateCart. destruct (findCart (user_id user) s) as [[|i items]|]; try done.
  cbv zeta. by destruct (_ || _).
Qed.

Lemma createOrder_None_cases user shippingAddress paymentMethod s :
  (createOrder None user shippingAddress paymentMethod s).2 = s
  ∨ ∃ items orderItems total,
      order_lines orderItems = cart_lines items
      ∧ (createOrder None user shippingAddress paymentMethod s).2
        = clearCart (user_id user)
            (shift_stock (negate (cart_lines items))
               (insertOrder
                  (new_order (user_id user) shippingAddress paymentMethod orderItems total)
                  s)).
Proof.
  unfold createOrder. destruct (findCart (user_id user) s) as [[|i items]|];
    [by left| |by left].
  rewrite createOrder_with_nonempty by done.
  destruct (check_items (i :: items) [] 0%float) as [msg|[orderItems total]] eqn:Hchk;
    [by left|].
  right. exists (i :: items), orderItems, total.
  apply check_items_inr in Hchk as [_ Hlines]. split; [done|].
  cbv zeta. rewrite run_writes_None. unfold commit_writes. cbn [foldl snd].
  by rewrite foldl_app, stock_writes_shift.
Qed.

Lemma handle_conserves r s id :
  plain r = true →
  stock_of id (handle s r)
  = (λ z, z + held id (orders s) - held id (orders (handle s r))) <$> stock_of id s.
Proof.
  assert (∀ s' : Store, products s' = products s → orders s' = orders s →
            stock_of id s'
            = (λ z, z + held id (orders s) - held id (orders s')) <$> stock_of id s)
    as Hsame.
  { intros s' Hp Ho. unfold stock_of. rewrite Hp, Ho.
    destruct (products s !! id); simpl; [f_equal; lia|done]. }
  intros Hplain.
  destruct r as [[k|] u a pm | now u i | u i | now u i st tn n | f u pid q | u];
    try done; cbn [handle].
  - destruct (createOrder_None_cases u a pm s) as [->|(items & oi & t & Hl & ->)].
    + by apply Hsame.
    + unfold clearCart, saveCart, stock_of. cbn [products orders].
      rewrite shift_stock_lookup, shift_stock_orders. cbn [products orders insertOrder].
      rewrite held_app, demand_negate. cbn [held foldr new_order order_orderStatus
                                              order_items].
      rewrite bool_decide_eq_false_2 by done. rewrite Hl.
      destruct (products s !! id); simpl; [f_equal; lia|done].
  - unfold updateOrderToPaid. destruct (orders s !! i) as [o|] eqn:Ho; [|by apply Hsame].
    destruct (_ && _); [by apply Hsame|]. case_bool_decide; [by apply Hsame|].
    unfold stock_of, saveOrder. cbn [snd products orders].
    rewrite (held_insert id _ i o _ Ho). simpl.
    destruct (products s !! id); simpl; [f_equal; case_bool_decide; lia|done].
  - unfold cancelOrder. destruct (orders s !! i) as [o|] eqn:Ho; [|by apply Hsame].
    case_bool_decide; [by apply Hsame|].
    destruct (terminal (order_orderStatus o)) eqn:Hterm; [by apply Hsame|].
    unfold stock_of, saveOrder. cbn [snd products orders].
    rewrite restore_stock_orders, restore_stock_shift, shift_stock_lookup.
    rewrite (held_insert id _ i o _ Ho). simpl.
    rewrite (bool_decide_eq_false_2 (order_orderStatus o = Cancelled))
      by (intros Hc; by rewrite Hc in Hterm).
    destruct (products s !! id); simpl; [f_equal; lia|done].
  - apply Hsame; [apply addToCart_products|apply addToCart_orders].
  - apply Hsame; [apply validateCart_products|apply validateCart_orders].
Qed.

(** X14.  Stock is conserved.  As long as every storage write goes through
    and no admin status update is served, each product's stock plus the
    quantity of it held by the orders that are not Cancelled stays what it
    was, whatever checkouts, payments, cancellations and cart requests are
    served: a checkout moves units from the stock to an order, a
    cancellation moves them back, and nothing else moves them. *)
Theorem stock_is_conserved rs s id :
  Forall (λ r, plain r = true) rs →
  stock_of id (serve rs s)
  = (λ z, z + held id (orders s) - held id (orders (serve rs s))) <$> stock_of id s.
Proof.
  intros Hrs. revert s. induction Hrs as [|r rs Hr _ IH]; intros s; simpl.
  - destruct (stock_of id s); simpl; [f_equal; lia|done].
  - rewrite IH, (handle_conserves r s id Hr).
    destruct (stock_of id s); simpl; [f_equal; lia|done].
Qed.

Lemma stock_is_conserved_witness :
  let rs := [PostOrder None alice "12 Elm St" "PayPal";
             PostCart None alice "p-widget" (Num 1);
             PutPay 1700000300 alice 0%nat;
             PostOrder None alice "12 Elm St" "PayPal";
             PutCancel alice 0%nat] in
  stock_of "p-widget" (serve rs (shop 5 3))
  = (λ z, z + held "p-widget" (orders (shop 5 3))
          - held "p-widget" (orders (serve rs (shop 5 3))))
    <$> stock_of "p-widget" (shop 5 3).
Proof. apply stock_is_conserved. repeat constructor. Defined.

Example stock_is_conserved_figures :
  let rs := [PostOrder None alice "12 Elm St" "PayPal";
             PostCart None alice "p-widget" (Num 1);
             PutPay 1700000300 alice 0%nat;
             PostOrder None alice "12 Elm St" "PayPal";
             PutCancel alice 0%nat] in
  stock_of "p-widget" (shop 5 3) = Some 5
  ∧ held "p-widget" (orders (shop 5 3)) = 0
  ∧ stock_of "p-widget" (serve rs (shop 5 3)) = Some 4
  ∧ held "p-widget" (orders (serve rs (shop 5 3))) = 1.
Proof. vm_compute. repeat split. Qed.

(** ** The order a checkout writes *)

Lemma check_items_snapshot ps items acc t orderItems total :
  check_items items acc t = inr (orderItems, total) →
  Forall (populated_from ps) items →
  Forall (snapshot_of ps) acc → t = lines_total acc →
  Forall (snapshot_of ps) orderItems ∧ total = lines_total orderItems.
Proof.
  revert acc t. induction items as [|item items IH]; intros acc t; simpl.
  - by intros [= <- <-].
  - destruct (pop_product item) as [p|] eqn:Hp; [|done].
    destruct (product_isActive p) eqn:Hact; simpl; [|done].
    destruct (Z.ltb_spec (product_stock p) (pop_quantity item)) as [|Hq]; [done|].
    intros Hchk [Hitem Hpop]%Forall_cons Hacc Ht.
    apply (IH _ _ Hchk Hpop).
    + apply Forall_app. split; [done|]. constructor; [|done].
      exists p. unfold populated_from in Hitem. simpl. by rewrite <- Hitem, Hp.
    + unfold lines_total. rewrite foldl_app. simpl. by rewrite Ht.
Qed.

(** X15.  The order a checkout writes is a faithful invoice of the catalog
    at that moment: each line names a product that exists and is active,
    with that product's current name, first image and price and a quantity
    the stock covers; the lines are those of the cart, in order; and
    itemsPrice is the total of the order's own lines. *)
Theorem createOrder_invoice fault user shippingAddress paymentMethod s m order s' :
  createOrder fault user shippingAddress paymentMethod s = (Json 201 m (Some order), s') →
  Forall (snapshot_of (products s)) (order_items order)
  ∧ order_itemsPrice order = lines_total (order_items order)
  ∧ (∃ items, carts s !! user_id user = Some items
              ∧ order_lines (order_items order)
                = map (λ item, (item_product item, item_quantity item)) items)
  ∧ order_user order = user_id user
  ∧ order_paymentStatus order = Pending
  ∧ order_orderStatus order = Processing.
Proof.
  intros H. apply createOrder_201 in H as (items & orderItems & total & Hc & Hchk & -> & _).
  destruct (check_items_snapshot (products s) _ _ _ _ _ Hchk
              (populate_populated _ _) (Forall_nil_2 _) eq_refl) as [Hsnap Htot].
  split; [done|]. split; [done|]. split; [|done].
  exists items. split; [done|]. simpl.
  apply check_items_inr in Hchk as [_ ->]. simpl. unfold cart_lines.
  by rewrite <- list_fmap_compose.
Qed.

Lemma createOrder_invoice_witness :
  Forall (snapshot_of (products (shop 5 3))) (order_items widget_order)
  ∧ order_itemsPrice widget_order = lines_total (order_items widget_order)
  ∧ (∃ items, carts (shop 5 3) !! "u-alice" = Some items
              ∧ order_lines (order_items widget_order)
                = map (λ item, (item_product item, item_quantity item)) items)
  ∧ order_user widget_order = "u-alice"
  ∧ order_paymentStatus widget_order = Pending
  ∧ order_orderStatus widget_order = Processing.
Proof.
  apply (createOrder_invoice None alice "12 Elm St" "PayPal" (shop 5 3)
           (Some OrderCreated) widget_order
           (createOrder None alice "12 Elm St" "PayPal" (shop 5 3)).2).
  by vm_compute.
Defined.

(** ** clearCart and deleteProduct *)

(** X16.  DELETE /api/cart answers 404 and changes nothing when the user
    has no cart.  Otherwise it empties that cart and touches nothing
    else, and until the user adds something again a checkout and a
    validation both answer "Cart is empty" and getCart returns no line. *)
Theorem clearCart_handler_empties user s :
  (carts s !! user_id user = None →
   clearCart_handler user s = (Answer 404 (Some CartNotFound) None, s))
  ∧ (is_Some (carts s !! user_id user) →
     ∃ s', clearCart_handler user s = (Answer 200 (Some CartCleared) (Some []), s')
       ∧ carts s' !! user_id user = Some []
       ∧ products s' = products s ∧ orders s' = orders s
       ∧ (∀ uid, uid ≠ user_id user → carts s' !! uid = carts s !! uid)
       ∧ (∀ fault shippingAddress paymentMethod,
            createOrder fault user shippingAddress paymentMethod s'
            = (fail 400 CartIsEmpty, s'))
       ∧ validateCart user s' = (fail 400 CartIsEmpty, s')
       ∧ getCart user s' = (Json 200 None (Some []), s')).
Proof.
  unfold clearCart_handler. split.
  - by intros ->.
  - intros [items ->]. eexists. split; [done|].
    assert (findCart (user_id user) (clearCart (user_id user) s) = Some []) as Hcart
      by (unfold findCart, clearCart, saveCart; simpl; by rewrite lookup_insert_eq).
    split; [by simpl; rewrite lookup_insert_eq|]. split; [done|]. split; [done|].
    split; [intros uid Hne; simpl; by rewrite lookup_insert_ne|].
    split; [|split].
    + intros fault a pm. unfold createOrder. by rewrite Hcart.
    + unfold validateCart. by rewrite Hcart.
    + unfold getCart. by rewrite Hcart.
Qed.

Lemma clearCart_handler_empties_witness :
  ∃ s', clearCart_handler alice (shop 5 3)
        = (Answer 200 (Some CartCleared) (Some []), s')
    ∧ carts s' !! "u-alice" = Some []
    ∧ products s' = products (shop 5 3) ∧ orders s' = orders (shop 5 3)
    ∧ (∀ uid, uid ≠ "u-alice" → carts s' !! uid = carts (shop 5 3) !! uid)
    ∧ (∀ fault shippingAddress paymentMethod,
         createOrder fault alice shippingAddress paymentMethod s'
         = (fail 400 CartIsEmpty, s'))
    ∧ validateCart alice s' = (fail 400 CartIsEmpty, s')
    ∧ getCart alice s' = (Json 200 None (Some []), s').
Proof.
  apply (proj2 (clearCart_handler_empties alice (shop 5 3))). by eexists.
Defined.

Lemma check_items_refuses items acc t :
  ¬ Forall (λ item, line_ok item = true) items →
  ∃ m, check_items items acc t = inl m.
Proof.
  intros Hbad. destruct (check_items items acc t) as [m|[orderItems total]] eqn:Hchk;
    [by eauto|].
  apply check_items_inr in Hchk as [Hok _]. by destruct Hbad.
Qed.

(** X17.  Deleting a product blocks the checkout of every cart that holds
    it: createOrder answers 400 and writes nothing, whatever the other
    lines are.  The line goes away when the cart is read: after getCart no
    line of the stored cart refers to the deleted product. *)
Theorem deleteProduct_blocks_checkout id user s items :
  is_Some (products s !! id) →
  carts s !! user_id user = Some items → id ∈ map item_product items →
  ∃ s', deleteProduct id s = (Answer 200 (Some ProductDeleted) None, s')
    ∧ stock_of id s' = None
    ∧ (∀ fault shippingAddress paymentMethod,
         ∃ m, createOrder fault user shippingAddress paymentMethod s' = (fail 400 m, s'))
    ∧ id ∉ map item_product (cart_of (user_id user) (getCart user s').2).
Proof.
  intros [p Hp] Hc Hin. unfold deleteProduct. rewrite Hp. eexists. split; [done|].
  set (s' := {| products := delete id (products s); carts := carts s;
                orders := orders s |}).
  split; [unfold stock_of; simpl; by rewrite lookup_delete_eq|].
  assert (findCart (user_id user) s' = Some (map (populate (products s')) items)) as Hcart
    by (unfold findCart; simpl; by rewrite Hc).
  split.
  - intros fault a pm. unfold createOrder. rewrite Hcart.
    assert (map (populate (products s')) items ≠ []) as Hne.
    { destruct items; [|done]. by apply elem_of_nil in Hin. }
    rewrite createOrder_with_nonempty by done.
    destruct (check_items_refuses (map (populate (products s')) items) [] 0%float)
      as [m ->]; [|by eauto].
    intros Hok. apply list_elem_of_fmap in Hin as (item & -> & Hitem).
    rewrite Forall_fmap, Forall_forall in Hok. specialize (Hok item Hitem).
    unfold line_ok, populate in Hok. simpl in Hok.
    by rewrite lookup_delete_eq in Hok.
  - destruct (getCart_result user s') as (kept & _ & Hkept & Hact & Hstored).
    unfold cart_of. unfold findCart in Hstored.
    destruct (carts (getCart user s').2 !! user_id user) as [raw|]; [|done].
    simpl in *. injection Hstored as <-.
    intros (item & -> & Hitem)%list_elem_of_fmap.
    rewrite Forall_fmap, Forall_forall in Hact. specialize (Hact item Hitem).
    unfold survives, populate in Hact. simpl in Hact.
    assert (products (getCart user s').2 = products s') as Hps
      by (unfold getCart; destruct (findCart (user_id user) s'); simpl;
          [by case_bool_decide|done]).
    rewrite Hps in Hact. simpl in Hact. by rewrite lookup_delete_eq in Hact.
Qed.

Lemma deleteProduct_blocks_checkout_witness :
  ∃ s', deleteProduct "p-widget" (shop 5 3) = (Answer 200 (Some ProductDeleted) None, s')
    ∧ stock_of "p-widget" s' = None
    ∧ (∀ fault shippingAddress paymentMethod,
         ∃ m, createOrder fault alice shippingAddress paymentMethod s' = (fail 400 m, s'))
    ∧ "p-widget" ∉ map item_product (cart_of "u-alice" (getCart alice s').2).
Proof.
  apply (deleteProduct_blocks_checkout "p-widget" alice (shop 5 3)
           [mkCartItem "p-widget" 3 20%float]).
  - by eexists.
  - reflexivity.
  - simpl. apply elem_of_cons. by left.
Defined.

(** ** Who may do what with an order *)

(** X18.  Reading, paying and cancelling an order follow one ladder.  For
    an order whose owner's account exists: getOrder answers 200 with the
    order exactly for the owner and for admins, and 403 for everyone else;
    updateOrderToPaid turns away (403) exactly the callers getOrder turns
    away; and whoever gets a cancelOrder through can also read the
    order, while an admin who is not the owner can read it but not cancel
    it. *)
Theorem order_access account now user id s o :
  orders s !! id = Some o → account (order_user o) = true →
  (order_user o = user_id user ∨ isAdmin user = true →
   getOrder account user id s = Answer 200 None (Some o))
  ∧ (order_user o ≠ user_id user → isAdmin user = false →
     getOrder account user id s = Answer 403 (Some NotAuthorizedToAccess) None)
  ∧ ((updateOrderToPaid now user id s).1 = fail 403 NotAuthorizedToUpdate
     ↔ getOrder account user id s = Answer 403 (Some NotAuthorizedToAccess) None)
  ∧ (success (cancelOrder user id s).1 = true →
     answered_ok (getOrder account user id s) = true)
  ∧ (order_user o ≠ user_id user → isAdmin user = true →
     answered_ok (getOrder account user id s) = true
     ∧ (cancelOrder user id s).1 = fail 403 NotAuthorizedToCancel).
Proof.
  intros Hlook Hacc.
  unfold getOrder, updateOrderToPaid, cancelOrder. rewrite Hlook, Hacc. simpl negb.
  cbv iota.
  destruct (decide (order_user o = user_id user)) as [Heq|Hne].
  - rewrite !bool_decide_eq_false_2 by (by intros ?). simpl.
    split; [done|]. split; [done|]. split.
    + split; [|done]. by case_bool_decide.
    + split; [done|]. intros ?. done.
  - rewrite !bool_decide_eq_true_2 by done. simpl.
    destruct (isAdmin user); simpl.
    + split; [done|]. split; [done|]. split; [|done].
      split; [|done]. by case_bool_decide.
    + split; [by intros [?|?]|]. by repeat split.
Qed.

Lemma order_access_witness :
  answered_ok (getOrder (λ _, true) root 0 unpaid_order_store) = true
  ∧ (cancelOrder root 0 unpaid_order_store).1 = fail 403 NotAuthorizedToCancel.
Proof.
  pose proof (order_access (λ _, true) 1700000300 root 0 unpaid_order_store widget_order
                eq_refl eq_refl) as (_ & _ & _ & _ & H).
  apply H; [discriminate | reflexivity].
Defined.

(** ** Statistics *)

Lemma orders_by_status os :
  let n st := length (List.filter (λ o, bool_decide (order_orderStatus o = st)) os) in
  (n Processing + n Shipped + n Delivered + n Cancelled = length os)%nat.
Proof.
  induction os as [|o os IH]; simpl in *; [done|].
  destruct (order_orderStatus o); simpl; lia.
Qed.

Lemma orders_by_payment os :
  let n st := length (List.filter (λ o, bool_decide (order_paymentStatus o = st)) os) in
  (n Pending + n Paid + n Refunded = length os)%nat.
Proof.
  induction os as [|o os IH]; simpl in *; [done|].
  destruct (order_paymentStatus o); simpl; lia.
Qed.

Lemma group_count_elem {K} `{EqDecision K} (keys : list K) key os k n :
  (k, n) ∈ group_count keys key os
  ↔ k ∈ keys ∧ n ≠ O ∧ n = length (List.filter (λ o, bool_decide (key o = k)) os).
Proof.
  unfold group_count. rewrite list_elem_of_omap. split.
  - intros (k' & Hin & Hk').
    destruct (length (List.filter (λ o, bool_decide (key o = k')) os)) eqn:Hn; [done|].
    injection Hk' as <- <-. by rewrite Hn.
  - intros (Hin & Hn & ->). exists k. split; [done|].
    by destruct (length (List.filter (λ o, bool_decide (key o = k)) os)).
Qed.

(** X19.  The statistics add up.  The counts of the orderStatus buckets
    sum to totalOrders, and so do those of the paymentStatus buckets; a
    bucket exists exactly for the values that some order has, and its
    count is the number of those orders, never zero; and totalRevenue is 0
    when no order is Paid. *)
Theorem getOrderStats_adds_up s :
  let stats := getOrderStats s in
  totalOrders stats = length (orders s)
  ∧ sum_list (map snd (ordersByStatus stats)) = totalOrders stats
  ∧ sum_list (map snd (ordersByPaymentStatus stats)) = totalOrders stats
  ∧ (∀ st n, (st, n) ∈ ordersByStatus stats
             ↔ n ≠ O
               ∧ n = length (List.filter (λ o, bool_decide (order_orderStatus o = st))
                               (orders s)))
  ∧ (∀ st n, (st, n) ∈ ordersByPaymentStatus stats
             ↔ n ≠ O
               ∧ n = length (List.filter (λ o, bool_decide (order_paymentStatus o = st))
                               (orders s)))
  ∧ (Forall (λ o, order_paymentStatus o ≠ Paid) (orders s) →
     totalRevenue stats = 0%float).
Proof.
  cbv zeta. unfold getOrderStats. cbn [totalOrders ordersByStatus ordersByPaymentStatus
                                        totalRevenue].
  split; [done|]. split; [|split; [|split; [|split]]].
  - pose proof (orders_by_status (orders s)) as Hsum. cbv zeta in Hsum.
    unfold group_count. cbn [omap list_omap].
    repeat match goal with
           | |- context [length (List.filter ?f ?l)] =>
             destruct (length (List.filter f l)); simpl in *
           end; lia.
  - pose proof (orders_by_payment (orders s)) as Hsum. cbv zeta in Hsum.
    unfold group_count. cbn [omap list_omap].
    repeat match goal with
           | |- context [length (List.filter ?f ?l)] =>
             destruct (length (List.filter f l)); simpl in *
           end; lia.
  - intros st n. rewrite group_count_elem. split; [by intros (_ & ? & ?)|].
    intros [? ?]. split; [|done]. destruct st; set_solver.
  - intros st n. rewrite group_count_elem. split; [by intros (_ & ? & ?)|].
    intros [? ?]. split; [|done]. destruct st; set_solver.
  - intros Hnone.
    assert (List.filter (λ o, bool_decide (order_paymentStatus o = Paid)) (orders s) = [])
      as ->; [|done].
    induction Hnone as [|o os Ho _ IH]; simpl; [done|].
    by rewrite bool_decide_eq_false_2.
Qed.

Example getOrderStats_after_delivery :
  getOrderStats after_delivery
  = {| totalOrders := 1;
       totalRevenue := 0%float;
       ordersByStatus := [(Delivered, 1%nat)];
       ordersByPaymentStatus := [(Pending, 1%nat)] |}.
Proof. vm_compute. reflexivity. Qed.

(** ** Pages of orders *)

Lemma pages_bounds (total per : nat) :
  (0 < per)%nat →
  let pages := ((total + per - 1) / per)%nat in
  (total ≤ pages * per)%nat ∧ (0 < pages → (pages - 1) * per < total)%nat.
Proof.
  intros Hper. cbv zeta.
  pose proof (Nat.div_mod_eq (total + per - 1) per) as Hdiv.
  pose proof (Nat.mod_upper_bound (total + per - 1) per ltac:(lia)) as Hmod.
  split; nia.
Qed.

Lemma chunks_concat {A} (l : list A) (per k : nat) :
  concat (map (λ i, take per (drop (i * per) l)) (seq 0 k)) = take (k * per) l.
Proof.
  induction k as [|k IH]; [done|].
  rewrite seq_S, map_app, concat_app, IH. simpl. rewrite app_nil_r.
  rewrite take_take_drop. f_equal. lia.
Qed.

(** X20.  The pages of GET /api/orders tile the user's orders.  For a
    given limit, every page reports the same total and page count and
    holds at most [limit] orders; the pages 1 to [pages], one after the
    other, are exactly the user's orders, newest first, each once; no page
    up to [pages] is empty, and every page after it is. *)
Theorem getMyOrders_pages limit user s :
  let per := Pos.to_nat (default 10%positive limit) in
  let mine := List.filter (λ o, bool_decide (order_user o = user_id user)) (orders s) in
  let pages := paged_pages (getMyOrders None limit user s) in
  (∀ page,
     paged_total (getMyOrders page limit user s) = length mine
     ∧ paged_pages (getMyOrders page limit user s) = pages
     ∧ paged_count (getMyOrders page limit user s)
       = length (paged_orders (getMyOrders page limit user s))
     ∧ (paged_count (getMyOrders page limit user s) ≤ per)%nat)
  ∧ concat (map (λ k, paged_orders (getMyOrders (Some (Pos.of_nat k)) limit user s))
              (seq 1 pages)) = reverse mine
  ∧ (∀ page, (Pos.to_nat page ≤ pages)%nat →
       paged_orders (getMyOrders (Some page) limit user s) ≠ [])
  ∧ (∀ page, (pages < Pos.to_nat page)%nat →
       paged_orders (getMyOrders (Some page) limit user s) = []).
Proof.
  cbv zeta. unfold getMyOrders. cbn [paged_total paged_pages paged_count paged_orders].
  set (per := Pos.to_nat (default 10%positive limit)).
  set (mine := List.filter _ (orders s)).
  assert (0 < per)%nat as Hper by (unfold per; lia).
  destruct (pages_bounds (length mine) per Hper) as [Hup Hlow].
  set (pages := ((length mine + per - 1) / per)%nat) in *.
  split; [|split; [|split]].
  - intros page. repeat split. rewrite length_take. lia.
  - rewrite <- seq_shift, map_map.
    rewrite (map_ext _ (λ i, take per (drop (i * per) (reverse mine)))).
    + rewrite chunks_concat. apply take_ge. rewrite length_reverse. lia.
    + intros i.
      change (default 1%positive (Some (Pos.of_nat (S i)))) with (Pos.of_nat (S i)).
      rewrite (Nat2Pos.id (S i)) by done. do 2 f_equal. lia.
  - intros page Hpage.
    change (default 1%positive (Some page)) with page. intros Hnil.
    apply (f_equal length) in Hnil. rewrite length_take, length_drop, length_reverse in Hnil.
    simpl in Hnil.
    assert ((Pos.to_nat page - 1) * per ≤ (pages - 1) * per)%nat by nia.
    assert (0 < pages)%nat by lia. specialize (Hlow ltac:(done)). lia.
  - intros page Hpage.
    change (default 1%positive (Some page)) with page.
    rewrite drop_ge; [by rewrite take_nil|].
    rewrite length_reverse. nia.
Qed.

Example getMyOrders_second_page :
  let s := serve [PostOrder None alice "12 Elm St" "PayPal";
                  PostCart None alice "p-widget" (Num 1);
                  PostOrder None alice "12 Elm St" "PayPal";
                  PostCart None alice "p-widget" (Num 1);
                  PostOrder None alice "12 Elm St" "PayPal"] (shop 5 3) in
  let r := getMyOrders (Some 2%positive) (Some 2%positive) alice s in
  paged_total r = 3%nat ∧ paged_pages r = 2%nat ∧ paged_count r = 1%nat
  ∧ paged_orders r = take 1 (orders s).
Proof. vm_compute. repeat split. Qed.

(** ** Reviews *)

Lemma calculateRating_twice p : calculateRating (calculateRating p) = calculateRating p.
Proof.
  unfold calculateRating. destruct (reviews p) as [|rv rvs] eqn:Hr; simpl; [done|].
  done.
Qed.

Lemma find_reviewed_None uid rvs :
  List.find (reviewed_by uid) rvs = None → uid ∉ map review_user rvs.
Proof.
  induction rvs as [|rv rvs IH]; simpl; [intros _; apply not_elem_of_nil|].
  unfold reviewed_by at 1. case_bool_decide as Hu; [done|].
  intros H. apply not_elem_of_cons. split; [congruence|by apply IH].
Qed.

Lemma find_reviewed_app uid rvs more rv :
  List.find (reviewed_by uid) rvs = Some rv →
  List.find (reviewed_by uid) (rvs ++ more) = Some rv.
Proof.
  induction rvs as [|x rvs IH]; simpl; [done|].
  destruct (reviewed_by uid x); [done|]. apply IH.
Qed.

(** A review request leaves every product in the catalog, with the
    reviews it had and at most one more at the end. *)
Lemma review_grows catalog r id p :
  catalog !! id = Some p →
  ∃ p' more, review catalog r !! id = Some p' ∧ reviews p' = reviews p ++ more.
Proof.
  intros Hp. unfold review, createProductReview.
  destruct (catalog !! rr_product r) as [q|] eqn:Hq;
    [|exists p, []; by rewrite app_nil_r].
  destruct (List.find _ (reviews q)); [exists p, []; by rewrite app_nil_r|].
  cbn [snd]. unfold saveRated.
  destruct (decide (rr_product r = id)) as [Heq|Hne].
  - rewrite Heq in *. rewrite Hp in Hq. injection Hq as <-.
    rewrite lookup_insert_eq. eexists _, _. split; [done|].
    unfold calculateRating. cbn [reviews].
    by destruct (reviews p ++ _) eqn:Happ.
  - rewrite lookup_insert_ne by done. exists p, []. by rewrite app_nil_r.
Qed.

(** X21.  One review per user and product, for good: once a user's review
    of a product has been accepted, every later review of that product by
    that user is answered 400 "Product already reviewed" and changes
    nothing, whatever reviews were accepted or refused in between. *)
Theorem createProductReview_once user username id rating comment catalog rs
    username2 rating2 comment2 :
  answered_ok (createProductReview user username id rating comment catalog).1 = true →
  let later := foldl review (createProductReview user username id rating comment catalog).2
                 rs in
  createProductReview user username2 id rating2 comment2 later
  = (Answer 400 (Some AlreadyReviewed) None, later).
Proof.
  intros Hok.
  assert (∃ p rv, (createProductReview user username id rating comment catalog).2 !! id
                  = Some p
                  ∧ List.find (reviewed_by (user_id user)) (reviews p) = Some rv)
    as (p & rv & Hp & Hfind).
  { unfold createProductReview in *. destruct (catalog !! id) as [q|]; [|done].
    destruct (List.find _ (reviews q)) eqn:Hnone; [done|]. cbn [snd].
    unfold saveRated. rewrite lookup_insert_eq. eexists _, _. split; [done|].
    unfold calculateRating. cbn [reviews].
    destruct (reviews q ++ _) eqn:Happ; [by destruct (reviews q)|].
    cbn [reviews]. rewrite <- Happ. clear Happ.
    induction (reviews q) as [|x rvs IH]; simpl in *.
    - unfold reviewed_by. simpl. by rewrite bool_decide_eq_true_2.
    - destruct (reviewed_by (user_id user) x); [done|]. by apply IH. }
  cbv zeta. revert Hp Hfind.
  generalize (createProductReview user username id rating comment catalog).2.
  intros c. revert c p. induction rs as [|r rs IH]; intros c p Hp Hfind; simpl.
  - unfold createProductReview. by rewrite Hp, Hfind.
  - destruct (review_grows c r id p Hp) as (p' & more & Hp' & Hmore).
    apply (IH _ p' Hp'). rewrite Hmore. by apply find_reviewed_app.
Qed.

Lemma createProductReview_once_witness :
  let catalog := {[ "p-widget" := mkRated [] 0%float 0 ]} in
  let later :=
    foldl review (createProductReview alice "alice" "p-widget" 5 "Sturdy" catalog).2
      [mkReviewRequest bob "bob" "p-widget" 3 "Fine"] in
  createProductReview alice "alice" "p-widget" 1 "Changed my mind" later
  = (Answer 400 (Some AlreadyReviewed) None, later).
Proof.
  apply (createProductReview_once alice "alice" "p-widget" 5 "Sturdy"
           {[ "p-widget" := mkRated [] 0%float 0 ]}
           [mkReviewRequest bob "bob" "p-widget" 3 "Fine"]).
  reflexivity.
Defined.

Lemma review_sound catalog r :
  map_Forall (λ _ p, rated_sound p) catalog →
  map_Forall (λ _ p, rated_sound p) (review catalog r).
Proof.
  intros Hall. unfold review, createProductReview.
  destruct (catalog !! rr_product r) as [q|] eqn:Hq; [|done].
  destruct (List.find _ (reviews q)) eqn:Hfind; [done|]. cbn [snd].
  unfold saveRated. apply map_Forall_insert_2; [|done].
  destruct (Hall _ _ Hq) as (_ & Hnd & _).
  set (reviews' := reviews q ++ _).
  assert (reviews' ≠ []) as Hne by (unfold reviews'; by destruct (reviews q)).
  split; [|split].
  - unfold calculateRating. cbn [reviews]. by destruct reviews'.
  - assert (reviews (calculateRating {| reviews := reviews'; rating := 0%float;
                                         numReviews := 0 |}) = reviews') as Hr
      by (unfold calculateRating; cbn [reviews]; by destruct reviews').
    unfold calculateRating in *. cbn [reviews] in *.
    destruct reviews' eqn:Hrev; [done|]. cbn [reviews]. rewrite <- Hrev.
    unfold reviews'. rewrite map_app. apply NoDup_app. split; [done|]. split.
    + intros x Hx [->|[]%elem_of_nil]%elem_of_cons.
      by apply (find_reviewed_None _ _ Hfind).
    + apply NoDup_singleton.
  - symmetry. apply calculateRating_twice.
Qed.

(** X22.  The review fields of the catalog stay sound under every sequence
    of review requests: numReviews is the number of reviews, no user has
    two reviews on one product, and the stored rating is the one
    calculateRating gives (0 without reviews, the mean otherwise). *)
Theorem reviews_stay_sound rs catalog :
  map_Forall (λ _ p, rated_sound p) catalog →
  map_Forall (λ _ p, rated_sound p) (foldl review catalog rs).
Proof.
  revert catalog. induction rs as [|r rs IH]; intros catalog Hall; simpl; [done|].
  by apply IH, review_sound.
Qed.

Lemma reviews_stay_sound_witness :
  map_Forall (λ _ p, rated_sound p)
    (foldl review {[ "p-widget" := mkRated [] 0%float 0 ]}
       [mkReviewRequest alice "alice" "p-widget" 5 "Sturdy";
        mkReviewRequest bob "bob" "p-widget" 3 "Fine";
        mkReviewRequest alice "alice" "p-widget" 1 "Changed my mind"]).
Proof.
  apply reviews_stay_sound. apply map_Forall_singleton.
  split; [done|]. split; [apply NoDup_nil_2|done].
Defined.

Example two_reviews_rated :
  foldl review {[ "p-widget" := mkRated [] 0%float 0 ]}
    [mkReviewRequest alice "alice" "p-widget" 5 "Sturdy";
     mkReviewRequest bob "bob" "p-widget" 4 "Fine";
     mkReviewRequest alice "alice" "p-widget" 1 "Changed my mind"]
    !! "p-widget"
  = Some {| reviews := [mkReview "u-alice" "alice" 5%float "Sturdy";
                        mkReview "u-bob" "bob" 4%float "Fine"];
            rating := 4.5%float;
            numReviews := 2 |}.
Proof. vm_compute. reflexivity. Qed.

(** ** One line per product, in every cart *)

Lemma kept_lines_NoDup (f : PopulatedItem → bool) items :
  NoDup (map pop_ref items) →
  NoDup (map item_product (map depopulate (map corrected (List.filter f items)))).
Proof.
  assert (∀ l, map item_product (map depopulate (map corrected l)) = map pop_ref l) as ->.
  { intros l. induction l as [|x l IH]; simpl; [done|]. rewrite IH. f_equal.
    unfold corrected. by destruct (pop_product x). }
  induction items as [|x items IH]; simpl; [done|].
  intros [Hx Hnd]%NoDup_cons. destruct (f x); simpl; [|by apply IH].
  apply NoDup_cons. split; [|by apply IH].
  intros (y & Hy & Hin)%list_elem_of_fmap. apply Hx. apply list_elem_of_fmap.
  exists y. split; [done|]. clear -Hin.
  induction items as [|z items IH]; simpl in *; [done|].
  destruct (f z); [|by right; apply IH].
  apply elem_of_cons in Hin as [->|Hin]; [by left|right; by apply IH].
Qed.

Lemma run_writes_carts uid fault ws s :
  Forall (λ w : Store → Store, ∀ s, carts (w s) = carts s) ws →
  carts (run_writes fault (ws ++ [clearCart uid]) s).2 = carts s
  ∨ carts (run_writes fault (ws ++ [clearCart uid]) s).2 = <[uid := []]> (carts s).
Proof.
  intros Hws. revert fault s.
  induction Hws as [|w ws Hw _ IH]; intros fault s.
  - destruct fault as [[|k]|]; [by left|by right|by right].
  - change ((w :: ws) ++ [clearCart uid]) with (w :: (ws ++ [clearCart uid])).
    rewrite run_writes_cons. destruct fault as [[|k]|]; [by left| |];
      rewrite <- (Hw s); apply IH.
Qed.

Lemma createOrder_carts fault user shippingAddress paymentMethod s :
  carts (createOrder fault user shippingAddress paymentMethod s).2 = carts s
  ∨ carts (createOrder fault user shippingAddress paymentMethod s).2
    = <[user_id user := []]> (carts s).
Proof.
  unfold createOrder. destruct (findCart (user_id user) s) as [[|i items]|];
    [by left| |by left].
  rewrite createOrder_with_nonempty by done.
  destruct (check_items (i :: items) [] 0%float) as [msg|[orderItems total]]; [by left|].
  cbv zeta. set (order := new_order _ _ _ _ _).
  assert (Forall (λ w : Store → Store, ∀ s, carts (w s) = carts s)
            (insertOrder order :: stock_writes (i :: items))) as Hws.
  { constructor; [done|]. unfold stock_writes. by apply Forall_fmap, Forall_true. }
  pose proof (run_writes_carts (user_id user) fault _ s Hws) as Hcases.
  unfold commit_writes.
  change (insertOrder order :: stock_writes (i :: items) ++ [clearCart (user_id user)])
    with ((insertOrder order :: stock_writes (i :: items)) ++ [clearCart (user_id user)]).
  by destruct (run_writes fault _ s) as [[] s'].
Qed.

Lemma addToCart_carts fault user productId quantity s :
  lower_hex productId = productId →
  carts (addToCart fault user productId quantity s).2 = carts s
  ∨ ∃ items',
      carts (addToCart fault user productId quantity s).2
      = <[user_id user := items']> (carts s)
      ∧ (one_line_per_product (cart_of (user_id user) s) → one_line_per_product items').
Proof.
  intros Hid.
  destruct (addToCart_cases fault user productId quantity s)
    as [[_ [-> | (_ & _ & ->)]] | (p & items' & _ & _ & _ & _ & _ & Hc & Hshape)].
  - by left.
  - right. exists []. split; [done|]. intros _. apply NoDup_nil_2.
  - right. exists items'. split; [done|]. unfold one_line_per_product. intros Hnd.
    destruct Hshape as [(n & Hfind & _ & ->)|(e & m & _ & _ & ->)].
    + rewrite map_app, Hid. simpl. apply NoDup_app. split; [done|]. split.
      * intros x Hx [->|[]%elem_of_nil]%elem_of_cons.
        by apply (find_line_None productId (cart_of (user_id user) s)).
      * apply NoDup_singleton.
    + by rewrite set_first_quantity_products.
Qed.

Lemma validateCart_carts user s :
  carts (validateCart user s).2 = carts s
  ∨ ∃ items kept,
      carts s !! user_id user = Some items
      ∧ carts (validateCart user s).2 = <[user_id user := kept]> (carts s)
      ∧ (one_line_per_product items → one_line_per_product kept).
Proof.
  destruct (carts s !! user_id user) as [raw|] eqn:Hraw;
    [|left; unfold validateCart, findCart; by rewrite Hraw].
  assert (findCart (user_id user) s = Some (map (populate (products s)) raw)) as Hcart
    by (unfold findCart; by rewrite Hraw).
  destruct (decide (Forall (λ item, line_ok item = true) (map (populate (products s)) raw)))
    as [Hok|Hbad].
  - left. destruct raw as [|x raw]; [unfold validateCart; by rewrite Hcart|].
    by rewrite (validateCart_clean user s _ Hcart ltac:(done) Hok).
  - right. destruct (validateCart_dirty user s _ Hcart Hbad) as (errors & _ & ->).
    eexists _, _. split; [done|]. split; [done|].
    unfold one_line_per_product. intros Hnd. apply kept_lines_NoDup.
    by rewrite <- list_fmap_compose.
Qed.

Lemma handle_carts_sound r s :
  names_stored_id r = true →
  map_Forall (λ _ items, one_line_per_product items) (carts s) →
  map_Forall (λ _ items, one_line_per_product items) (carts (handle s r)).
Proof.
  intros Hid Hall.
  destruct r as [fault u a pm | now u i | u i | now u i st tn n | f u pid q | u];
    cbn [handle].
  - destruct (createOrder_carts fault u a pm s) as [->| ->]; [done|].
    apply map_Forall_insert_2; [apply NoDup_nil_2|done].
  - unfold updateOrderToPaid. destruct (orders s !! i); [|done].
    destruct (_ && _); [done|]. by case_bool_decide.
  - unfold cancelOrder. destruct (orders s !! i) as [o|]; [|done].
    case_bool_decide; [done|]. destruct (terminal _); [done|]. simpl.
    by rewrite restore_stock_carts.
  - unfold adminOnly. destruct (isAdmin u); [|done].
    unfold updateOrderStatus. by destruct (orders s !! i).
  - apply bool_decide_eq_true_1 in Hid.
    destruct (addToCart_carts f u pid q s Hid) as [->|(items' & -> & Hnd)]; [done|].
    apply map_Forall_insert_2; [|done]. apply Hnd. unfold cart_of.
    destruct (carts s !! user_id u) as [items|] eqn:Hc; simpl; [|apply NoDup_nil_2].
    by apply (Hall _ _ Hc).
  - destruct (validateCart_carts u s) as [->|(items & kept & Hc & -> & Hnd)]; [done|].
    apply map_Forall_insert_2; [|done]. apply Hnd. by apply (Hall _ _ Hc).
Qed.

(** X23.  "At most one line per product" is an invariant of every cart in
    the store as long as every add names its product by the lower-case
    form of the id: if it holds of all carts, it holds of all carts after
    any sequence of checkouts, payments, cancellations, status updates,
    adds and validations, failing writes included, with quantities sent
    as numbers or as strings. *)
Theorem carts_stay_merged rs s :
  Forall (λ r, names_stored_id r = true) rs →
  map_Forall (λ _ items, one_line_per_product items) (carts s) →
  map_Forall (λ _ items, one_line_per_product items) (carts (serve rs s)).
Proof.
  intros Hids. revert s.
  induction Hids as [|r rs Hr _ IH]; intros s Hall; simpl; [done|].
  by apply IH, handle_carts_sound.
Qed.

Lemma carts_stay_merged_witness :
  map_Forall (λ _ items, one_line_per_product items)
    (carts (serve [PostCart None alice widget_id (Num 2);
                   PostCart None alice widget_id (Str "3");
                   PostCart (Some 1%nat) bob widget_id (Num 1);
                   PostCartValidate alice;
                   PostOrder (Some 1%nat) alice "12 Elm St" "PayPal"] hex_shop)).
Proof.
  apply carts_stay_merged; [|apply map_Forall_empty].
  repeat constructor.
Defined.

(** An add that names the product in upper case breaks the invariant. *)
Example upper_case_id_adds_a_line :
  ¬ map_Forall (λ _ items, one_line_per_product items)
      (carts (serve [PostCart None alice widget_id (Num 2);
                     PostCart None alice "64B7F0A1C2D3E4F5A6B7C8D9" (Num 3)] hex_shop)).
Proof.
  intros Hall.
  specialize (Hall "u-alice"
                [mkCartItem widget_id 2 20%float; mkCartItem widget_id 3 20%float]).
  assert (one_line_per_product
            [mkCartItem widget_id 2 20%float; mkCartItem widget_id 3 20%float]) as Hnd
    by (apply Hall; vm_compute; reflexivity).
  apply NoDup_cons in Hnd as [Hnot _]. apply Hnot. by left.
Qed.
